(* ===== verification/_CoqProject ===== *)
-Q . S2P
Prelude.v
JsString.v
Engine.v
Page.v
Decode.v
Ingest.v
Handlers.v
Pipeline.v
Script.v
Scenarios.v
Files.v
Refinement.v
Equiv.v
