(* ===== verification/Prelude.v ===== *)
(** * A verification development for baehi/text-analyzer

    ** The program

    [src/script.js] is the whole repository: the script of a web page that
    lets the user pick a text file, hands the file's text to a WebAssembly
    engine and shows what the engine returns.  Its top level declares one
    global, looks five elements up and installs three handlers; a fourth and
    a fifth are installed by the click listener on each reader it creates:

    - [processText] (line 2): [null] until the engine is loaded, then the
      function [Module.cwrap("process_text", "string", ["string"])];
    - the constants [fileInput], [analyzeBtn], [logArea], [resultDiv] and
      [fileNameSpan] (lines 6-12): what [document.getElementById] finds,
      [null] where the document has no such element;
    - the [change] listener of [fileInput] (lines 15-21) shows the name of the
      first selected file, or a placeholder;
    - [Module.onRuntimeInitialized] (lines 26-32) sets [processText] and
      overwrites the log with a greeting;
    - the [click] listener of [analyzeBtn] (lines 37-74) checks that a file is
      selected, then that the engine is loaded, and starts an asynchronous
      [FileReader.readAsText];
    - [reader.onload] (lines 52-67) clears the log, reports the length of the
      text, calls the engine, shows its result and reports completion;
      [reader.onerror] (lines 69-71) overwrites the log with an error line.

    The handlers communicate through the page: the text of [logArea],
    [resultDiv] and [fileNameSpan], the selection of [fileInput], the global
    [processText], and the file readers in flight.  Handlers run to completion
    one at a time (one event loop); the only suspension is between
    [readAsText] and the reader's [load] or [error] event.

    ** The files

    - [Prelude] (this file): the completion type and the state-and-exception
      monad [JS] in which handlers are written, with its laws; a small library
      of labelled transition systems (traces, reachability, inductive
      invariants, runs of an executable step function, forward simulation);
      the tactics [js_simp] and [js_solve] and the hint databases [js] of the
      development.
    - [JsString]: JavaScript strings as lists of UTF-16 code units; string
      literals of the UTF-8 source file ([js_lit], escapes included);
      [Number_toString] for the template literal of line 58 with its parser
      and round trip.
    - [Engine]: [Module.cwrap] and the call of a wrapper through the class
      [WasmModule]; the contract of the external engine as the class
      [TextProcessor] (state, call, possible exception), the class
      [PureProcessor] of engines that never throw and keep no state, and the
      stub engines that the specification's tests name (upper-casing,
      failing, failing after some calls, recording).
    - [Page]: the document and the look-ups of lines 6-12 ([Document],
      [getElementById], [Elements]); the page as a record ([Page]: globals,
      constants and DOM texts; [World]: page, engine state, readers in
      flight); the primitive reads and writes the handlers use, each of
      which dereferences its constant first ([deref]); and the message
      constants of the script.
    - [Decode]: the browser's decoding of the bytes of a file, after the
      Encoding Standard: the sniffing of a byte order mark ([BOM_sniff]),
      the UTF-8 and UTF-16 decoders as handlers over a state
      ([utf8_handler], [utf16_handler]) with bytes pushed back on an error,
      the loop that runs a handler over the queue of bytes
      ([process_queue]) and [decode], which replaces what is ill formed by
      U+FFFD.  A decoder is a record of its state, its handler and two
      measures with their laws ([Decoder]), so that termination and the
      bound on the output are proved once.
    - [Ingest]: the text of a file as the script receives it
      ([decode_utf8]), the UTF-8 and UTF-16 encoders, the round trips that
      validate the decoder against them, and the length of a text in code
      units against the size of its file in bytes.
    - [Handlers]: one definition per handler, in the [JS] monad, statement by
      statement as in the source, and a theorem per branch of each handler.
    - [Pipeline]: the event loop as a labelled transition system: the events
      the environment can deliver, [dispatch] and [fire] (which handler
      runs, and the world it leaves), the relation [step] with one rule per
      handler branch, the branches that end in a [TypeError] on a missing
      element included, and its equivalence with [fire], the invariants of
      reachable worlds, and the calls made to the engine along a trace.
    - [Script]: the top level of the script ([script_main], lines 2-37) in
      the [JS] monad over the state of the browser ([Browser]: the world,
      the document, whether the loader has declared [Module], whether the
      runtime has initialized, which handlers are installed), and the event
      loop at that level ([bfire]): the script is evaluated once, and an
      event of [Pipeline] runs the handler the script has installed for it,
      if any.
    - [Scenarios]: whole sequences of events run from an arbitrary initial
      world: the testable properties of the specification's section 8, and
      the sequences the specification leaves open (a second click or a new
      selection during a read, a selection before the engine is loaded, an
      engine that fails on the second analysis).
    - [Files]: what decides the outcome of a read: a file system as a class
      ([FileSystem], with finite maps from file handles to bytes as its
      instance [Disk]), the system of a world and its files ([System]), and
      its turns ([sys_fire], [sys_step]): the page is acted upon, a read
      completes with what its file holds at that moment, decoded, or with an
      error when the file cannot be read, or the files change.  A turn is a
      run of [Pipeline] on the events it resolves to.
    - [Refinement]: the state machine of the specification's section 4.6 as
      the relation [Spec.transition], the abstraction [phase] from worlds
      to its states, the environments the specification describes
      ([disciplined]), and the proof that the script refines the machine in
      those environments.
    - [Equiv]: worlds up to the order in which the reads in flight are
      listed, as a setoid; the handlers and the update functions are
      [Proper] for it, and the event loop is a bisimulation up to it.  This
      is a check of the model, not a property of the script: no claim of
      the development rests on it.

    ** Modelling choices

    - A JavaScript string is a [list N] of UTF-16 code units, so [length] is
      [String.prototype.length].  Literals are written as in the source and
      decoded by [js_lit].
    - A handler is a value of [JS (World E) js_error A]: a function from the
      world to a completion ([Normal] or [Throw]) and the world it leaves.
      The world survives a throw, as the DOM does when a listener throws.
    - An element is reduced to the property the script touches, and a
      constant of lines 6-12 to whether its look-up found an element
      ([Elements]).  A statement that reads or writes a property of a
      constant first dereferences it, and throws a [TypeError] when it is
      [null]; the handlers themselves are written as in the source, with no
      test of their own.  [has el w] says that the constant [el] holds an
      element, [complete w] that all five do.
    - [Pipeline] starts from the worlds the top level leaves ([initial]:
      [processText] is [null], no read in flight) and delivers every event to
      its handler.  [Script] derives those worlds: it runs the top level and
      delivers an event only to a handler that has been installed.  The
      theorem [page_load_refines_pipeline] connects the two levels.
    - The engine is a parameter: the theorems of [Handlers] and [Pipeline]
      are proved for an arbitrary [WasmModule], those that speak of the
      engine's answer for an arbitrary [TextProcessor], whose call may change
      the engine's state and may throw.
    - The script keeps no variable for the state of the pipeline.  The state
      of the specification's machine is read off the world by [phase]: is
      [processText] set, is a read in flight, is a file selected.
    - In [Pipeline] the environment chooses the outcome of a read: the
      label of a completion carries the decoded text, or says that the read
      failed.  [Files] derives the label from the files: the text is the
      decoding of the bytes the file holds when the read completes, with
      the encoding of the reader's label; a file may change or vanish
      between two reads.  Bytes are numbers; where a theorem needs them
      below 256 it says so ([is_byte]).
    - The decoder follows the Encoding Standard step by step, its states
      and boundaries included, for the encodings a text file can be read in
      here: UTF-8, which the script asks for, and UTF-16 in both byte
      orders, which a byte order mark selects whatever the script asks for.
      The literals of the script are read off its source by the simpler
      [utf8_code_points] of [JsString], which is only used on the
      well-formed source; [utf8_roundtrip] relates the two.
    - Several reads may be in flight; they may complete in any order.  Nothing
      is cancelled.  No fuel is used anywhere: every handler is a total
      function, and [Number_toString] and [process_queue] recurse on a
      well-founded measure (for the latter, the weight of the decoder's
      state plus four times the length of the queue, which every call of a
      handler decreases although it may push bytes back).

    ** What the theorems show

    - [JsString]: [Number_toString] prints decimal digits without a leading
      zero and [parse_decimal] inverts it, so the length line determines the
      length; literals decode to the expected code units.
    - [Decode]: whatever the bytes of a file, the decoded text consists of
      scalar values only, so the string the script receives is well-formed
      UTF-16; it has at most as many code units as the file has bytes.
    - [Ingest]: the decoder inverts the UTF-8 encoder on every text, up to
      the byte order mark it strips; the length the log reports is at most
      the size of the file, for every file, and equal to it only for ASCII
      text, so the line labelled bytes reports the size of ASCII files only;
      a file that begins with a byte order mark of UTF-16 is read as UTF-16
      although the script asks for UTF-8.
    - [Handlers]: the effect of every branch of every handler on every part of
      the world, the error branches included (no file, engine not loaded,
      engine throws, [fileInput.files] is null, an element is missing).
    - [Pipeline]: [step] and [fire] agree on every page, complete or not; a
      read in flight implies a loaded engine, so the call of line 61 never
      finds [null]; on a complete page the only exception left uncaught is
      one the engine throws; on a page with a log the engine processes
      exactly the texts of the successful reads, in the order of their
      completion, and on a page without one it is never called;
      completions alone terminate; the user's events are always enabled.
    - [Script]: the script completes exactly when the document holds the
      file input and the button and [Module] is declared, and otherwise
      ends with the exception of the first registration that fails; a page
      on which it
      completed is the pipeline from an initial world; a page on which it
      did not never analyses anything, because the click listener is
      installed last; and if the runtime initializes before the script has
      installed its hook, [processText] stays [null] for ever.
    - [Scenarios]: one analysis end to end; the last selection before the
      click is the one read; recovery after a failed read; what a second
      click, a late selection and an early selection do; the display after
      an engine failure; the log is not append-only; the length reported is
      a number of code units, not of bytes.  They are stated for every
      initial world whose page is complete.
    - [Files]: the content that is analysed is that of the file selected
      last; nothing read is kept between two analyses, and a file that has
      vanished gives the read error and no call of the engine; the engine
      only ever analyses decoded contents of files; every read in flight
      completes, and the engine has then processed the text of each
      readable file, in the order in which the reads were started.
    - [Refinement]: along every disciplined run from an initial world with an
      empty selection, the transitions the events stand for form a run of
      the specification's machine that ends in the phase of the final world,
      and at most one read is in flight.  What the script does outside such
      runs (a pick before readiness, a click or a pick during a read) is in
      [Scenarios].
    - [Equiv]: the list of the reads in flight and the positions that
      completions name are bookkeeping of the model: worlds that differ only
      in the order of the list are taken by the same events to the same page
      and the same engine.

    ** Bounds

    Nothing is bounded: texts, file lists, the number of reads in flight and
    the length of traces are arbitrary, and so are the document and the
    bytes of the files.  The
    theorems on traces are by induction on the trace; the simulation is by
    cases on the rule of [step] and on the three tests [phase] makes.  The
    sample worlds and pages ([w_fresh], [b_fresh] and what is reached from
    them) only serve to evaluate the theorems at concrete inputs.

    ** What is not modelled

    The engine's analysis (an opaque collaborator), the Emscripten glue behind
    [Module.cwrap] (marshalling of strings, the heap of the module) and the
    code of the loader that calls [Module.onRuntimeInitialized], the HTML
    page beyond the identifiers of its elements (layout, styling, the kinds
    of the elements other than whether [fileInput] has a list of files), and
    the dialog of the file picker: the environment chooses the selection of
    a change event.  Of the file system only what a read needs is modelled
    (the bytes of a file, or that it cannot be read, at the moment the read
    completes); a read is atomic, and whether a file that was modified
    after its selection can still be read is left to the file system.  Of
    the decoder, the
    legacy encodings and their labels are not modelled: the script passes
    [utf-8], and a byte order mark selects UTF-8 or UTF-16 only.  A
    [Module] that is declared but has no [cwrap] is not modelled. *)

From stdpp Require Export base tactics option list numbers.

Declare Scope js_scope.
Delimit Scope js_scope with js.

(** ** Completions and the handler monad *)

(** The completion of a JavaScript statement list: it ends normally with a
    value, or abruptly with a thrown value. *)
Inductive completion (X A : Type) : Type :=
| Normal (a : A)
| Throw (x : X).
Arguments Normal {X A} a.
Arguments Throw {X A} x.

#[export] Instance completion_eq_dec {X A : Type}
  `{EqDecision X, EqDecision A} : EqDecision (completion X A).
Proof. solve_decision. Defined.

Definition is_normal {X A : Type} (c : completion X A) : bool :=
  match c with Normal _ => true | Throw _ => false end.

(** A computation over a mutable state [S] that may throw an [X]: the state it
    leaves is returned in both cases. *)
Definition JS (S X A : Type) : Type := S → completion X A * S.

Section monad.
Context {S X : Type}.

Definition js_ret {A : Type} (a : A) : JS S X A := λ s, (Normal a, s).

Definition js_bind {A B : Type} (k : A → JS S X B) (m : JS S X A) : JS S X B :=
  λ s, match m s with
       | (Normal a, s') => k a s'
       | (Throw x, s') => (Throw x, s')
       end.

Definition js_throw {A : Type} (x : X) : JS S X A := λ s, (Throw x, s).

Definition js_gets {A : Type} (f : S → A) : JS S X A := λ s, (Normal (f s), s).

Definition js_modify (f : S → S) : JS S X unit := λ s, (Normal (), f s).

(** The state a computation leaves, and how it completes. *)
Definition exec {A : Type} (m : JS S X A) (s : S) : S := (m s).2.
Definition outcome {A : Type} (m : JS S X A) (s : S) : completion X A := (m s).1.

#[export] Instance JS_ret : MRet (JS S X) := @js_ret.
#[export] Instance JS_bind : MBind (JS S X) := @js_bind.

End monad.

(** ** Tactics and hint databases *)

Create HintDb js discriminated.
Create Rewrite HintDb js.

(** [js_unfold] exposes the monad; [js_run] then computes. *)
Ltac js_unfold :=
  unfold exec, outcome, mret, mbind, JS_ret, JS_bind,
    js_bind, js_ret, js_throw, js_gets, js_modify in *.
Ltac js_run := js_unfold; simpl in *.

(** Case analysis on the scrutinee of the first [match] of the goal. *)
Ltac case_scrutinee :=
  match goal with
  | |- context [match ?x with _ => _ end] => destruct x eqn:?
  end.

Section monad_laws.
Context {S X : Type}.
Implicit Types s : S.

Lemma js_bind_ret_l {A B : Type} (a : A) (k : A → JS S X B) s :
  js_bind k (js_ret a) s = k a s.
Proof. done. Qed.

Lemma js_bind_ret_r {A : Type} (m : JS S X A) s : js_bind js_ret m s = m s.
Proof. unfold js_bind, js_ret. by destruct (m s) as [[]]. Qed.

Lemma js_bind_assoc {A B C : Type}
  (m : JS S X A) (k : A → JS S X B) (h : B → JS S X C) s :
  js_bind h (js_bind k m) s = js_bind (λ a, js_bind h (k a)) m s.
Proof. unfold js_bind. by destruct (m s) as [[]]. Qed.

Lemma js_bind_throw {A B : Type} (x : X) (k : A → JS S X B) s :
  js_bind k (js_throw x) s = (Throw x, s).
Proof. done. Qed.

(** A bind completes normally exactly when both parts do. *)
Lemma js_bind_normal {A B : Type} (m : JS S X A) (k : A → JS S X B) s b s' :
  js_bind k m s = (Normal b, s') ↔
  ∃ a s1, m s = (Normal a, s1) ∧ k a s1 = (Normal b, s').
Proof.
  unfold js_bind. destruct (m s) as [[a|x] s1]; split.
  - intros Hk. by exists a, s1.
  - by intros (? & ? & [= -> ->] & ?).
  - done.
  - by intros (? & ? & [=] & ?).
Qed.

(** A bind throws when its first part throws, or when the first part
    completes and the continuation throws. *)
Lemma js_bind_throws {A B : Type} (m : JS S X A) (k : A → JS S X B) s x s' :
  js_bind k m s = (Throw x, s') ↔
  m s = (Throw x, s') ∨ ∃ a s1, m s = (Normal a, s1) ∧ k a s1 = (Throw x, s').
Proof.
  unfold js_bind. destruct (m s) as [[a|y] s1]; split.
  - intros Hk. right. by exists a, s1.
  - by intros [[=]|(? & ? & [= -> ->] & ?)].
  - intros [= -> ->]. by left.
  - by intros [[= -> ->]|(? & ? & [=] & ?)].
Qed.

(** The primitives under a bind. *)
Lemma js_bind_gets {A B : Type} (f : S → A) (k : A → JS S X B) s :
  js_bind k (js_gets f) s = k (f s) s.
Proof. done. Qed.

Lemma js_bind_modify {B : Type} (f : S → S) (k : unit → JS S X B) s :
  js_bind k (js_modify f) s = k () (f s).
Proof. done. Qed.

Lemma js_gets_run {A : Type} (f : S → A) s : js_gets (X:=X) f s = (Normal (f s), s).
Proof. done. Qed.

Lemma js_modify_run (f : S → S) s : js_modify (X:=X) f s = (Normal (), f s).
Proof. done. Qed.

Lemma js_throw_run {A : Type} (x : X) s : js_throw (A:=A) x s = (Throw x, s).
Proof. done. Qed.

Lemma js_ret_run {A : Type} (a : A) s : js_ret (X:=X) a s = (Normal a, s).
Proof. done. Qed.

Lemma exec_modify (f : S → S) s : exec (js_modify (X:=X) f) s = f s.
Proof. done. Qed.

Lemma outcome_gets {A : Type} (f : S → A) s :
  outcome (js_gets (X:=X) f) s = Normal (f s).
Proof. done. Qed.

End monad_laws.

#[export] Hint Rewrite @js_bind_assoc @js_bind_ret_l @js_bind_throw @js_bind_gets
  @js_bind_modify @js_gets_run @js_modify_run @js_throw_run @js_ret_run
  @exec_modify @outcome_gets : js.

(** [js_simp] runs a handler symbolically: it exposes the binds and rewrites
    with the equations of the primitives. *)
Ltac js_simp :=
  repeat progress
    (autounfold with js in *;
     unfold mret, mbind, JS_ret, JS_bind in *;
     autorewrite with js in *;
     simpl in *).

(** [js_solve] also rewrites with the equations of the context, which say
    which branch is taken. *)
Ltac js_solve :=
  intros; js_simp;
  repeat (match goal with
          | H : ?x = _ |- context [?x] => rewrite H
          end; js_simp);
  try done.

(** ** Labelled transition systems *)

Section lts.
Context {St Lbl : Type}.
Variable step : St → Lbl → St → Prop.

(** [trace s ls s']: the labels [ls], in order, lead from [s] to [s']. *)
Inductive trace : St → list Lbl → St → Prop :=
| trace_nil s : trace s [] s
| trace_cons s l s1 ls s2 : step s l s1 → trace s1 ls s2 → trace s (l :: ls) s2.

Definition reachable (init : St → Prop) (s : St) : Prop :=
  ∃ s0 ls, init s0 ∧ trace s0 ls s.

(** [P] holds initially and every step preserves it. *)
Definition inductive_invariant (init : St → Prop) (P : St → Prop) : Prop :=
  (∀ s, init s → P s) ∧ (∀ s l s', P s → step s l s' → P s').

Lemma trace_one s l s' : step s l s' → trace s [l] s'.
Proof. eauto using trace. Qed.

Lemma trace_app s1 ls1 s2 ls2 s3 :
  trace s1 ls1 s2 → trace s2 ls2 s3 → trace s1 (ls1 ++ ls2) s3.
Proof. induction 1; simpl; eauto using trace. Qed.

Lemma trace_snoc s1 ls s2 l s3 :
  trace s1 ls s2 → step s2 l s3 → trace s1 (ls ++ [l]) s3.
Proof. eauto using trace_app, trace_one. Qed.

Lemma trace_app_inv s1 ls1 ls2 s3 :
  trace s1 (ls1 ++ ls2) s3 → ∃ s2, trace s1 ls1 s2 ∧ trace s2 ls2 s3.
Proof.
  revert s1. induction ls1 as [|l ls1 IH]; simpl; intros s1 H.
  - eauto using trace.
  - inv H. edestruct IH as (s2 & ? & ?); eauto using trace.
Qed.

Lemma trace_preserves (P : St → Prop) s ls s' :
  (∀ s l s', P s → step s l s' → P s') → trace s ls s' → P s → P s'.
Proof. intros Hstep. induction 1; eauto. Qed.

Lemma reachable_init (init : St → Prop) s : init s → reachable init s.
Proof. intros. exists s, []. eauto using trace. Qed.

Lemma reachable_step (init : St → Prop) s l s' :
  reachable init s → step s l s' → reachable init s'.
Proof. intros (s0 & ls & ? & ?) ?. exists s0, (ls ++ [l]). eauto using trace_snoc. Qed.

(** Rule induction on reachability: an inductive invariant holds of every
    reachable state. *)
Lemma invariant_reachable (init : St → Prop) (P : St → Prop) s :
  inductive_invariant init P → reachable init s → P s.
Proof. intros [Hi Hs] (s0 & ls & ? & ?). eapply trace_preserves; eauto. Qed.

(** Invariants may be strengthened by facts already proved of reachable
    states. *)
Lemma invariant_reachable_strong (init : St → Prop) (P : St → Prop) s :
  (∀ s, init s → P s) →
  (∀ s l s', reachable init s → P s → step s l s' → P s') →
  reachable init s → P s.
Proof.
  intros Hi Hs Hr.
  enough (reachable init s ∧ P s) as [_ ?] by done.
  eapply (invariant_reachable init (λ s, reachable init s ∧ P s)); [|done].
  split; [by auto using reachable_init|].
  intros ??? [??] ?. eauto using reachable_step.
Qed.

End lts.

Arguments trace_nil {St Lbl step} s.
Arguments trace_cons {St Lbl step} s l s1 ls s2 _ _.

(** Traces are monotone in the step relation. *)
Lemma trace_impl {St Lbl : Type} (step1 step2 : St → Lbl → St → Prop) s ls s' :
  (∀ s l s', step1 s l s' → step2 s l s') →
  trace step1 s ls s' → trace step2 s ls s'.
Proof. intros Himpl. induction 1; econstructor; eauto. Qed.

(** Executable systems: a partial step function and the runs it gives. *)
Section run.
Context {St Lbl : Type}.
Variable fire : Lbl → St → option St.

Definition fire_step (s : St) (l : Lbl) (s' : St) : Prop := fire l s = Some s'.

Fixpoint run (ls : list Lbl) (s : St) : option St :=
  match ls with
  | [] => Some s
  | l :: ls' => match fire l s with Some s1 => run ls' s1 | None => None end
  end.

Lemma run_trace ls s s' : run ls s = Some s' ↔ trace fire_step s ls s'.
Proof.
  split.
  - revert s. induction ls as [|l ls IH]; simpl; intros s H.
    + simplify_eq. constructor.
    + destruct (fire l s) as [s1|] eqn:Hf; [|done]. econstructor; eauto.
  - induction 1 as [|???? ? Hs]; simpl; [done|]. by rewrite Hs.
Qed.

Lemma run_app ls1 ls2 s : run (ls1 ++ ls2) s = run ls1 s ≫= run ls2.
Proof.
  revert s. induction ls1 as [|l ls1 IH]; simpl; intros s; [done|].
  by destruct (fire l s).
Qed.

(** Steps of an executable system are deterministic. *)
Lemma fire_step_det s l s1 s2 : fire_step s l s1 → fire_step s l s2 → s1 = s2.
Proof. unfold fire_step. congruence. Qed.

End run.

(** Forward simulation: if every concrete step is matched by the sequence of
    abstract steps its label stands for, re-establishing the relation, then
    so is every trace. *)
Section simulation.
Context {C A LC LA : Type}.
Variable stepC : C → LC → C → Prop.
Variable stepA : A → LA → A → Prop.
Variable R : C → A → Prop.
Variable labels : LC → list LA.

Hypothesis simulation : ∀ c l c' a,
  R c a → stepC c l c' → ∃ a', trace stepA a (labels l) a' ∧ R c' a'.

Lemma simulation_trace c ls c' a :
  R c a → trace stepC c ls c' →
  ∃ a', trace stepA a (ls ≫= labels) a' ∧ R c' a'.
Proof.
  intros HR Ht. revert a HR.
  induction Ht as [|c l c1 ls c2 Hs _ IH]; intros a HR.
  - exists a. split; [constructor|done].
  - destruct (simulation _ _ _ _ HR Hs) as (a1 & ? & HR1).
    destruct (IH _ HR1) as (a2 & ? & ?).
    exists a2. split; [|done]. simpl. eauto using trace_app.
Qed.

End simulation.

(** ** Shared facts on lists and options *)

Lemma delete_lookup_length {A : Type} (l : list A) i x :
  l !! i = Some x → S (length (delete i l)) = length l.
Proof.
  intros Hi. rewrite length_delete; [|by eauto].
  apply lookup_lt_Some in Hi. lia.
Qed.

Lemma head_lookup_0 {A : Type} (l : list A) : head l = l !! 0.
Proof. by destruct l. Qed.

Lemma head_app_nonempty {A : Type} (l k : list A) x :
  head l = Some x → head (l ++ k) = Some x.
Proof. by destruct l. Qed.

#[export] Hint Resolve reachable_init reachable_step : js.
