(* ===== verification/JsString.v ===== *)
(** * JavaScript strings

    A JavaScript string is a finite sequence of UTF-16 code units; its
    [length] property is the number of code units.  This file holds

    - the type ([jsstring], a [list N]) and its well-formedness;
    - string literals: the script is a UTF-8 file, and a literal denotes the
      UTF-16 encoding of its code points after escape processing ([js_lit]);
    - [Number_toString], the conversion the template literal of
      [src/script.js] line 58 applies to [text.length], with [parse_decimal]
      as its inverse. *)

From Stdlib Require Import Ascii String.
From Equations Require Import Equations.
From stdpp Require Import strings.
From S2P Require Import Prelude.

Local Open Scope N_scope.

(** ** Code units *)

Abbreviation code_unit := N (only parsing).
Abbreviation jsstring := (list N) (only parsing).

(** A code unit is a 16-bit unsigned integer. *)
Definition is_code_unit (c : N) : bool := c <? 65536.

Definition wf_jsstring (s : jsstring) : Prop := Forall (λ c, c < 65536) s.

#[export] Instance wf_jsstring_dec s : Decision (wf_jsstring s).
Proof. unfold wf_jsstring. apply _. Defined.

(** [String.prototype.length], as a number. *)
Definition js_length (s : jsstring) : N := N.of_nat (length s).

(** ** String literals *)

(** The bytes of a literal as they stand in the UTF-8 source file. *)
Definition source_bytes (s : string) : list N :=
  N_of_ascii <$> list_ascii_of_string s.

(** The code points of a byte sequence.  Source files are well-formed UTF-8;
    an ill-formed sequence decodes to U+FFFD. *)
Fixpoint utf8_code_points (bs : list N) : list N :=
  match bs with
  | [] => []
  | b0 :: r0 =>
    if b0 <? 0x80 then b0 :: utf8_code_points r0
    else if b0 <? 0xC0 then 0xFFFD :: utf8_code_points r0
    else if b0 <? 0xE0 then
      match r0 with
      | b1 :: r1 =>
        ((b0 - 0xC0) * 64 + (b1 - 0x80)) :: utf8_code_points r1
      | _ => [0xFFFD]
      end
    else if b0 <? 0xF0 then
      match r0 with
      | b1 :: b2 :: r2 =>
        ((b0 - 0xE0) * 4096 + (b1 - 0x80) * 64 + (b2 - 0x80))
          :: utf8_code_points r2
      | _ => [0xFFFD]
      end
    else
      match r0 with
      | b1 :: b2 :: b3 :: r3 =>
        ((b0 - 0xF0) * 262144 + (b1 - 0x80) * 4096 + (b2 - 0x80) * 64
         + (b3 - 0x80)) :: utf8_code_points r3
      | _ => [0xFFFD]
      end
  end.

(** The single-character escapes of a string literal: a backslash and the
    character after it denote one code point. *)
Definition escape_char (c : N) : N :=
  if c =? 110 then 10        (* \n *)
  else if c =? 116 then 9    (* \t *)
  else if c =? 114 then 13   (* \r *)
  else if c =? 98 then 8     (* \b *)
  else if c =? 102 then 12   (* \f *)
  else if c =? 118 then 11   (* \v *)
  else if c =? 48 then 0     (* \0 *)
  else c.

Fixpoint unescape (cs : list N) : list N :=
  match cs with
  | [] => []
  | c :: r =>
    if c =? 92 then
      match r with
      | c1 :: r1 => escape_char c1 :: unescape r1
      | [] => [c]
      end
    else c :: unescape r
  end.

(** The UTF-16 encoding of a code point: itself in the basic plane, a
    surrogate pair above it. *)
Definition utf16_units (cp : N) : jsstring :=
  if cp <? 0x10000 then [cp]
  else [0xD800 + (cp - 0x10000) `div` 1024; 0xDC00 + (cp - 0x10000) `mod` 1024].

Definition utf16_encode (cps : list N) : jsstring := cps ≫= utf16_units.

(** The value of the literal written ["s"] or [`s`] in the script. *)
Definition js_lit (s : string) : jsstring :=
  utf16_encode (unescape (utf8_code_points (source_bytes s))).

(** ** Number to string *)

(** The code unit of a decimal digit. *)
Definition digit_unit (d : N) : N := 48 + d.

(** The decimal digits of [n], most significant first, in front of [acc];
    nothing for zero. *)
Equations? digits (n : N) (acc : jsstring) : jsstring by wf (N.to_nat n) lt :=
  digits n acc with decide (n = 0) => {
    | left _ := acc ;
    | right _ := digits (n `div` 10) (digit_unit (n `mod` 10) :: acc) }.
Proof. assert (n `div` 10 < n) by (apply N.div_lt; lia). lia. Qed.

(** [Number.prototype.toString] on a non-negative integer that is exactly
    representable, which [text.length] always is. *)
Definition Number_toString (n : N) : jsstring :=
  if decide (n = 0) then [digit_unit 0] else digits n [].

(** Reading a decimal numeral back. *)
Definition digit_value (c : N) : option N :=
  if (48 <=? c) && (c <=? 57) then Some (c - 48) else None.

Fixpoint parse_digits (s : jsstring) (acc : N) : option N :=
  match s with
  | [] => Some acc
  | c :: r => d ← digit_value c; parse_digits r (acc * 10 + d)
  end.

Definition parse_decimal (s : jsstring) : option N :=
  match s with
  | [] => None
  | _ => parse_digits s 0
  end.

(** The decimal digits, and the value of a numeral read most significant
    digit first. *)
Definition is_digit (c : N) : Prop := 48 ≤ c ≤ 57.

Definition decimal_value (s : jsstring) (a : N) : N :=
  foldl (λ a c, a * 10 + (c - 48)) a s.

(** ** Facts on literals *)

Section literals.

Lemma utf16_units_wf cp : cp < 0x110000 → wf_jsstring (utf16_units cp).
Proof.
  intros Hcp. unfold utf16_units, wf_jsstring.
  destruct (N.ltb_spec cp 0x10000).
  - by repeat constructor.
  - assert ((cp - 0x10000) `div` 1024 < 1024)
      by (apply N.Div0.div_lt_upper_bound; lia).
    assert ((cp - 0x10000) `mod` 1024 < 1024) by (apply N.mod_lt; lia).
    repeat constructor; lia.
Qed.

Lemma utf16_encode_wf cps :
  Forall (λ cp, cp < 0x110000) cps → wf_jsstring (utf16_encode cps).
Proof.
  unfold utf16_encode, wf_jsstring.
  induction 1 as [|cp cps Hcp _ IH]; [constructor|].
  rewrite bind_cons. apply Forall_app. split; [|done]. by apply utf16_units_wf.
Qed.

Lemma utf16_encode_app cps1 cps2 :
  utf16_encode (cps1 ++ cps2) = utf16_encode cps1 ++ utf16_encode cps2.
Proof. unfold utf16_encode. apply bind_app. Qed.

(** In the basic plane a code point is one code unit. *)
Lemma utf16_encode_bmp cps :
  Forall (λ cp, cp < 0x10000) cps → utf16_encode cps = cps.
Proof.
  unfold utf16_encode. induction 1 as [|cp cps Hcp _ IH]; [done|].
  rewrite bind_cons, IH. unfold utf16_units.
  by destruct (N.ltb_spec cp 0x10000); [|lia].
Qed.

(** ASCII text without a backslash denotes itself. *)
Lemma utf8_code_points_ascii bs :
  Forall (λ b, b < 0x80) bs → utf8_code_points bs = bs.
Proof.
  induction 1 as [|b bs Hb _ IH]; [done|]. simpl.
  destruct (N.ltb_spec b 0x80); [|lia]. by rewrite IH.
Qed.

Lemma unescape_plain cs : Forall (λ c, c ≠ 92) cs → unescape cs = cs.
Proof.
  induction 1 as [|c cs Hc _ IH]; [done|]. simpl.
  destruct (N.eqb_spec c 92); [done|]. by rewrite IH.
Qed.

Lemma js_lit_ascii s :
  Forall (λ b, b < 0x80 ∧ b ≠ 92) (source_bytes s) →
  js_lit s = source_bytes s.
Proof.
  intros H. unfold js_lit.
  rewrite utf8_code_points_ascii by (eapply List.Forall_impl; [|exact H]; by intros ? [??]).
  rewrite unescape_plain by (eapply List.Forall_impl; [|exact H]; by intros ? [??]).
  apply utf16_encode_bmp. eapply List.Forall_impl; [|exact H]. intros ? [??]. lia.
Qed.

End literals.

(** ** Facts on decimal numerals *)

Section decimal.
Implicit Types (n a d : N) (s acc : jsstring).

Lemma digits_zero acc : digits 0 acc = acc.
Proof. by rewrite digits_equation_1. Qed.

Lemma digits_pos n acc :
  n ≠ 0 → digits n acc = digits (n `div` 10) (digit_unit (n `mod` 10) :: acc).
Proof. intros Hn. rewrite digits_equation_1. by destruct (decide (n = 0)). Qed.

(** The accumulator is only a suffix. *)
Lemma digits_acc n acc : digits n acc = digits n [] ++ acc.
Proof.
  revert acc. induction (N.lt_wf_0 n) as [n _ IH]; intros acc.
  destruct (decide (n = 0)) as [->|Hn]; [by rewrite !digits_zero|].
  rewrite (digits_pos n acc), (digits_pos n []) by done.
  assert (n `div` 10 < n) as Hlt by (apply N.div_lt; lia).
  rewrite (IH _ Hlt (_ :: acc)), (IH _ Hlt [_]). by rewrite <-app_assoc.
Qed.

(** The digits of a positive number: those of its tenth, then its last. *)
Lemma digits_snoc n :
  n ≠ 0 → digits n [] = digits (n `div` 10) [] ++ [digit_unit (n `mod` 10)].
Proof. intros. by rewrite digits_pos, digits_acc. Qed.

Lemma digit_unit_value d : digit_unit d - 48 = d.
Proof. unfold digit_unit. lia. Qed.

Lemma digit_unit_is_digit d : d < 10 → is_digit (digit_unit d).
Proof. unfold is_digit, digit_unit. lia. Qed.

Lemma digits_are_digits n : Forall is_digit (digits n []).
Proof.
  induction (N.lt_wf_0 n) as [n _ IH].
  destruct (decide (n = 0)) as [->|Hn]; [rewrite digits_zero; constructor|].
  rewrite digits_snoc by done. apply Forall_app. split.
  - apply IH, N.div_lt; lia.
  - apply Forall_singleton, digit_unit_is_digit, N.mod_lt. lia.
Qed.

Lemma decimal_value_digits n : decimal_value (digits n []) 0 = n.
Proof.
  induction (N.lt_wf_0 n) as [n _ IH].
  destruct (decide (n = 0)) as [->|Hn]; [by rewrite digits_zero|].
  rewrite digits_snoc by done. unfold decimal_value in *.
  rewrite foldl_app, IH by (apply N.div_lt; lia). simpl.
  rewrite digit_unit_value, N.mul_comm. symmetry. apply N.Div0.div_mod.
Qed.

Lemma digit_value_is_digit c : is_digit c → digit_value c = Some (c - 48).
Proof.
  unfold is_digit, digit_value. intros [??].
  destruct (N.leb_spec 48 c), (N.leb_spec c 57); simpl; done || lia.
Qed.

Lemma parse_digits_value s a :
  Forall is_digit s → parse_digits s a = Some (decimal_value s a).
Proof.
  intros H. revert a. induction H as [|c s Hc _ IH]; intros a; [done|].
  simpl. rewrite digit_value_is_digit by done. simpl. apply IH.
Qed.

Lemma digits_nonempty n : n ≠ 0 → digits n [] ≠ [].
Proof. intros Hn. rewrite digits_snoc by done. by destruct (digits _ _). Qed.

(** A positive number has no leading zero. *)
Lemma digits_head n : n ≠ 0 → head (digits n []) ≠ Some (digit_unit 0).
Proof.
  induction (N.lt_wf_0 n) as [n _ IH]. intros Hn.
  rewrite digits_snoc by done.
  destruct (decide (n `div` 10 = 0)) as [Hz|Hz].
  - rewrite Hz, digits_zero. simpl. unfold digit_unit. intros [= Hd].
    pose proof (N.Div0.div_mod n 10). lia.
  - assert (n `div` 10 < n) by (apply N.div_lt; lia).
    specialize (IH _ ltac:(done) Hz).
    destruct (digits (n `div` 10) []) eqn:E; [by apply digits_nonempty in E|done].
Qed.

End decimal.

(** ** The properties of [Number_toString] *)

Section number_to_string.
Implicit Types n m : N.

Lemma Number_toString_zero : Number_toString 0 = [48].
Proof. done. Qed.

Lemma Number_toString_pos n : n ≠ 0 → Number_toString n = digits n [].
Proof. intros. unfold Number_toString. by destruct (decide (n = 0)). Qed.

Lemma Number_toString_digits n : Forall is_digit (Number_toString n).
Proof.
  unfold Number_toString. destruct (decide (n = 0)).
  - by apply Forall_singleton, digit_unit_is_digit.
  - apply digits_are_digits.
Qed.

Lemma Number_toString_nonempty n : Number_toString n ≠ [].
Proof.
  unfold Number_toString. destruct (decide (n = 0)); [done|].
  by apply digits_nonempty.
Qed.

Lemma parse_decimal_Number_toString n : parse_decimal (Number_toString n) = Some n.
Proof.
  pose proof (Number_toString_nonempty n) as Hne.
  pose proof (Number_toString_digits n) as Hd.
  unfold parse_decimal. destruct (Number_toString n) eqn:E; [done|].
  rewrite parse_digits_value by done. f_equal. rewrite <-E.
  unfold Number_toString. destruct (decide (n = 0)) as [->|]; [done|].
  apply decimal_value_digits.
Qed.

Lemma Number_toString_inj n m : Number_toString n = Number_toString m → n = m.
Proof.
  intros H. apply (f_equal parse_decimal) in H.
  rewrite !parse_decimal_Number_toString in H. by simplify_eq.
Qed.

(** C39: reading the numeral that [Number_toString] prints gives the number
    back, for every [n], and two numbers that print alike are equal: the
    length line of the log determines the length. *)
Theorem Number_toString_roundtrip n :
  parse_decimal (Number_toString n) = Some n ∧
  ∀ m, Number_toString n = Number_toString m → n = m.
Proof.
  split; [apply parse_decimal_Number_toString|apply Number_toString_inj].
Qed.


(** C40: the numeral is canonical: only decimal digits, at least one, and no
    leading zero except for zero itself. *)
Theorem Number_toString_canonical n :
  Forall is_digit (Number_toString n) ∧
  Number_toString n ≠ [] ∧
  (head (Number_toString n) = Some 48 → n = 0).
Proof.
  split_and!; [apply Number_toString_digits|apply Number_toString_nonempty|].
  intros Hh. destruct (decide (n = 0)) as [|Hn]; [done|].
  rewrite Number_toString_pos in Hh by done. by apply digits_head in Hh.
Qed.

Lemma Number_toString_wf n : wf_jsstring (Number_toString n).
Proof.
  eapply List.Forall_impl; [|apply Number_toString_digits].
  unfold is_digit. intros c ?. lia.
Qed.

End number_to_string.

#[export] Hint Resolve Number_toString_wf utf16_encode_wf : js.
#[export] Hint Rewrite Number_toString_zero : js.

(** ** Evaluated examples *)

Example js_lit_hangul : js_lit "한" = [0xD55C].
Proof. vm_compute. reflexivity. Qed.

Example js_lit_newline : js_lit "a\n" = [97; 10].
Proof. vm_compute. reflexivity. Qed.

Example Number_toString_1205 : Number_toString 1205 = js_lit "1205".
Proof. vm_compute. reflexivity. Qed.
