(* ===== verification/Engine.v ===== *)
(** * The analysis engine as an interface

    [src/script.js] reaches the engine through the Emscripten object
    [Module]: line 27 wraps the export [process_text], of C signature
    [string -> string], and line 61 calls the wrapper.  This file states what
    the script assumes of that object and nothing about how the engine
    analyses text:

    - [WasmModule]: an object with [ccall]; a call may change the engine's
      state and may throw;
    - [TextProcessor]: a module that exports [process_text] with the expected
      signature, the contract of the specification's section 6;
    - [PureProcessor]: an engine whose [process_text] is a total function of
      its argument;
    - the stub engines used in scenarios: an upper-casing engine, an engine
      that always throws, and a wrapper that records the texts it is given. *)

From stdpp Require Import strings.
From S2P Require Import Prelude JsString.

Local Open Scope N_scope.

(** ** Values thrown *)

(** What the script can throw: a [TypeError] of the language (calling
    [null], indexing [null], a property of [null]), a [ReferenceError] (a
    global that is not declared), or whatever the engine throws. *)
Inductive js_error : Type :=
| TypeError
| ReferenceError
| EngineError (reason : jsstring).

#[export] Instance js_error_eq_dec : EqDecision js_error.
Proof. solve_decision. Defined.

(** ** Wrapped exports *)

(** The function [Module.cwrap(ident, returnType, argTypes)] returns: calling
    it performs [Module.ccall] with the same three arguments. *)
Record cwrapped : Type := Cwrapped {
  cw_ident : jsstring;
  cw_returnType : jsstring;
  cw_argTypes : list jsstring;
}.

#[export] Instance cwrapped_eq_dec : EqDecision cwrapped.
Proof. solve_decision. Defined.

Definition cwrap (ident returnType : jsstring) (argTypes : list jsstring) :
  cwrapped := Cwrapped ident returnType argTypes.

(** ** The interfaces *)

(** An Emscripten module with engine state [E]. *)
Class WasmModule (E : Type) : Type := {
  ccall : jsstring → jsstring → list jsstring → list jsstring →
          JS E js_error jsstring;
}.

(** Calling a wrapped export. *)
Definition call_cwrapped {E : Type} `{!WasmModule E}
  (f : cwrapped) (args : list jsstring) : JS E js_error jsstring :=
  ccall (cw_ident f) (cw_returnType f) (cw_argTypes f) args.

(** The identifier and the types line 27 passes to [cwrap]. *)
Definition PROCESS_TEXT : jsstring := Eval vm_compute in js_lit "process_text".
Definition TYPE_STRING : jsstring := Eval vm_compute in js_lit "string".

(** The engine's contract: the module exports [process_text], a function
    from one string to a string, which may fail. *)
Class TextProcessor (E : Type) `{!WasmModule E} : Type := {
  process : jsstring → JS E js_error jsstring;
  process_exported text e :
    ccall PROCESS_TEXT TYPE_STRING [TYPE_STRING] [text] e = process text e;
}.

(** An engine that computes a total function and keeps no state. *)
Class PureProcessor (E : Type) `{!WasmModule E, !TextProcessor E} : Type := {
  analysis : jsstring → jsstring;
  process_pure text e : process text e = (Normal (analysis text), e);
}.

(** ** Stub engines *)

(** Upper-casing of the ASCII letters, the stub of the round-trip test. *)
Definition to_upper_unit (c : N) : N :=
  if bool_decide (97 ≤ c ≤ 122) then c - 32 else c.

Definition to_upper_ascii (s : jsstring) : jsstring := to_upper_unit <$> s.

(** An engine without state that exports [process_text] as [f] and nothing
    else. *)
Record fn_engine (f : jsstring → jsstring) : Type := FnEngine {}.
Arguments FnEngine {f}.

Definition fn_ccall (f : jsstring → jsstring) {E : Type}
  (ident returnType : jsstring) (argTypes args : list jsstring) :
  JS E js_error jsstring :=
  if decide (ident = PROCESS_TEXT) then
    match args with
    | [text] => js_ret (f text)
    | _ => js_throw (EngineError ident)
    end
  else js_throw (EngineError ident).

#[export] Instance fn_engine_module f : WasmModule (fn_engine f) :=
  {| ccall := fn_ccall f |}.

#[export] Instance fn_engine_processor f : TextProcessor (fn_engine f).
Proof. by refine {| process := λ text, js_ret (f text) |}. Defined.

#[export] Instance fn_engine_pure f : PureProcessor (fn_engine f).
Proof. by refine {| analysis := f |}. Defined.

Definition upper_engine : Type := fn_engine to_upper_ascii.

(** An engine whose every call throws. *)
Inductive failing_engine : Type := FailingEngine.

#[export] Instance failing_engine_module : WasmModule failing_engine :=
  {| ccall ident _ _ _ := js_throw (EngineError ident) |}.

#[export] Instance failing_engine_processor : TextProcessor failing_engine.
Proof. by refine {| process := λ _, js_throw (EngineError PROCESS_TEXT) |}. Defined.

(** An engine that answers its argument unchanged [n] times and throws from
    then on; its state is the number of answers left. *)
Record budget_engine : Type := Budget { answers_left : nat }.

Definition budget_process (text : jsstring) : JS budget_engine js_error jsstring :=
  λ b, match answers_left b with
       | O => (Throw (EngineError PROCESS_TEXT), b)
       | S n => (Normal text, Budget n)
       end.

#[export] Instance budget_engine_module : WasmModule budget_engine :=
  {| ccall ident _ _ args :=
       if decide (ident = PROCESS_TEXT) then
         match args with
         | [text] => budget_process text
         | _ => js_throw (EngineError ident)
         end
       else js_throw (EngineError ident) |}.

#[export] Instance budget_engine_processor : TextProcessor budget_engine.
Proof. by refine {| process := budget_process |}. Defined.

(** A wrapper that records, most recent first, the arguments of every call
    made to the engine it wraps. *)
Record spy (E : Type) : Type := Spy {
  spied : E;
  calls : list (jsstring * list jsstring);
}.
Arguments Spy {E} spied calls.
Arguments spied {E} s.
Arguments calls {E} s.

Definition spy_ccall {E : Type} `{!WasmModule E}
  (ident returnType : jsstring) (argTypes args : list jsstring) :
  JS (spy E) js_error jsstring :=
  λ s, let '(c, e) := ccall ident returnType argTypes args (spied s) in
       (c, Spy e ((ident, args) :: calls s)).

#[export] Instance spy_module {E : Type} `{!WasmModule E} : WasmModule (spy E) :=
  {| ccall := spy_ccall |}.

#[export] Instance spy_processor {E : Type} `{!WasmModule E, !TextProcessor E} :
  TextProcessor (spy E).
Proof.
  by refine {| process := λ text s,
    let '(c, e) := process text (spied s) in
    (c, Spy e ((PROCESS_TEXT, [text]) :: calls s)) |};
  intros text [e cs]; simpl; unfold spy_ccall; simpl; rewrite process_exported.
Defined.

(** ** Facts on the interfaces *)

Section engine_facts.
Context {E : Type} `{!WasmModule E, !TextProcessor E}.

(** Calling the wrapper of line 27 is calling [process]. *)
Lemma call_cwrapped_process text e :
  call_cwrapped (cwrap PROCESS_TEXT TYPE_STRING [TYPE_STRING]) [text] e
  = process text e.
Proof. apply process_exported. Qed.

Lemma call_cwrapped_pure `{!PureProcessor E} text e :
  call_cwrapped (cwrap PROCESS_TEXT TYPE_STRING [TYPE_STRING]) [text] e
  = (Normal (analysis text), e).
Proof. by rewrite call_cwrapped_process, process_pure. Qed.

(** A spy records exactly one call per call, and behaves as the engine it
    wraps. *)
Lemma spy_process_calls text (s : spy E) :
  calls (process text s).2 = (PROCESS_TEXT, [text]) :: calls s.
Proof. simpl. by destruct (process text (spied s)). Qed.

Lemma spy_process_spied text (s : spy E) :
  (process text s).1 = (process text (spied s)).1 ∧
  spied (process text s).2 = (process text (spied s)).2.
Proof. simpl. by destruct (process text (spied s)). Qed.

End engine_facts.

Lemma to_upper_ascii_length s : length (to_upper_ascii s) = length s.
Proof. apply length_fmap. Qed.

Lemma to_upper_unit_idemp c : to_upper_unit (to_upper_unit c) = to_upper_unit c.
Proof. unfold to_upper_unit. repeat case_bool_decide; lia. Qed.

Lemma to_upper_ascii_idemp s : to_upper_ascii (to_upper_ascii s) = to_upper_ascii s.
Proof.
  unfold to_upper_ascii. rewrite <-list_fmap_compose.
  apply list_fmap_ext. intros _ c _. apply to_upper_unit_idemp.
Qed.

Example to_upper_ascii_hello : to_upper_ascii (js_lit "hello") = js_lit "HELLO".
Proof. vm_compute. reflexivity. Qed.
