(* ===== verification/Page.v ===== *)
(** * The page: script globals, DOM texts and readers in flight

    The state the handlers of [src/script.js] share:

    - [Document], [getElementById] and [Elements]: the five look-ups of
      lines 6-12, each of which yields an element or [null];
    - [Page]: the global [processText] (line 2), the five constants, and the
      elements reduced to the one property the script touches ([files] of
      the input, [textContent] of the others);
    - [World]: the page, the state of the engine, and the [FileReader]s whose
      read has been started and has not completed;
    - the primitive reads and writes from which the handlers are built, as
      computations of the [JS] monad: each dereferences a constant, which is
      a [TypeError] when the look-up found no element;
    - the message constants of the script, written as in the source. *)

From stdpp Require Import strings.
From S2P Require Import Prelude JsString Engine.

(** ** Files and readers *)

(** A [File] of the selection: the script reads its [name]; [rawHandle]
    identifies the blob behind it. *)
Record File : Type := MkFile {
  name : jsstring;
  rawHandle : nat;
}.

#[export] Instance File_eq_dec : EqDecision File.
Proof. solve_decision. Defined.

(** A [FileReader] after [readAsText(file, encoding)], before its [load] or
    [error] event. *)
Record FileReader : Type := MkFileReader {
  reader_file : File;
  reader_encoding : jsstring;
}.

#[export] Instance FileReader_eq_dec : EqDecision FileReader.
Proof. solve_decision. Defined.

(** ** The document *)

(** A document, reduced to the ids of its elements. *)
Definition Document : Type := list jsstring.

(** The ids the script looks up (lines 6-12). *)
Definition ID_FILE_INPUT : jsstring := Eval vm_compute in js_lit "fileInput".
Definition ID_ANALYZE_BTN : jsstring := Eval vm_compute in js_lit "analyzeBtn".
Definition ID_LOG : jsstring := Eval vm_compute in js_lit "log".
Definition ID_RESULT : jsstring := Eval vm_compute in js_lit "result".
Definition ID_FILE_NAME : jsstring := Eval vm_compute in js_lit "fileName".

(** [document.getElementById(id)]: an element ([true]) or [null] ([false]).
    The script never compares two elements: all it does with one is
    dereference it. *)
Definition getElementById (doc : Document) (id : jsstring) : bool :=
  bool_decide (id ∈ doc).

(** The five constants of lines 6-12. *)
Record Elements : Type := MkElements {
  fileInput : bool;
  analyzeBtn : bool;
  logArea : bool;
  resultDiv : bool;
  fileNameSpan : bool;
}.

#[export] Instance Elements_eq_dec : EqDecision Elements.
Proof. solve_decision. Defined.

(** Lines 6-12. *)
Definition lookup_elements (doc : Document) : Elements :=
  MkElements (getElementById doc ID_FILE_INPUT) (getElementById doc ID_ANALYZE_BTN)
    (getElementById doc ID_LOG) (getElementById doc ID_RESULT)
    (getElementById doc ID_FILE_NAME).

(** No look-up has been made, or every look-up found nothing. *)
Definition no_elements : Elements := MkElements false false false false false.

(** Every look-up found its element. *)
Definition all_elements : Elements := MkElements true true true true true.

(** ** The page *)

Record Page : Type := MkPage {
  (** [let processText = null] (line 2) *)
  processText : option cwrapped;
  (** the constants of lines 6-12 *)
  elements : Elements;
  (** [fileInput.files]: [None] is [null] (an input that is no file input) *)
  fileInput_files : option (list File);
  (** [fileNameSpan.textContent] *)
  fileNameSpan_textContent : jsstring;
  (** [logArea.textContent] *)
  logArea_textContent : jsstring;
  (** [resultDiv.textContent] *)
  resultDiv_textContent : jsstring;
}.

#[export] Instance Page_eq_dec : EqDecision Page.
Proof. solve_decision. Defined.

Record World (E : Type) : Type := MkWorld {
  page : Page;
  engine : E;
  readers : list FileReader;
}.
Arguments MkWorld {E} page engine readers.
Arguments page {E} w.
Arguments engine {E} w.
Arguments readers {E} w.

#[export] Instance World_eq_dec {E : Type} `{EqDecision E} : EqDecision (World E).
Proof. solve_decision. Defined.

(** Field updates. *)
Definition with_processText (f : option cwrapped) (p : Page) : Page :=
  MkPage f (elements p) (fileInput_files p) (fileNameSpan_textContent p)
    (logArea_textContent p) (resultDiv_textContent p).
Definition with_elements (els : Elements) (p : Page) : Page :=
  MkPage (processText p) els (fileInput_files p) (fileNameSpan_textContent p)
    (logArea_textContent p) (resultDiv_textContent p).
Definition with_files (fs : option (list File)) (p : Page) : Page :=
  MkPage (processText p) (elements p) fs (fileNameSpan_textContent p)
    (logArea_textContent p) (resultDiv_textContent p).
Definition with_fileName (s : jsstring) (p : Page) : Page :=
  MkPage (processText p) (elements p) (fileInput_files p) s
    (logArea_textContent p) (resultDiv_textContent p).
Definition with_log (s : jsstring) (p : Page) : Page :=
  MkPage (processText p) (elements p) (fileInput_files p) (fileNameSpan_textContent p)
    s (resultDiv_textContent p).
Definition with_result (s : jsstring) (p : Page) : Page :=
  MkPage (processText p) (elements p) (fileInput_files p) (fileNameSpan_textContent p)
    (logArea_textContent p) s.

Definition with_page {E : Type} (f : Page → Page) (w : World E) : World E :=
  MkWorld (f (page w)) (engine w) (readers w).
Definition with_engine {E : Type} (e : E) (w : World E) : World E :=
  MkWorld (page w) e (readers w).
Definition with_readers {E : Type}
  (f : list FileReader → list FileReader) (w : World E) : World E :=
  MkWorld (page w) (engine w) (f (readers w)).

(** A document that holds the five elements. *)
Definition full_document : Document :=
  [ID_FILE_INPUT; ID_ANALYZE_BTN; ID_LOG; ID_RESULT; ID_FILE_NAME].

(** The page once lines 2-12 have run: [processText] is [null]; the
    constants are what the look-ups found in the document; the three texts
    are what the HTML document holds; the selection is empty, or [null] if
    [fileInput] is no file input. *)
Definition initial_page (doc : Document) (files : option (list File))
  (fileName log result : jsstring) : Page :=
  MkPage None (lookup_elements doc) files fileName log result.

Definition initial_world {E : Type} (e : E) (p : Page) : World E :=
  MkWorld p e [].

(** ** Messages *)

(** Line 19: the placeholder of the file name. *)
Definition MSG_NO_FILE_NAME : jsstring :=
  Eval vm_compute in js_lit "선택된 파일 없음".
(** Line 31: the greeting once the engine is loaded. *)
Definition MSG_WASM_READY : jsstring :=
  Eval vm_compute in
    js_lit "WASM 로드 완료!\n텍스트 파일을 선택한 뒤 '분석하기'를 눌러주세요.\n".
(** Line 41: no file is selected. *)
Definition MSG_SELECT_FILE : jsstring :=
  Eval vm_compute in js_lit "먼저 텍스트(.txt) 파일을 선택해 주세요.\n".
(** Line 46: the engine is not loaded. *)
Definition MSG_NOT_READY : jsstring :=
  Eval vm_compute in js_lit "아직 WASM이 준비되지 않았습니다.\n".
(** Line 58: the template literal around [text.length]. *)
Definition MSG_FILE_READ_PREFIX : jsstring :=
  Eval vm_compute in js_lit "파일을 읽었습니다. 길이: ".
Definition MSG_FILE_READ_SUFFIX : jsstring :=
  Eval vm_compute in js_lit " bytes\n".
Definition MSG_FILE_READ (text : jsstring) : jsstring :=
  MSG_FILE_READ_PREFIX ++ Number_toString (js_length text) ++ MSG_FILE_READ_SUFFIX.
#[global] Arguments MSG_FILE_READ : simpl never.
(** Line 66: the analysis is done. *)
Definition MSG_DONE : jsstring :=
  Eval vm_compute in js_lit "분석 완료! 결과가 화면에 표시되었습니다.\n".
(** Line 70: the read failed. *)
Definition MSG_READ_ERROR : jsstring :=
  Eval vm_compute in js_lit "파일 읽기 중 오류가 발생했습니다.\n".
(** Line 73: the encoding label. *)
Definition ENCODING_UTF8 : jsstring := Eval vm_compute in js_lit "utf-8".

(** ** Primitive operations *)

Section primitives.
Context {E : Type} `{!WasmModule E}.

Abbreviation M := (JS (World E) js_error).

(** The constant [el] holds an element. *)
Definition has (el : Elements → bool) (w : World E) : Prop :=
  el (elements (page w)) = true.

(** Every constant holds an element. *)
Definition complete (w : World E) : Prop := elements (page w) = all_elements.

(** Dereferencing one of the constants of lines 6-12: a [TypeError] when
    it is [null]. *)
Definition deref (el : Elements → bool) : M unit :=
  λ w, if el (elements (page w)) then (Normal (), w) else (Throw TypeError, w).

(** Reading and writing the global [processText]. *)
Definition get_processText : M (option cwrapped) :=
  js_gets (λ w, processText (page w)).
Definition set_processText (f : cwrapped) : M unit :=
  js_modify (with_page (with_processText (Some f))).

(** [fileInput.files] *)
Definition get_files : M (option (list File)) :=
  deref fileInput;;
  js_gets (λ w, fileInput_files (page w)).

(** [fileInput.files[i]]: [undefined] past the end of the list; a
    [TypeError] when [files] is [null]. *)
Definition files_item (i : nat) : M (option File) :=
  fs ← get_files;
  match fs with
  | None => js_throw TypeError
  | Some l => mret (l !! i)
  end.

(** Assignments to [textContent]. *)
Definition set_fileName_textContent (s : jsstring) : M unit :=
  deref fileNameSpan;;
  js_modify (with_page (with_fileName s)).
Definition set_log_textContent (s : jsstring) : M unit :=
  deref logArea;;
  js_modify (with_page (with_log s)).
Definition set_result_textContent (s : jsstring) : M unit :=
  deref resultDiv;;
  js_modify (with_page (with_result s)).

(** [logArea.textContent += s]: read, concatenate, assign. *)
Definition get_log_textContent : M jsstring :=
  deref logArea;;
  js_gets (λ w, logArea_textContent (page w)).
Definition append_log_textContent (s : jsstring) : M unit :=
  old ← get_log_textContent;
  set_log_textContent (old ++ s).

(** Running a computation of the engine in the world. *)
Definition in_engine {A : Type} (m : JS E js_error A) : M A :=
  λ w, let '(c, e) := m (engine w) in (c, with_engine e w).

(** [processText(text)]: the global is read when the call is made; calling
    [null] is a [TypeError]. *)
Definition call_processText (text : jsstring) : M jsstring :=
  f ← get_processText;
  match f with
  | None => js_throw TypeError
  | Some f => in_engine (call_cwrapped f [text])
  end.

(** [new FileReader()] followed by [readAsText(file, encoding)]: one more
    read in flight. *)
Definition readAsText (file : File) (encoding : jsstring) : M unit :=
  js_modify (with_readers (λ rs, rs ++ [MkFileReader file encoding])).

End primitives.

#[export] Hint Unfold has get_processText set_processText get_files files_item
  set_fileName_textContent set_log_textContent set_result_textContent
  get_log_textContent append_log_textContent readAsText : js.

(** ** Facts on the primitives *)

Section deref_facts.
Context {E : Type} `{!WasmModule E}.
Implicit Types (w : World E).

Lemma js_bind_deref {B : Type} el (k : unit → JS (World E) js_error B) w :
  js_bind k (deref el) w =
  if el (elements (page w)) then k () w else (Throw TypeError, w).
Proof. unfold js_bind, deref. by destruct (el _). Qed.

Lemma deref_run el w :
  deref el w = if el (elements (page w)) then (Normal (), w) else (Throw TypeError, w).
Proof. done. Qed.

#[export] Instance has_dec el w : Decision (has el w).
Proof. unfold has. apply _. Defined.

#[export] Instance complete_dec w : Decision (complete w).
Proof. unfold complete. apply _. Defined.

Lemma complete_has w :
  complete w ↔
  has fileInput w ∧ has analyzeBtn w ∧ has logArea w ∧ has resultDiv w ∧
  has fileNameSpan w.
Proof.
  unfold complete, has. destruct (elements (page w)) as [[] [] [] [] []];
    simpl; split; by intros; destruct_and?.
Qed.

End deref_facts.

#[export] Hint Rewrite @js_bind_deref @deref_run : js.

Section primitive_facts.
Context {E : Type} `{!WasmModule E}.
Implicit Types (w : World E) (s : jsstring).

Lemma js_bind_in_engine {A B : Type} (m : JS E js_error A)
  (k : A → JS (World E) js_error B) w :
  js_bind k (in_engine m) w =
  match m (engine w) with
  | (Normal a, e) => k a (with_engine e w)
  | (Throw x, e) => (Throw x, with_engine e w)
  end.
Proof. unfold js_bind, in_engine. by destruct (m (engine w)) as [[]]. Qed.

Lemma files_item_run i w :
  files_item i w =
  match fileInput (elements (page w)), fileInput_files (page w) with
  | true, Some l => (Normal (l !! i), w)
  | _, _ => (Throw TypeError, w)
  end.
Proof.
  js_simp. by destruct (fileInput (elements (page w))), (fileInput_files (page w)).
Qed.

Lemma append_log_textContent_run s w :
  append_log_textContent s w =
  if logArea (elements (page w))
  then (Normal (), with_page (with_log (logArea_textContent (page w) ++ s)) w)
  else (Throw TypeError, w).
Proof.
  js_simp. destruct (logArea (elements (page w))) eqn:H; by js_solve.
Qed.

Lemma call_processText_null text w :
  processText (page w) = None → call_processText text w = (Throw TypeError, w).
Proof. intros H. unfold call_processText. js_run. by rewrite H. Qed.

Lemma call_processText_run f text w :
  processText (page w) = Some f →
  call_processText text w =
  ((call_cwrapped f [text] (engine w)).1,
   with_engine (call_cwrapped f [text] (engine w)).2 w).
Proof.
  intros H. unfold call_processText, in_engine. js_run. rewrite H.
  by destruct (call_cwrapped _ _ _).
Qed.

(** The engine call touches nothing but the engine. *)
Lemma call_processText_frame text w :
  page (call_processText text w).2 = page w ∧
  readers (call_processText text w).2 = readers w.
Proof.
  destruct (processText (page w)) as [f|] eqn:H.
  - by rewrite (call_processText_run f).
  - by rewrite call_processText_null.
Qed.

Lemma with_engine_same w : with_engine (engine w) w = w.
Proof. by destruct w. Qed.

End primitive_facts.

#[export] Hint Rewrite @js_bind_in_engine @with_engine_same : js.

(** The messages are pairwise distinct, so each identifies its branch. *)
Lemma messages_distinct :
  NoDup [MSG_WASM_READY; MSG_SELECT_FILE; MSG_NOT_READY; MSG_DONE; MSG_READ_ERROR].
Proof. apply (bool_decide_unpack _). by vm_compute. Qed.

Lemma MSG_FILE_READ_length text :
  length (MSG_FILE_READ text)
  = (length MSG_FILE_READ_PREFIX + length (Number_toString (js_length text))
     + length MSG_FILE_READ_SUFFIX)%nat.
Proof. unfold MSG_FILE_READ. rewrite !length_app. lia. Qed.
