(* ===== verification/Decode.v ===== *)
(** * Decoding the bytes of a file

    [reader.readAsText(file, "utf-8")] (line 73) hands the bytes of the file
    to the decoder of the browser, and the [load] event carries the text it
    produces.  The algorithm is that of the Encoding Standard, which the
    File API prescribes for [readAsText]:

    - [decode]: a byte order mark at the head of the file selects the
      encoding, whatever label the script passed ([BOM_sniff]), and is
      dropped; a file without one is read in the encoding of the label;
    - [process_queue]: the bytes are read one at a time and given to the
      handler of the decoder, which returns code points, an error (replaced
      by U+FFFD) or nothing yet, and may put bytes back in front of the
      queue;
    - [utf8_decoder] and [utf16_decoder]: the two handlers, as state
      machines over the fields the standard names.

    A decoder is a record of a state, a handler and two measures with their
    laws ([Decoder]): one measure makes the loop of [process_queue]
    terminate although a handler may put bytes back, the other bounds the
    text by the bytes read.  The theorems hold for every byte sequence, well
    formed or not. *)

From Equations Require Import Equations.
From stdpp Require Import strings.
From S2P Require Import Prelude JsString.

Local Open Scope N_scope.

(** Division and remainder by a constant are linear arithmetic. *)
#[local] Ltac Zify.zify_post_hook ::= Z.to_euclidean_division_equations.

(** ** Handlers *)

(** What a handler returns for one item of the queue. *)
Inductive handler_result : Type :=
| Finished
| Continue
| Error
| Items (cps : list N).

(** The state a handler leaves, the bytes it puts back in front of the queue
    and what it returns. *)
Record Handled (St : Type) : Type := MkHandled {
  next_state : St;
  restored : list N;
  returned : handler_result;
}.
Arguments MkHandled {St} next_state restored returned.
Arguments next_state {St} h.
Arguments restored {St} h.
Arguments returned {St} h.

(** What is pushed to the output, with the error mode [replacement]. *)
Definition output (r : handler_result) : list N :=
  match r with
  | Items cps => cps
  | Error => [0xFFFD]
  | Finished | Continue => []
  end.

(** The number of code units of a list of code points. *)
Definition units (cps : list N) : nat := length (utf16_encode cps).

(** A decoder: its state, its handler (the item [None] is the end of the
    queue), and two measures.  [weight] decreases with every item, four
    times the length of the queue counted in, so the loop terminates; [held]
    counts bytes that have been read and have produced no output yet, so
    the output is never longer than the input. *)
Record Decoder : Type := MkDecoder {
  state : Type;
  fresh : state;
  handler : state → option N → Handled state;
  weight : state → nat;
  held : state → nat;
  handler_terminates st b :
    (weight (next_state (handler st (Some b)))
     + 4 * length (restored (handler st (Some b))) < weight st + 4)%nat;
  handler_accounts st b :
    (units (output (returned (handler st (Some b))))
     + held (next_state (handler st (Some b)))
     + length (restored (handler st (Some b))) ≤ held st + 1)%nat;
  handler_accounts_end st :
    (units (output (returned (handler st None))) ≤ held st)%nat;
}.

(** The loop of the standard: read an item, run the handler, push what it
    returns, until the handler has seen the end of the queue. *)
Equations? process_queue (D : Decoder) (st : state D) (queue : list N) : list N
  by wf (weight D st + 4 * length queue)%nat lt :=
process_queue D st [] := output (returned (handler D st None));
process_queue D st (b :: queue) :=
  output (returned (handler D st (Some b)))
  ++ process_queue D (next_state (handler D st (Some b)))
       (restored (handler D st (Some b)) ++ queue).
Proof. pose proof (handler_terminates D st b). rewrite length_app. simpl. lia. Qed.

(** [b] lies between [lo] and [hi], inclusive. *)
Definition in_range (lo hi b : N) : bool := (lo <=? b) && (b <=? hi).

(** ** The UTF-8 decoder *)

Record Utf8State : Type := MkUtf8State {
  utf8_code_point : N;
  utf8_bytes_seen : N;
  utf8_bytes_needed : N;
  utf8_lower_boundary : N;
  utf8_upper_boundary : N;
}.

#[export] Instance Utf8State_eq_dec : EqDecision Utf8State.
Proof. solve_decision. Defined.

Definition utf8_fresh : Utf8State := MkUtf8State 0 0 0 0x80 0xBF.

(** The first byte of a sequence (step 3 of the handler). *)
Definition utf8_lead (st : Utf8State) (byte : N) : Handled Utf8State :=
  if in_range 0x00 0x7F byte then MkHandled st [] (Items [byte])
  else if in_range 0xC2 0xDF byte then
    MkHandled (MkUtf8State (N.land byte 0x1F) (utf8_bytes_seen st) 1
                 (utf8_lower_boundary st) (utf8_upper_boundary st)) [] Continue
  else if in_range 0xE0 0xEF byte then
    MkHandled (MkUtf8State (N.land byte 0xF) (utf8_bytes_seen st) 2
                 (if byte =? 0xE0 then 0xA0 else utf8_lower_boundary st)
                 (if byte =? 0xED then 0x9F else utf8_upper_boundary st)) [] Continue
  else if in_range 0xF0 0xF4 byte then
    MkHandled (MkUtf8State (N.land byte 0x7) (utf8_bytes_seen st) 3
                 (if byte =? 0xF0 then 0x90 else utf8_lower_boundary st)
                 (if byte =? 0xF4 then 0x8F else utf8_upper_boundary st)) [] Continue
  else MkHandled st [] Error.

(** A byte after the first (steps 4 to 9): outside the boundaries it ends
    the sequence with an error and is put back, to be read again as a first
    byte; inside, its six low bits are added to the code point. *)
Definition utf8_trail (st : Utf8State) (byte : N) : Handled Utf8State :=
  if negb (in_range (utf8_lower_boundary st) (utf8_upper_boundary st) byte) then
    MkHandled utf8_fresh [byte] Error
  else
    let cp := N.lor (N.shiftl (utf8_code_point st) 6) (N.land byte 0x3F) in
    if utf8_bytes_seen st + 1 =? utf8_bytes_needed st then
      MkHandled utf8_fresh [] (Items [cp])
    else
      MkHandled (MkUtf8State cp (utf8_bytes_seen st + 1) (utf8_bytes_needed st)
                   0x80 0xBF) [] Continue.

Definition utf8_handler (st : Utf8State) (item : option N) : Handled Utf8State :=
  match item with
  | None =>
    if utf8_bytes_needed st =? 0 then MkHandled st [] Finished
    else MkHandled (MkUtf8State (utf8_code_point st) (utf8_bytes_seen st) 0
                      (utf8_lower_boundary st) (utf8_upper_boundary st)) [] Error
  | Some byte =>
    if utf8_bytes_needed st =? 0 then utf8_lead st byte else utf8_trail st byte
  end.

(** A sequence has been begun. *)
Definition utf8_pending (st : Utf8State) : nat :=
  if utf8_bytes_needed st =? 0 then 0%nat else 1%nat.

(** ** The UTF-16 decoder *)

Record Utf16State : Type := MkUtf16State {
  leading_byte : option N;
  leading_surrogate : option N;
}.

#[export] Instance Utf16State_eq_dec : EqDecision Utf16State.
Proof. solve_decision. Defined.

Definition utf16_fresh : Utf16State := MkUtf16State None None.

(** The code unit two bytes make, by the byte order. *)
Definition code_unit (be : bool) (leading byte : N) : N :=
  if be then N.shiftl leading 8 + byte else N.shiftl byte 8 + leading.

(** The two bytes of a code unit, in the order they were read. *)
Definition code_unit_bytes (be : bool) (cu : N) : list N :=
  let byte1 := N.shiftr cu 8 in
  let byte2 := N.land cu 0xFF in
  if be then [byte1; byte2] else [byte2; byte1].

(** A code unit while no leading surrogate is held (steps 6 to 8). *)
Definition utf16_unit (cu : N) : Handled Utf16State :=
  if in_range 0xD800 0xDBFF cu then MkHandled (MkUtf16State None (Some cu)) [] Continue
  else if in_range 0xDC00 0xDFFF cu then MkHandled utf16_fresh [] Error
  else MkHandled utf16_fresh [] (Items [cu]).

(** A code unit after a leading surrogate (step 5): a trailing surrogate
    completes the pair; anything else is an error, and its two bytes are put
    back. *)
Definition utf16_pair (be : bool) (lead cu : N) : Handled Utf16State :=
  if in_range 0xDC00 0xDFFF cu then
    MkHandled utf16_fresh []
      (Items [0x10000 + N.shiftl (lead - 0xD800) 10 + (cu - 0xDC00)])
  else MkHandled utf16_fresh (code_unit_bytes be cu) Error.

Definition utf16_handler (be : bool) (st : Utf16State) (item : option N) :
    Handled Utf16State :=
  match item with
  | None =>
    match leading_byte st, leading_surrogate st with
    | None, None => MkHandled st [] Finished
    | _, _ => MkHandled utf16_fresh [] Error
    end
  | Some byte =>
    match leading_byte st with
    | None => MkHandled (MkUtf16State (Some byte) (leading_surrogate st)) [] Continue
    | Some leading =>
      match leading_surrogate st with
      | Some lead => utf16_pair be lead (code_unit be leading byte)
      | None => utf16_unit (code_unit be leading byte)
      end
    end
  end.

Definition utf16_weight (st : Utf16State) : nat :=
  (match leading_surrogate st with Some _ => 5 | None => 0 end
   + match leading_byte st with Some _ => 2 | None => 0 end)%nat.

Definition utf16_held (st : Utf16State) : nat :=
  (match leading_surrogate st with Some _ => 2 | None => 0 end
   + match leading_byte st with Some _ => 1 | None => 0 end)%nat.

(** ** The laws of the two decoders *)

(** [case_range] decides the range tests and comparisons of the goal. *)
Ltac case_range :=
  unfold in_range in *;
  repeat match goal with
         | |- context [?a <=? ?b] => destruct (N.leb_spec a b); simpl
         | |- context [?a =? ?b] => destruct (N.eqb_spec a b); simpl
         | |- context [?a <? ?b] => destruct (N.ltb_spec a b); simpl
         end.

Lemma units_nil : units [] = 0%nat.
Proof. reflexivity. Qed.

Lemma units_replacement : units [0xFFFD] = 1%nat.
Proof. reflexivity. Qed.

Lemma units_cons cp cps : units (cp :: cps) = (length (utf16_units cp) + units cps)%nat.
Proof. unfold units, utf16_encode. by rewrite bind_cons, length_app. Qed.

Lemma units_app cps1 cps2 : units (cps1 ++ cps2) = (units cps1 + units cps2)%nat.
Proof. unfold units. by rewrite utf16_encode_app, length_app. Qed.

(** A code point is one code unit or two. *)
Lemma utf16_units_bound cp : (1 ≤ length (utf16_units cp) ≤ 2)%nat.
Proof. unfold utf16_units. case_range; simpl; lia. Qed.

Lemma units_single cp : (1 ≤ units [cp] ≤ 2)%nat.
Proof.
  rewrite units_cons, units_nil. pose proof (utf16_units_bound cp). lia.
Qed.

Lemma units_ascii b : b ≤ 0x7F → units [b] = 1%nat.
Proof. intros. unfold units, utf16_encode, utf16_units. simpl. by case_range; try lia. Qed.

Lemma code_unit_bytes_length be cu : length (code_unit_bytes be cu) = 2%nat.
Proof. by destruct be. Qed.

(** [handler_cases] unfolds a handler and splits on its tests. *)
Ltac handler_cases :=
  unfold utf8_handler, utf8_lead, utf8_trail, utf8_pending,
    utf16_handler, utf16_unit, utf16_pair, utf16_weight, utf16_held;
  repeat (case_match; simpl in *; try congruence);
  rewrite ?code_unit_bytes_length, ?units_nil, ?units_replacement.

Lemma utf8_handler_terminates st b :
  (utf8_pending (next_state (utf8_handler st (Some b)))
   + 4 * length (restored (utf8_handler st (Some b))) < utf8_pending st + 4)%nat.
Proof. handler_cases; simplify_eq/=; lia. Qed.

Lemma utf8_handler_accounts st b :
  (units (output (returned (utf8_handler st (Some b))))
   + utf8_pending (next_state (utf8_handler st (Some b)))
   + length (restored (utf8_handler st (Some b))) ≤ utf8_pending st + 1)%nat.
Proof.
  handler_cases; simplify_eq/=;
    try match goal with |- context [units [?cp]] => pose proof (units_single cp) end;
    try lia.
  rewrite units_ascii; [lia|].
  match goal with H : in_range _ _ _ = true |- _ =>
    unfold in_range in H; apply andb_prop in H as [_ ?%N.leb_le] end. lia.
Qed.

Lemma utf8_handler_accounts_end st :
  (units (output (returned (utf8_handler st None))) ≤ utf8_pending st)%nat.
Proof. handler_cases; lia. Qed.

Definition utf8_decoder : Decoder :=
  MkDecoder Utf8State utf8_fresh utf8_handler utf8_pending utf8_pending
    utf8_handler_terminates utf8_handler_accounts utf8_handler_accounts_end.

Lemma utf16_handler_terminates be st b :
  (utf16_weight (next_state (utf16_handler be st (Some b)))
   + 4 * length (restored (utf16_handler be st (Some b))) < utf16_weight st + 4)%nat.
Proof. handler_cases; simplify_eq/=; lia. Qed.

Lemma utf16_handler_accounts be st b :
  (units (output (returned (utf16_handler be st (Some b))))
   + utf16_held (next_state (utf16_handler be st (Some b)))
   + length (restored (utf16_handler be st (Some b))) ≤ utf16_held st + 1)%nat.
Proof.
  handler_cases; simplify_eq/=;
    try match goal with |- context [units [?cp]] => pose proof (units_single cp) end;
    lia.
Qed.

Lemma utf16_handler_accounts_end be st :
  (units (output (returned (utf16_handler be st None))) ≤ utf16_held st)%nat.
Proof. handler_cases; lia. Qed.

Definition utf16_decoder (be : bool) : Decoder :=
  MkDecoder Utf16State utf16_fresh (utf16_handler be) utf16_weight utf16_held
    (utf16_handler_terminates be) (utf16_handler_accounts be)
    (utf16_handler_accounts_end be).

(** ** Byte order marks and [decode] *)

Inductive encoding : Type := UTF_8 | UTF_16BE | UTF_16LE.

#[export] Instance encoding_eq_dec : EqDecision encoding.
Proof. solve_decision. Defined.

Definition decoder_of (e : encoding) : Decoder :=
  match e with
  | UTF_8 => utf8_decoder
  | UTF_16BE => utf16_decoder true
  | UTF_16LE => utf16_decoder false
  end.

Definition BOM_UTF_8 : list N := [0xEF; 0xBB; 0xBF].
Definition BOM_UTF_16BE : list N := [0xFE; 0xFF].
Definition BOM_UTF_16LE : list N := [0xFF; 0xFE].

(** The encoding the first bytes of a file announce, if any. *)
Definition BOM_sniff (bs : list N) : option encoding :=
  if bool_decide (take 3 bs = BOM_UTF_8) then Some UTF_8
  else if bool_decide (take 2 bs = BOM_UTF_16BE) then Some UTF_16BE
  else if bool_decide (take 2 bs = BOM_UTF_16LE) then Some UTF_16LE
  else None.

(** Decoding with one decoder, from its fresh state. *)
Definition run_decoder (e : encoding) (bs : list N) : list N :=
  process_queue (decoder_of e) (fresh (decoder_of e)) bs.

(** The [decode] of the standard: the byte order mark wins over the
    encoding that was asked for, and is not part of the text. *)
Definition decode (fallback : encoding) (bs : list N) : list N :=
  match BOM_sniff bs with
  | Some UTF_8 => run_decoder UTF_8 (drop 3 bs)
  | Some e => run_decoder e (drop 2 bs)
  | None => run_decoder fallback bs
  end.

(** ** The text is never longer than the file *)

Section bound.
Variable D : Decoder.

Lemma process_queue_units st queue :
  (units (process_queue D st queue) ≤ held D st + length queue)%nat.
Proof.
  funelim (process_queue D st queue); simp process_queue.
  - pose proof (handler_accounts_end D st). simpl. lia.
  - rewrite units_app. pose proof (handler_accounts D st b).
    rewrite length_app in H. simpl. lia.
Qed.

End bound.

Lemma run_decoder_units e bs : (units (run_decoder e bs) ≤ length bs)%nat.
Proof.
  unfold run_decoder.
  pose proof (process_queue_units (decoder_of e) (fresh (decoder_of e)) bs) as H.
  by destruct e.
Qed.

Lemma decode_units fallback bs : (units (decode fallback bs) ≤ length bs)%nat.
Proof.
  unfold decode.
  destruct (BOM_sniff bs) as [[]|];
    match goal with
    | |- context [run_decoder ?e (drop ?n bs)] =>
      pose proof (run_decoder_units e (drop n bs)) as H;
      rewrite length_drop in H; lia
    | _ => apply run_decoder_units
    end.
Qed.

(** ** The handlers in arithmetic *)

Section arithmetic.
Implicit Types (b cu cp : N) (q : list N).

(** The masks of the handlers are remainders, the shifts products. *)
Lemma land_3F b : N.land b 0x3F = b `mod` 64.
Proof. apply (N.land_ones b 6). Qed.
Lemma land_1F b : N.land b 0x1F = b `mod` 32.
Proof. apply (N.land_ones b 5). Qed.
Lemma land_F b : N.land b 0xF = b `mod` 16.
Proof. apply (N.land_ones b 4). Qed.
Lemma land_7 b : N.land b 0x7 = b `mod` 8.
Proof. apply (N.land_ones b 3). Qed.
Lemma land_FF b : N.land b 0xFF = b `mod` 256.
Proof. apply (N.land_ones b 8). Qed.

Lemma lor_shiftl a x n : x < 2 ^ n → N.lor (N.shiftl a n) x = a * 2 ^ n + x.
Proof.
  intros Hx.
  rewrite <-N.lxor_lor, <-N.add_nocarry_lxor, N.shiftl_mul_pow2; try done.
  all: apply N.bits_inj; intros i; rewrite N.land_spec, N.bits_0;
    destruct (decide (i < n)).
  all: try (rewrite N.shiftl_spec_low by done; done).
  all: rewrite <-(N.mod_small x (2 ^ n)) by done;
    rewrite N.mod_pow2_bits_high by lia; apply andb_false_r.
Qed.

(** Six more bits of a code point. *)
Lemma utf8_shift cp b :
  N.lor (N.shiftl cp 6) (N.land b 0x3F) = cp * 64 + b `mod` 64.
Proof.
  rewrite land_3F. apply (lor_shiftl cp (b `mod` 64) 6).
  change (2 ^ 6) with 64. lia.
Qed.

Lemma code_unit_arith be leading b :
  code_unit be leading b = if be then leading * 256 + b else b * 256 + leading.
Proof. unfold code_unit. by rewrite !N.shiftl_mul_pow2. Qed.

Lemma code_unit_bytes_arith be cu :
  code_unit_bytes be cu =
  if be then [cu `div` 256; cu `mod` 256] else [cu `mod` 256; cu `div` 256].
Proof.
  unfold code_unit_bytes.
  by rewrite N.shiftr_div_pow2, land_FF.
Qed.

(** The bytes a handler puts back are those that made the code unit. *)
Lemma code_unit_bytes_restored be leading b :
  leading < 256 → b < 256 →
  code_unit_bytes be (code_unit be leading b) = [leading; b].
Proof.
  intros. rewrite code_unit_bytes_arith, code_unit_arith.
  destruct be; f_equal; [|f_equal| |f_equal]; lia.
Qed.

Lemma code_unit_of_bytes be cu :
  match code_unit_bytes be cu with
  | [byte1; byte2] => code_unit be byte1 byte2 = cu
  | _ => False
  end.
Proof. rewrite code_unit_bytes_arith. destruct be; rewrite code_unit_arith; lia. Qed.

End arithmetic.

(** ** The decoded text is well formed *)

(** A byte. *)
Definition is_byte (b : N) : Prop := b < 256.

(** A code point is a scalar value: no surrogate, and in the code space. *)
Definition is_scalar (cp : N) : Prop := cp < 0xD800 ∨ 0xE000 ≤ cp < 0x110000.

#[export] Instance is_scalar_dec cp : Decision (is_scalar cp).
Proof. unfold is_scalar. apply _. Defined.

(** A text: a sequence of scalar values. *)
Definition scalar_text (cps : list N) : Prop := Forall is_scalar cps.

#[export] Instance scalar_text_dec cps : Decision (scalar_text cps).
Proof. unfold scalar_text. apply _. Defined.

(** What the UTF-8 handler has accumulated can still become a scalar value
    and nothing else: with [n] bytes needed and [k] seen, the code point so
    far and the boundaries of the next byte leave no room for an overlong
    form, a surrogate or a code point beyond U+10FFFF. *)
Definition utf8_good (st : Utf8State) : Prop :=
  let cp := utf8_code_point st in
  let seen := utf8_bytes_seen st in
  let needed := utf8_bytes_needed st in
  let lo := utf8_lower_boundary st in
  let hi := utf8_upper_boundary st in
  0x80 ≤ lo ∧ hi ≤ 0xBF ∧
  (needed = 0 ∧ seen = 0 ∧ lo = 0x80 ∧ hi = 0xBF ∨
   needed = 1 ∧ seen = 0 ∧ 2 ≤ cp ≤ 0x1F ∨
   needed = 2 ∧ seen = 0 ∧ cp ≤ 0xF ∧ (cp = 0 → 0xA0 ≤ lo) ∧ (cp = 0xD → hi ≤ 0x9F) ∨
   needed = 2 ∧ seen = 1 ∧ 0x20 ≤ cp ≤ 0x3FF ∧ ¬ (0x360 ≤ cp ≤ 0x37F) ∨
   needed = 3 ∧ seen = 0 ∧ cp ≤ 4 ∧ (cp = 0 → 0x90 ≤ lo) ∧ (cp = 4 → hi ≤ 0x8F) ∨
   needed = 3 ∧ seen = 1 ∧ 0x10 ≤ cp ≤ 0x10F ∨
   needed = 3 ∧ seen = 2 ∧ 0x400 ≤ cp ≤ 0x43FF).

(** The UTF-16 handler holds a byte, and a leading surrogate if any. *)
Definition utf16_good (st : Utf16State) : Prop :=
  from_option is_byte True (leading_byte st) ∧
  from_option (λ cu, 0xD800 ≤ cu ≤ 0xDBFF) True (leading_surrogate st).

(** The invariant of each decoder. *)
Definition good (e : encoding) : state (decoder_of e) → Prop :=
  match e with
  | UTF_8 => utf8_good
  | UTF_16BE | UTF_16LE => utf16_good
  end.

Section scalar.
Implicit Types (b cu cp : N) (queue : list N).

Lemma scalar_output_error : scalar_text (output Error).
Proof. apply Forall_singleton. unfold is_scalar. lia. Qed.

(** [good_cases] decides the tests of a handler and leaves arithmetic;
    [good_state] finds the case of the invariant the next state is in. *)
Ltac good_cases :=
  rewrite ?utf8_shift, ?land_1F, ?land_F, ?land_7, ?code_unit_arith,
    ?code_unit_bytes_arith, ?N.shiftl_mul_pow2;
  case_range; simpl;
  unfold scalar_text, is_byte, is_scalar in *;
  split_and!; repeat (match goal with |- Forall _ _ => constructor end); simpl.

Ltac good_state :=
  lazymatch goal with
  | |- _ ∨ _ => first [ left; split; [reflexivity|]; split; [reflexivity|]; lia
                      | left; lia
                      | right; good_state
                      | lia ]
  | |- _ => lia
  end.

Lemma utf8_handler_good st b :
  utf8_good st → is_byte b →
  utf8_good (next_state (utf8_handler st (Some b))) ∧
  Forall is_byte (restored (utf8_handler st (Some b))) ∧
  scalar_text (output (returned (utf8_handler st (Some b)))).
Proof.
  destruct st as [cp seen needed lo hi]. unfold utf8_handler, utf8_good. simpl.
  intros (Hlo & Hhi & Hg) Hb. destruct_or! Hg; destruct_and! Hg; subst; simpl.
  all: unfold utf8_lead, utf8_trail; simpl; good_cases.
  all: good_state.
Qed.

Lemma utf16_handler_good be st b :
  utf16_good st → is_byte b →
  utf16_good (next_state (utf16_handler be st (Some b))) ∧
  Forall is_byte (restored (utf16_handler be st (Some b))) ∧
  scalar_text (output (returned (utf16_handler be st (Some b)))).
Proof.
  destruct st as [[leading|] [lead|]]; unfold utf16_good, utf16_handler; simpl;
    intros [Hl Hs] Hb; unfold utf16_pair, utf16_unit; try done.
  all: destruct be; good_cases; lia.
Qed.

(** Along the loop the invariant holds, the queue holds bytes and the
    output holds scalar values. *)
Lemma handler_good e st b :
  good e st → is_byte b →
  good e (next_state (handler (decoder_of e) st (Some b))) ∧
  Forall is_byte (restored (handler (decoder_of e) st (Some b))) ∧
  scalar_text (output (returned (handler (decoder_of e) st (Some b)))).
Proof. destruct e; [apply utf8_handler_good|apply utf16_handler_good..]. Qed.

Lemma handler_good_end e st :
  scalar_text (output (returned (handler (decoder_of e) st None))).
Proof.
  destruct e; simpl; unfold utf8_handler, utf16_handler;
    repeat case_match; simpl; first [by constructor|apply scalar_output_error].
Qed.

Lemma process_queue_scalar e st queue :
  good e st → Forall is_byte queue →
  scalar_text (process_queue (decoder_of e) st queue).
Proof.
  funelim (process_queue (decoder_of e) st queue); simp process_queue;
    intros Hg Hq; [apply handler_good_end|].
  inv Hq. destruct (handler_good e st b) as (? & ? & ?); [done..|].
  apply Forall_app. split; [done|]. apply H; [done|]. by apply Forall_app.
Qed.

Lemma good_fresh e : good e (fresh (decoder_of e)).
Proof. destruct e; simpl; unfold utf8_good, utf16_good; simpl; [lia|done..]. Qed.

(** C35: whatever bytes a file holds, the text decoded from it is a sequence
    of scalar values: no surrogate, no code point beyond U+10FFFF; what is
    ill formed in the file has become U+FFFD.  So the string handed to the
    script is well-formed UTF-16. *)
Theorem decode_scalar fallback bs :
  Forall is_byte bs → scalar_text (decode fallback bs).
Proof.
  intros Hb. unfold decode, run_decoder.
  destruct (BOM_sniff bs) as [[]|];
    apply process_queue_scalar; auto using good_fresh, Forall_drop.
Qed.

(** An encoded surrogate in UTF-8, then a letter: three replacement
    characters and the letter. *)
Lemma decode_scalar_witness :
  decode UTF_8 [0xED; 0xA0; 0x80; 0x41] = [0xFFFD; 0xFFFD; 0xFFFD; 0x41] ∧
  scalar_text (decode UTF_8 [0xED; 0xA0; 0x80; 0x41]).
Proof.
  split; [by vm_compute|]. apply decode_scalar. by repeat constructor.
Defined.

End scalar.

(** ** Well-formed sequences *)

Section sequences.
Implicit Types (b cu cp : N) (q : list N).

Abbreviation run8 := (process_queue utf8_decoder).
Abbreviation run16 be := (process_queue (utf16_decoder be)).

(** One item of the queue. *)
Lemma run8_cons st b q :
  run8 st (b :: q) =
  output (returned (utf8_handler st (Some b)))
  ++ run8 (next_state (utf8_handler st (Some b)))
       (restored (utf8_handler st (Some b)) ++ q).
Proof. by simp process_queue. Qed.

Lemma run16_cons be st b q :
  run16 be st (b :: q) =
  output (returned (utf16_handler be st (Some b)))
  ++ run16 be (next_state (utf16_handler be st (Some b)))
       (restored (utf16_handler be st (Some b)) ++ q).
Proof. by simp process_queue. Qed.

(** [run_item] reads one item of the queue of the goal and decides the
    tests of the handler with the hypotheses. *)
Ltac run_item :=
  first [rewrite run8_cons|rewrite run16_cons];
  unfold utf8_handler, utf8_lead, utf8_trail, utf16_handler, utf16_unit, utf16_pair;
  simpl; rewrite ?utf8_shift, ?code_unit_arith, ?N.shiftl_mul_pow2;
  rewrite ?land_1F, ?land_F, ?land_7;
  case_range; try lia; simpl.

(** An ASCII byte is its code point. *)
Lemma run8_ascii b q : b ≤ 0x7F → run8 utf8_fresh (b :: q) = b :: run8 utf8_fresh q.
Proof. intros. by run_item. Qed.

(** The sequences of two, three and four bytes of the table of well-formed
    byte sequences of Unicode. *)
Lemma run8_two b0 b1 q :
  0xC2 ≤ b0 ≤ 0xDF → 0x80 ≤ b1 ≤ 0xBF →
  run8 utf8_fresh (b0 :: b1 :: q)
  = (b0 `mod` 32 * 64 + b1 `mod` 64) :: run8 utf8_fresh q.
Proof. intros. by do 2 run_item. Qed.

Lemma run8_three b0 b1 b2 q :
  0xE0 ≤ b0 ≤ 0xEF →
  (if b0 =? 0xE0 then 0xA0 else 0x80) ≤ b1 ≤ (if b0 =? 0xED then 0x9F else 0xBF) →
  0x80 ≤ b2 ≤ 0xBF →
  run8 utf8_fresh (b0 :: b1 :: b2 :: q)
  = ((b0 `mod` 16 * 64 + b1 `mod` 64) * 64 + b2 `mod` 64) :: run8 utf8_fresh q.
Proof. intros ? Hb1 ?. revert Hb1. run_item; intros; by do 2 run_item. Qed.

Lemma run8_four b0 b1 b2 b3 q :
  0xF0 ≤ b0 ≤ 0xF4 →
  (if b0 =? 0xF0 then 0x90 else 0x80) ≤ b1 ≤ (if b0 =? 0xF4 then 0x8F else 0xBF) →
  0x80 ≤ b2 ≤ 0xBF → 0x80 ≤ b3 ≤ 0xBF →
  run8 utf8_fresh (b0 :: b1 :: b2 :: b3 :: q)
  = (((b0 `mod` 8 * 64 + b1 `mod` 64) * 64 + b2 `mod` 64) * 64 + b3 `mod` 64)
    :: run8 utf8_fresh q.
Proof. intros ? Hb1 ? ?. revert Hb1. run_item; intros; by do 3 run_item. Qed.

(** A code unit that is no surrogate is its code point; a leading and a
    trailing surrogate make one code point. *)
Lemma run16_unit be byte1 byte2 q :
  ¬ 0xD800 ≤ code_unit be byte1 byte2 ≤ 0xDFFF →
  run16 be utf16_fresh (byte1 :: byte2 :: q)
  = code_unit be byte1 byte2 :: run16 be utf16_fresh q.
Proof. rewrite code_unit_arith. intros. by do 2 run_item. Qed.

Lemma run16_pair be byte1 byte2 byte3 byte4 q :
  0xD800 ≤ code_unit be byte1 byte2 ≤ 0xDBFF →
  0xDC00 ≤ code_unit be byte3 byte4 ≤ 0xDFFF →
  run16 be utf16_fresh (byte1 :: byte2 :: byte3 :: byte4 :: q)
  = (0x10000 + (code_unit be byte1 byte2 - 0xD800) * 1024
     + (code_unit be byte3 byte4 - 0xDC00)) :: run16 be utf16_fresh q.
Proof. rewrite !code_unit_arith. intros. by do 4 run_item. Qed.

End sequences.
