(* ===== verification/Ingest.v ===== *)
(** * Ingestion: the text of a file and its length

    [reader.readAsText(file, "utf-8")] (line 73) hands the bytes of the file
    to the browser's decoder; the [load] event carries the decoded text as a
    JavaScript string, and line 58 reports [text.length] under the label
    [bytes].  The decoder is the browser's, not the script's: it is the
    [decode] of [Decode], run with the encoding the script asks for.  This
    file has the encoders ([utf8_encode], [utf16_bytes]) and validates the
    decoder against them by round trips.

    The theorems compare what the log reports, the number of UTF-16 code
    units, with the number of bytes of the file: the first is at most the
    second for every file, and for the files that hold well-formed UTF-8 the
    two agree only on ASCII text.  A file that begins with a byte order mark
    of UTF-16 is read as UTF-16, although the script asks for UTF-8. *)

From stdpp Require Import strings.
From S2P Require Import Prelude JsString Engine Page Decode.

Local Open Scope N_scope.

(** Division and remainder by a constant are linear arithmetic. *)
#[local] Ltac Zify.zify_post_hook ::= Z.to_euclidean_division_equations.

(** ** Encoding and decoding *)

(** The UTF-8 encoding of a code point. *)
Definition utf8_bytes (cp : N) : list N :=
  if cp <? 0x80 then [cp]
  else if cp <? 0x800 then [0xC0 + cp `div` 64; 0x80 + cp `mod` 64]
  else if cp <? 0x10000 then
    [0xE0 + cp `div` 4096; 0x80 + (cp `div` 64) `mod` 64; 0x80 + cp `mod` 64]
  else
    [0xF0 + cp `div` 262144; 0x80 + (cp `div` 4096) `mod` 64;
     0x80 + (cp `div` 64) `mod` 64; 0x80 + cp `mod` 64].

Definition utf8_encode (cps : list N) : list N := cps ≫= utf8_bytes.

(** The bytes of a string in UTF-16, in one byte order or the other. *)
Definition utf16_bytes (be : bool) (s : jsstring) : list N :=
  s ≫= code_unit_bytes be.

(** The byte order mark of UTF-16. *)
Definition BOM_UTF_16 (be : bool) : list N :=
  if be then BOM_UTF_16BE else BOM_UTF_16LE.

(** The text [readAsText] yields for a file that holds the bytes [bs], when
    the script asks for [utf-8]. *)
Definition decode_utf8 (bs : list N) : jsstring :=
  utf16_encode (decode UTF_8 bs).

(** The size of a file, as a number. *)
Definition byte_length (bs : list N) : N := N.of_nat (length bs).

(** The line that would report the size of the file in bytes. *)
Definition MSG_FILE_BYTES (bs : list N) : jsstring :=
  MSG_FILE_READ_PREFIX ++ Number_toString (byte_length bs) ++ MSG_FILE_READ_SUFFIX.

(** A text is ASCII. *)
Definition ascii_text (cps : list N) : Prop := Forall (λ cp, cp < 0x80) cps.

#[export] Instance ascii_text_dec cps : Decision (ascii_text cps).
Proof. unfold ascii_text. apply _. Defined.

(** A text without the byte order mark it may begin with. *)
Definition strip_BOM (cps : list N) : list N :=
  match cps with
  | cp :: rest => if decide (cp = 0xFEFF) then rest else cps
  | [] => []
  end.

(** ** The round trips *)

(** [case_ltb] decides the comparisons of the goal. *)
Ltac case_ltb :=
  repeat match goal with
         | |- context [?a <? ?b] => destruct (N.ltb_spec a b); try lia
         end.

Section roundtrip.
Implicit Types (cp : N) (cps bs q : list N).

(** The decoder reads the encoding of a scalar value as that value. *)
Lemma run_utf8_bytes cp q :
  is_scalar cp →
  process_queue utf8_decoder utf8_fresh (utf8_bytes cp ++ q)
  = cp :: process_queue utf8_decoder utf8_fresh q.
Proof.
  intros Hcp. unfold is_scalar in Hcp. unfold utf8_bytes. case_ltb; simpl app.
  - by apply run8_ascii; lia.
  - rewrite run8_two by lia. f_equal. lia.
  - rewrite run8_three by (case_range; lia). f_equal. lia.
  - rewrite run8_four by (case_range; lia). f_equal. lia.
Qed.

Lemma run_utf8_encode cps :
  scalar_text cps → run_decoder UTF_8 (utf8_encode cps) = cps.
Proof.
  unfold run_decoder, utf8_encode. simpl.
  induction 1 as [|cp cps Hcp _ IH]; [done|].
  by rewrite bind_cons, run_utf8_bytes, IH.
Qed.

Lemma run_utf16_units be cp q :
  is_scalar cp →
  process_queue (utf16_decoder be) utf16_fresh (utf16_bytes be (utf16_units cp) ++ q)
  = cp :: process_queue (utf16_decoder be) utf16_fresh q.
Proof.
  intros Hcp. unfold is_scalar in Hcp. unfold utf16_bytes, utf16_units.
  case_ltb; cbn [mbind list_bind app]; rewrite ?app_nil_r, !code_unit_bytes_arith;
    destruct be; simpl app.
  all: first [ rewrite run16_unit by (rewrite code_unit_arith; lia)
             | rewrite run16_pair by (rewrite code_unit_arith; lia) ].
  all: rewrite ?code_unit_arith; f_equal; lia.
Qed.

Lemma run_utf16_encode be cps :
  scalar_text cps →
  process_queue (utf16_decoder be) utf16_fresh (utf16_bytes be (utf16_encode cps))
  = cps.
Proof.
  unfold utf16_bytes, utf16_encode.
  induction 1 as [|cp cps Hcp _ IH]; [done|].
  rewrite bind_cons, bind_app. by rewrite (run_utf16_units be cp), IH.
Qed.

(** Only the encoding of U+FEFF begins like a byte order mark. *)
Lemma BOM_sniff_utf8_bytes cp q :
  is_scalar cp →
  BOM_sniff (utf8_bytes cp ++ q) = if decide (cp = 0xFEFF) then Some UTF_8 else None.
Proof.
  intros Hcp. unfold is_scalar in Hcp. case_decide as Hb; [by subst|].
  unfold BOM_sniff, BOM_UTF_8, BOM_UTF_16BE, BOM_UTF_16LE, utf8_bytes.
  case_ltb; simpl; repeat case_bool_decide; try done;
    destruct q as [|? [|? ?]]; simplify_eq/=; lia.
Qed.

Lemma decode_utf8_encode cps :
  scalar_text cps → decode UTF_8 (utf8_encode cps) = strip_BOM cps.
Proof.
  intros Hs. destruct Hs as [|cp cps Hcp Hs]; [done|].
  unfold decode, utf8_encode. rewrite bind_cons, BOM_sniff_utf8_bytes by done.
  simpl. case_decide as Hb.
  - subst. by apply run_utf8_encode.
  - rewrite <-(bind_cons utf8_bytes). by apply run_utf8_encode, Forall_cons.
Qed.

Lemma decode_utf16_bytes fallback be cps :
  scalar_text cps →
  decode fallback (BOM_UTF_16 be ++ utf16_bytes be (utf16_encode cps)) = cps.
Proof. intros Hs. unfold decode. destruct be; by apply run_utf16_encode. Qed.

End roundtrip.

(** ** Code units and bytes *)

Section lengths.
Implicit Types (cp : N) (cps bs : list N).

Lemma utf16_units_length cp :
  length (utf16_units cp) = if cp <? 0x10000 then 1%nat else 2%nat.
Proof. unfold utf16_units. by case_ltb. Qed.

Lemma utf8_bytes_length cp :
  length (utf8_bytes cp) =
  if cp <? 0x80 then 1%nat else if cp <? 0x800 then 2%nat
  else if cp <? 0x10000 then 3%nat else 4%nat.
Proof. unfold utf8_bytes. by case_ltb. Qed.

(** A code point takes at most as many code units as bytes, and as many
    only if it is ASCII. *)
Lemma units_le_bytes cp : (length (utf16_units cp) ≤ length (utf8_bytes cp))%nat.
Proof. rewrite utf16_units_length, utf8_bytes_length. case_ltb. Qed.

Lemma units_eq_bytes cp :
  length (utf16_units cp) = length (utf8_bytes cp) ↔ cp < 0x80.
Proof. rewrite utf16_units_length, utf8_bytes_length. case_ltb; split; lia. Qed.

Lemma encode_lengths cps :
  (length (utf16_encode cps) ≤ length (utf8_encode cps))%nat ∧
  (length (utf16_encode cps) = length (utf8_encode cps) ↔ ascii_text cps).
Proof.
  unfold utf16_encode, utf8_encode, ascii_text.
  induction cps as [|cp cps [IHle IHeq]]; [by split|].
  rewrite !bind_cons, !length_app.
  pose proof (units_le_bytes cp).
  split; [lia|]. split.
  - intros Heq. constructor; [apply units_eq_bytes|apply IHeq]; lia.
  - intros [?%units_eq_bytes ?%IHeq]%Forall_cons_1. lia.
Qed.

(** The same for a file read by the browser, which drops the byte order
    mark. *)
Lemma strip_BOM_lengths cps :
  (length (utf16_encode (strip_BOM cps)) ≤ length (utf8_encode cps))%nat ∧
  (length (utf16_encode (strip_BOM cps)) = length (utf8_encode cps) ↔ ascii_text cps).
Proof.
  destruct cps as [|cp cps]; [by apply encode_lengths|]. simpl.
  case_decide as Hb; [|by apply encode_lengths].
  subst. destruct (encode_lengths cps) as [Hle _].
  rewrite length_app. simpl.
  split; [lia|]. split; [lia|]. intros [Hlt _]%Forall_cons_1. lia.
Qed.

Lemma MSG_FILE_READ_inj text bs :
  MSG_FILE_READ text = MSG_FILE_BYTES bs ↔ js_length text = byte_length bs.
Proof.
  unfold MSG_FILE_READ, MSG_FILE_BYTES. split; [|by intros ->].
  by intros ?%app_inv_head%app_inv_tail%Number_toString_inj.
Qed.

End lengths.

(** ** The literals of the script

    The literals of the script are read off its source by
    [utf8_code_points] ([JsString]), which takes the well-formed sequences
    only: the source is well formed.  It inverts the encoder too, so that on
    the encoding of a text the two decoders differ by the byte order mark
    alone. *)

Section literals.
Implicit Types (cp : N) (cps bs : list N).

(** The decoder, by the class of the first byte. *)
Lemma utf8_code_points_cons b0 r0 :
  utf8_code_points (b0 :: r0) =
  if b0 <? 0x80 then b0 :: utf8_code_points r0
  else if b0 <? 0xC0 then 0xFFFD :: utf8_code_points r0
  else if b0 <? 0xE0 then
    match r0 with
    | b1 :: r1 => ((b0 - 0xC0) * 64 + (b1 - 0x80)) :: utf8_code_points r1
    | _ => [0xFFFD]
    end
  else if b0 <? 0xF0 then
    match r0 with
    | b1 :: b2 :: r2 =>
      ((b0 - 0xE0) * 4096 + (b1 - 0x80) * 64 + (b2 - 0x80)) :: utf8_code_points r2
    | _ => [0xFFFD]
    end
  else
    match r0 with
    | b1 :: b2 :: b3 :: r3 =>
      ((b0 - 0xF0) * 262144 + (b1 - 0x80) * 4096 + (b2 - 0x80) * 64
       + (b3 - 0x80)) :: utf8_code_points r3
    | _ => [0xFFFD]
    end.
Proof. reflexivity. Qed.

(** The sextets of a code point: [cp = ((q3 * 64 + r3) * 64 + r2) * 64 + r1]. *)
Lemma sextets cp :
  ∃ q1 r1 q2 r2 q3 r3,
    cp `div` 64 = q1 ∧ cp `mod` 64 = r1 ∧
    cp `div` 4096 = q2 ∧ (cp `div` 64) `mod` 64 = r2 ∧
    cp `div` 262144 = q3 ∧ (cp `div` 4096) `mod` 64 = r3 ∧
    cp = 64 * q1 + r1 ∧ r1 < 64 ∧ q1 = 64 * q2 + r2 ∧ r2 < 64 ∧
    q2 = 64 * q3 + r3 ∧ r3 < 64.
Proof.
  pose proof (N.div_mod cp 64 ltac:(done)) as H1.
  pose proof (N.div_mod (cp `div` 64) 64 ltac:(done)) as H2.
  pose proof (N.div_mod (cp `div` 4096) 64 ltac:(done)) as H3.
  rewrite N.Div0.div_div in H2, H3.
  change (64 * 64) with 4096 in H2. change (4096 * 64) with 262144 in H3.
  eexists _, _, _, _, _, _.
  split_and!; try reflexivity; first [done|by apply N.mod_lt].
Qed.

Lemma utf8_code_points_bytes cp bs :
  cp < 0x110000 →
  utf8_code_points (utf8_bytes cp ++ bs) = cp :: utf8_code_points bs.
Proof.
  intros Hcp. unfold utf8_bytes.
  destruct (sextets cp)
    as (q1 & r1 & q2 & r2 & q3 & r3 & -> & -> & -> & -> & -> & -> & ? & ? & ? & ? & ? & ?).
  case_ltb; simpl app; rewrite utf8_code_points_cons; case_ltb; f_equal; lia.
Qed.

Lemma utf8_code_points_encode cps :
  Forall (λ cp, cp < 0x110000) cps → utf8_code_points (utf8_encode cps) = cps.
Proof.
  unfold utf8_encode. induction 1 as [|cp cps Hcp _ IH]; [done|].
  by rewrite bind_cons, utf8_code_points_bytes, IH.
Qed.

End literals.

(** ** The properties of ingestion *)

Section ingest_properties.
Implicit Types (cp : N) (cps bs : list N).

(** C38: the decoder inverts the encoder: a file that holds the UTF-8
    encoding of a text is read as that text, without the byte order mark it
    may begin with. *)
Theorem utf8_roundtrip cps :
  scalar_text cps →
  decode UTF_8 (utf8_encode cps) = strip_BOM cps ∧
  decode_utf8 (utf8_encode cps) = utf16_encode (strip_BOM cps) ∧
  utf8_code_points (utf8_encode cps) = cps.
Proof.
  intros H. unfold decode_utf8. rewrite decode_utf8_encode by done.
  split_and!; [done..|]. apply utf8_code_points_encode.
  eapply List.Forall_impl; [|exact H]. unfold is_scalar. simpl. lia.
Qed.

(** C37: whatever the file holds, well-formed text or not, the length of
    the text a read yields is at most the size of the file in bytes; when
    the file holds the UTF-8 encoding of a text the two are equal exactly
    when the text is ASCII. *)
Theorem text_length_le_byte_length bs :
  js_length (decode_utf8 bs) ≤ byte_length bs ∧
  ∀ cps, scalar_text cps → bs = utf8_encode cps →
         (js_length (decode_utf8 bs) = byte_length bs ↔ ascii_text cps).
Proof.
  unfold js_length, byte_length, decode_utf8. split.
  - pose proof (decode_units UTF_8 bs) as H. unfold units in H. lia.
  - intros cps H ->. rewrite decode_utf8_encode by done.
    destruct (strip_BOM_lengths cps) as [? <-]. split; [lia|by intros ->].
Qed.

(** C36: for a file of well-formed UTF-8, the line of the log that reports
    the length under the label bytes is the line that reports the size of
    the file exactly when the text is ASCII: for every other file the number
    shown is not its size. *)
Theorem length_line_is_byte_count_iff_ascii cps :
  scalar_text cps →
  MSG_FILE_READ (decode_utf8 (utf8_encode cps)) = MSG_FILE_BYTES (utf8_encode cps)
  ↔ ascii_text cps.
Proof.
  intros H. rewrite MSG_FILE_READ_inj. unfold decode_utf8, js_length, byte_length.
  rewrite decode_utf8_encode by done.
  destruct (strip_BOM_lengths cps) as [? <-]. split; [lia|by intros ->].
Qed.

(** C34: the encoding the script asks for is not always the one that is
    used: a file that begins with the byte order mark of UTF-16, in either
    byte order, is read as UTF-16. *)
Theorem utf16_BOM_overrides_label be cps :
  scalar_text cps →
  decode_utf8 (BOM_UTF_16 be ++ utf16_bytes be (utf16_encode cps)) = utf16_encode cps.
Proof. intros H. unfold decode_utf8. by rewrite decode_utf16_bytes. Qed.

End ingest_properties.

(** ** At sample texts *)

(** The code points of the two Hangul syllables of [한글]. *)
Definition hangul : list N := [0xD55C; 0xAE00].

(** The bytes of [hi] in UTF-16, little endian, after the byte order mark. *)
Definition hi_utf16le : list N := [0xFF; 0xFE; 0x68; 0x00; 0x69; 0x00].

Lemma utf8_roundtrip_witness :
  utf8_encode hangul = source_bytes "한글" ∧
  decode_utf8 (utf8_encode hangul) = hangul.
Proof.
  split; [by vm_compute|].
  apply (utf8_roundtrip hangul). by repeat constructor; vm_compute; auto.
Defined.

Lemma text_length_le_byte_length_witness :
  js_length (decode_utf8 (utf8_encode hangul)) ≤ byte_length (utf8_encode hangul) ∧
  js_length (decode_utf8 (utf8_encode hangul)) ≠ byte_length (utf8_encode hangul).
Proof.
  destruct (text_length_le_byte_length (utf8_encode hangul)) as [Hle Heq].
  split; [done|].
  intros [Hlt _]%(Heq hangul)%Forall_cons_1;
    [by vm_compute in Hlt|by repeat constructor; vm_compute; auto|done].
Defined.

Lemma length_line_is_byte_count_iff_ascii_witness :
  MSG_FILE_READ (decode_utf8 (utf8_encode hangul)) ≠ MSG_FILE_BYTES (utf8_encode hangul).
Proof.
  intros Heq.
  apply (length_line_is_byte_count_iff_ascii hangul) in Heq;
    [|by repeat constructor; vm_compute; auto].
  apply Forall_cons_1 in Heq as [Hlt _]. by vm_compute in Hlt.
Defined.

Lemma utf16_BOM_overrides_label_witness :
  decode_utf8 hi_utf16le = js_lit "hi".
Proof.
  apply (utf16_BOM_overrides_label false [0x68; 0x69]).
  by repeat constructor; vm_compute; auto.
Defined.
