(* ===== verification/Handlers.v ===== *)
(** * The event handlers of [src/script.js]

    One definition per handler, in the [JS] monad over the world, statement by
    statement as in the source:

    - [on_change]: the [change] listener of [fileInput] (lines 15-21);
    - [onRuntimeInitialized]: [Module.onRuntimeInitialized] (lines 26-32);
    - [on_click]: the [click] listener of [analyzeBtn] (lines 37-74);
    - [reader_onload], [reader_onerror]: the callbacks the click listener
      installs on its [FileReader] (lines 52-67 and 69-71).

    The theorems give, for every branch of every handler, the completion and
    the whole world the handler leaves. *)

From stdpp Require Import strings.
From S2P Require Import Prelude JsString Engine Page.

Section handlers.
Context {E : Type} `{!WasmModule E}.

Abbreviation M := (JS (World E) js_error).

(** Lines 15-21.  [fileInput.files && fileInput.files[0]] is [null] when the
    list is, and the first item otherwise; the name is read from
    [fileInput.files[0]] again. *)
Definition on_change : M unit :=
  fs ← get_files;
  first ← match fs with
          | None => mret None
          | Some _ => files_item 0
          end;
  match first with
  | Some _ =>
    file ← files_item 0;
    match file with
    | Some file => set_fileName_textContent (name file)
    | None => js_throw TypeError
    end
  | None => set_fileName_textContent MSG_NO_FILE_NAME
  end.

(** Line 27: the wrapper of the export. *)
Definition process_text_wrapper : cwrapped :=
  cwrap PROCESS_TEXT TYPE_STRING [TYPE_STRING].

(** Lines 26-32. *)
Definition onRuntimeInitialized : M unit :=
  set_processText process_text_wrapper;;
  set_log_textContent MSG_WASM_READY.

(** Lines 52-67, with [text] the reader's result. *)
Definition reader_onload (text : jsstring) : M unit :=
  set_log_textContent [];;
  append_log_textContent (MSG_FILE_READ text);;
  result ← call_processText text;
  set_result_textContent result;;
  append_log_textContent MSG_DONE.

(** Lines 69-71. *)
Definition reader_onerror : M unit :=
  set_log_textContent MSG_READ_ERROR.

(** Lines 37-74.  The two guards return early; otherwise a reader is created,
    given the two callbacks above, and started. *)
Definition on_click : M unit :=
  file ← files_item 0;
  match file with
  | None => set_log_textContent MSG_SELECT_FILE
  | Some file =>
    f ← get_processText;
    match f with
    | None => set_log_textContent MSG_NOT_READY
    | Some _ => readAsText file ENCODING_UTF8
    end
  end.

End handlers.

(** ** Sample worlds *)

Definition file_a : File := MkFile (js_lit "a.txt") 1.
Definition file_b : File := MkFile (js_lit "b.txt") 2.

(** A page whose document holds the five elements, with empty texts and a
    file input. *)
Definition blank_page : Page := initial_page full_document (Some []) [] [] [].

(** The upper-casing engine, before and after it is loaded, with and without
    a selection. *)
Definition w_fresh : World upper_engine := initial_world FnEngine blank_page.
Definition w_fresh_file : World upper_engine :=
  with_page (with_files (Some [file_a])) w_fresh.
Definition w_ready : World upper_engine := exec onRuntimeInitialized w_fresh.
Definition w_ready_file : World upper_engine :=
  with_page (with_files (Some [file_a; file_b])) w_ready.
Definition w_reading : World upper_engine := exec on_click w_ready_file.
(** The same with an engine that throws. *)
Definition w_reading_failing : World failing_engine :=
  MkWorld (page w_reading) FailingEngine (readers w_reading).
(** A page whose [fileInput] is no file input. *)
Definition w_null_files : World upper_engine :=
  with_page (with_files None) w_ready.

(** ** The handlers, branch by branch *)

Section handler_facts.
Context {E : Type} `{!WasmModule E}.
Implicit Types (w : World E) (text : jsstring) (file : File).

(** *** [on_change] *)

(** The name shown is that of the first file of the selection, or the
    placeholder; nothing else changes and the handler never throws. *)
Definition shown_name (fs : option (list File)) : jsstring :=
  match fs with
  | Some (file :: _) => name file
  | _ => MSG_NO_FILE_NAME
  end.

Lemma on_change_run w :
  on_change w =
  if fileInput (elements (page w)) && fileNameSpan (elements (page w))
  then (Normal (),
        with_page (with_fileName (shown_name (fileInput_files (page w)))) w)
  else (Throw TypeError, w).
Proof.
  unfold on_change.
  destruct (fileInput (elements (page w))) eqn:?,
    (fileNameSpan (elements (page w))) eqn:?,
    (fileInput_files (page w)) as [[|file l]|] eqn:?; js_solve.
Qed.

(** *** [onRuntimeInitialized] *)

(** Without a log area the assignment of line 30 throws; [processText] has
    been set by then. *)
Lemma onRuntimeInitialized_run w :
  onRuntimeInitialized w =
  if logArea (elements (page w))
  then (Normal (),
        with_page (with_log MSG_WASM_READY
                   ∘ with_processText (Some process_text_wrapper)) w)
  else (Throw TypeError,
        with_page (with_processText (Some process_text_wrapper)) w).
Proof.
  unfold onRuntimeInitialized. destruct (logArea (elements (page w))) eqn:?; js_solve.
Qed.

(** *** [on_click] *)

Lemma on_click_null_files_run w :
  ¬ has fileInput w ∨ fileInput_files (page w) = None →
  on_click w = (Throw TypeError, w).
Proof.
  unfold on_click, has. intros [?%not_true_is_false|?];
    destruct (fileInput (elements (page w))) eqn:?; js_solve.
Qed.

Lemma on_click_no_file_run w :
  has fileInput w → fileInput_files (page w) = Some [] →
  on_click w =
  if logArea (elements (page w))
  then (Normal (), with_page (with_log MSG_SELECT_FILE) w)
  else (Throw TypeError, w).
Proof. unfold on_click. destruct (logArea (elements (page w))) eqn:?; js_solve. Qed.

Lemma on_click_not_ready_run w file l :
  has fileInput w → fileInput_files (page w) = Some (file :: l) →
  processText (page w) = None →
  on_click w =
  if logArea (elements (page w))
  then (Normal (), with_page (with_log MSG_NOT_READY) w)
  else (Throw TypeError, w).
Proof. unfold on_click. destruct (logArea (elements (page w))) eqn:?; js_solve. Qed.

Lemma on_click_read_run w file l f :
  has fileInput w → fileInput_files (page w) = Some (file :: l) →
  processText (page w) = Some f →
  on_click w =
  (Normal (), with_readers (λ rs, rs ++ [MkFileReader file ENCODING_UTF8]) w).
Proof. unfold on_click. js_solve. Qed.

(** *** [reader_onload] *)

(** The world after the two log statements that precede the engine call. *)
Definition before_call text w : World E :=
  with_page (with_log (MSG_FILE_READ text)) w.

(** Without a log area the first statement throws. *)
Lemma reader_onload_no_log_run text w :
  ¬ has logArea w → reader_onload text w = (Throw TypeError, w).
Proof. unfold reader_onload, has. intros ?%not_true_is_false. js_solve. Qed.

Lemma reader_onload_unfold text w :
  has logArea w →
  reader_onload text w =
  match call_processText text (before_call text w) with
  | (Normal result, w1) =>
    if resultDiv (elements (page w))
    then (Normal (),
          with_page (with_log (MSG_FILE_READ text ++ MSG_DONE) ∘ with_result result) w1)
    else (Throw TypeError, w1)
  | (Throw x, w1) => (Throw x, w1)
  end.
Proof.
  intros Hl. unfold reader_onload. js_solve.
  change (with_page _ (with_page (with_log []) w)) with (before_call text w).
  pose proof (call_processText_frame text (before_call text w)) as [Hp _].
  unfold js_bind at 1.
  destruct (call_processText text (before_call text w)) as [[result|x] w1]; [|done].
  simpl in Hp. js_simp. rewrite Hp. simpl.
  destruct (resultDiv (elements (page w))); [|done].
  js_simp. rewrite Hl.
  unfold with_page, with_log, with_result, compose. simpl.
  by rewrite Hp.
Qed.

Lemma reader_onload_null_run text w :
  has logArea w → processText (page w) = None →
  reader_onload text w = (Throw TypeError, before_call text w).
Proof.
  intros Hl H. rewrite reader_onload_unfold by done.
  by rewrite call_processText_null.
Qed.

Lemma reader_onload_returns_run text w f result e' :
  has logArea w → processText (page w) = Some f →
  call_cwrapped f [text] (engine w) = (Normal result, e') →
  reader_onload text w =
  if resultDiv (elements (page w))
  then (Normal (),
        with_engine e'
          (with_page (with_log (MSG_FILE_READ text ++ MSG_DONE) ∘ with_result result) w))
  else (Throw TypeError, with_engine e' (before_call text w)).
Proof.
  intros Hl Hf Hc. rewrite reader_onload_unfold by done.
  rewrite (call_processText_run f) by done. simpl. by rewrite Hc.
Qed.

Lemma reader_onload_throws_run text w f x e' :
  has logArea w → processText (page w) = Some f →
  call_cwrapped f [text] (engine w) = (Throw x, e') →
  reader_onload text w = (Throw x, with_engine e' (before_call text w)).
Proof.
  intros Hl Hf Hc. rewrite reader_onload_unfold by done.
  rewrite (call_processText_run f) by done. simpl. by rewrite Hc.
Qed.

(** *** [reader_onerror] *)

Lemma reader_onerror_run w :
  reader_onerror w =
  if logArea (elements (page w))
  then (Normal (), with_page (with_log MSG_READ_ERROR) w)
  else (Throw TypeError, w).
Proof. unfold reader_onerror. destruct (logArea (elements (page w))) eqn:?; js_solve. Qed.

End handler_facts.

#[export] Hint Unfold process_text_wrapper : js.

(** ** What a handler leaves unchanged *)

Section frames.
Context {E : Type}.
Implicit Types w : World E.

(** Nothing but the text of the log differs between [w] and [w']. *)
Definition only_log_changed w w' : Prop :=
  w' = with_page (with_log (logArea_textContent (page w'))) w.

(** Nothing but the displayed file name differs. *)
Definition only_fileName_changed w w' : Prop :=
  w' = with_page (with_fileName (fileNameSpan_textContent (page w'))) w.

(** Nothing but the readers in flight differs. *)
Definition only_readers_changed w w' : Prop :=
  w' = with_readers (λ _, readers w') w.

Lemma only_log_changed_frame w w' :
  only_log_changed w w' →
  engine w' = engine w ∧ readers w' = readers w ∧
  processText (page w') = processText (page w) ∧
  fileInput_files (page w') = fileInput_files (page w) ∧
  resultDiv_textContent (page w') = resultDiv_textContent (page w) ∧
  fileNameSpan_textContent (page w') = fileNameSpan_textContent (page w).
Proof. unfold only_log_changed. by intros ->. Qed.

Lemma only_readers_changed_frame w w' :
  only_readers_changed w w' → engine w' = engine w ∧ page w' = page w.
Proof. unfold only_readers_changed. by intros ->. Qed.

End frames.

(** ** The contract of each handler *)

Section handler_properties.
Context {E : Type} `{!WasmModule E}.
Implicit Types (w : World E) (text : jsstring) (file : File).

(** C1: a click while no file is selected completes normally, sets the log to
    the select-a-file message and changes nothing else: no read is started
    and the engine is not touched. *)
Theorem click_without_file w :
  has fileInput w → has logArea w →
  fileInput_files (page w) = Some [] →
  outcome on_click w = Normal () ∧
  logArea_textContent (page (exec on_click w)) = MSG_SELECT_FILE ∧
  only_log_changed w (exec on_click w).
Proof. unfold only_log_changed, exec, outcome, on_click. js_solve. Qed.

(** C2: a click while a file is selected and the engine is not loaded
    completes normally, sets the log to the not-ready message and changes
    nothing else: the file is not read and the engine is not called. *)
Theorem click_before_engine_ready w file l :
  has fileInput w → has logArea w →
  fileInput_files (page w) = Some (file :: l) →
  processText (page w) = None →
  outcome on_click w = Normal () ∧
  logArea_textContent (page (exec on_click w)) = MSG_NOT_READY ∧
  only_log_changed w (exec on_click w).
Proof. unfold only_log_changed, exec, outcome, on_click. js_solve. Qed.

(** C5: a click while a file is selected and the engine is loaded starts one
    read, of the first file of the selection and as UTF-8, behind the reads
    already in flight; the page (the log included) and the engine are
    unchanged. *)
Theorem click_starts_read w file l f :
  has fileInput w →
  fileInput_files (page w) = Some (file :: l) →
  processText (page w) = Some f →
  outcome on_click w = Normal () ∧
  readers (exec on_click w) = readers w ++ [MkFileReader file ENCODING_UTF8] ∧
  only_readers_changed w (exec on_click w).
Proof. unfold only_readers_changed, exec, outcome, on_click. js_solve. Qed.

(** The guards are checked file first: with neither a file nor an engine,
    the click reports the missing file, not the missing engine. *)
Lemma click_guard_order w :
  has fileInput w → has logArea w →
  fileInput_files (page w) = Some [] →
  processText (page w) = None →
  logArea_textContent (page (exec on_click w)) = MSG_SELECT_FILE ∧
  logArea_textContent (page (exec on_click w)) ≠ MSG_NOT_READY.
Proof. unfold exec, on_click. js_solve. Qed.

(** C32: on a page whose [fileInput.files] is [null] the click listener
    throws a [TypeError] and changes nothing, whereas the change listener
    completes and shows the placeholder. *)
Theorem click_null_files w :
  has fileInput w → has fileNameSpan w →
  fileInput_files (page w) = None →
  on_click w = (Throw TypeError, w) ∧
  outcome on_change w = Normal () ∧
  fileNameSpan_textContent (page (exec on_change w)) = MSG_NO_FILE_NAME.
Proof. unfold exec, outcome, on_click, on_change. js_solve. Qed.

(** C3: when the engine returns, [onload] shows the engine's result, leaves
    exactly two lines in the log (the length line and the completion line,
    whatever the log held before) and touches nothing else but the engine's
    own state. *)
Theorem onload_displays_result `{!TextProcessor E} w text result e' :
  has logArea w → has resultDiv w →
  processText (page w) = Some process_text_wrapper →
  process text (engine w) = (Normal result, e') →
  outcome (reader_onload text) w = Normal () ∧
  resultDiv_textContent (page (exec (reader_onload text) w)) = result ∧
  logArea_textContent (page (exec (reader_onload text) w))
    = MSG_FILE_READ text ++ MSG_DONE ∧
  exec (reader_onload text) w =
    with_engine e'
      (with_page (with_log (MSG_FILE_READ text ++ MSG_DONE) ∘ with_result result) w).
Proof.
  unfold exec, outcome, reader_onload, call_processText.
  js_solve. rewrite call_cwrapped_process. js_solve.
Qed.

(** C4: when the engine throws, [onload] ends with the engine's exception:
    the log holds the length line alone, with no error line and no completion
    line, and the result area keeps what it showed before. *)
Theorem onload_engine_failure `{!TextProcessor E} w text x e' :
  has logArea w →
  processText (page w) = Some process_text_wrapper →
  process text (engine w) = (Throw x, e') →
  outcome (reader_onload text) w = Throw x ∧
  logArea_textContent (page (exec (reader_onload text) w)) = MSG_FILE_READ text ∧
  resultDiv_textContent (page (exec (reader_onload text) w))
    = resultDiv_textContent (page w) ∧
  exec (reader_onload text) w
    = with_engine e' (with_page (with_log (MSG_FILE_READ text)) w).
Proof.
  unfold exec, outcome, reader_onload, call_processText.
  js_solve. rewrite call_cwrapped_process. js_solve.
Qed.

(** C13: the error callback of a reader overwrites the log with the read-error
    message and changes nothing else; the engine is not called and the
    selection is kept. *)
Theorem read_error_reported w :
  has logArea w →
  outcome reader_onerror w = Normal () ∧
  logArea_textContent (page (exec reader_onerror w)) = MSG_READ_ERROR ∧
  only_log_changed w (exec reader_onerror w).
Proof. unfold only_log_changed, exec, outcome, reader_onerror. js_solve. Qed.

(** C9: the change listener never throws, shows the name of the first
    selected file, or the placeholder when there is none, and changes nothing
    else. *)
Theorem change_shows_name w :
  has fileInput w → has fileNameSpan w →
  outcome on_change w = Normal () ∧
  fileNameSpan_textContent (page (exec on_change w))
    = shown_name (fileInput_files (page w)) ∧
  only_fileName_changed w (exec on_change w).
Proof.
  unfold only_fileName_changed, exec, outcome, on_change.
  destruct (fileInput_files (page w)) as [[|file l]|] eqn:Hf; js_solve.
Qed.

(** C31: the readiness handler is idempotent: run twice it leaves the world it
    leaves when run once, with [processText] set to the wrapper of
    [process_text] and the log holding the greeting exactly once. *)
Theorem readiness_idempotent w :
  has logArea w →
  exec onRuntimeInitialized (exec onRuntimeInitialized w)
    = exec onRuntimeInitialized w ∧
  processText (page (exec onRuntimeInitialized w)) = Some process_text_wrapper ∧
  logArea_textContent (page (exec onRuntimeInitialized w)) = MSG_WASM_READY.
Proof. unfold exec, onRuntimeInitialized. js_solve. Qed.

End handler_properties.

(** ** The contracts at sample worlds *)

Lemma click_without_file_witness :
  fileInput_files (page w_ready) = Some [] ∧
  logArea_textContent (page (exec on_click w_ready)) = MSG_SELECT_FILE.
Proof.
  split; [reflexivity|].
  apply (click_without_file w_ready); reflexivity.
Defined.

Lemma click_before_engine_ready_witness :
  fileInput_files (page w_fresh_file) = Some [file_a] ∧
  processText (page w_fresh_file) = None ∧
  logArea_textContent (page (exec on_click w_fresh_file)) = MSG_NOT_READY.
Proof.
  split_and!; [reflexivity..|].
  apply (click_before_engine_ready w_fresh_file file_a []); reflexivity.
Defined.

Lemma click_starts_read_witness :
  readers (exec on_click w_ready_file) = [MkFileReader file_a ENCODING_UTF8].
Proof.
  apply (click_starts_read w_ready_file file_a [file_b] process_text_wrapper);
    reflexivity.
Defined.

Lemma click_null_files_witness :
  on_click w_null_files = (Throw TypeError, w_null_files).
Proof. apply (click_null_files w_null_files); reflexivity. Defined.

Lemma onload_displays_result_witness :
  resultDiv_textContent (page (exec (reader_onload (js_lit "hello")) w_reading))
  = js_lit "HELLO".
Proof.
  apply (onload_displays_result w_reading (js_lit "hello") (js_lit "HELLO") FnEngine);
    reflexivity.
Defined.

Lemma onload_engine_failure_witness :
  outcome (reader_onload (js_lit "hello")) w_reading_failing
  = Throw (EngineError PROCESS_TEXT).
Proof.
  apply (onload_engine_failure w_reading_failing (js_lit "hello")
           (EngineError PROCESS_TEXT) FailingEngine); reflexivity.
Defined.

Lemma read_error_reported_witness :
  logArea_textContent (page (exec reader_onerror w_reading)) = MSG_READ_ERROR.
Proof. apply (read_error_reported w_reading). reflexivity. Defined.

Lemma change_shows_name_witness :
  fileNameSpan_textContent (page (exec on_change w_ready_file)) = js_lit "a.txt".
Proof. apply (change_shows_name w_ready_file); reflexivity. Defined.

Lemma readiness_idempotent_witness :
  exec onRuntimeInitialized (exec onRuntimeInitialized w_fresh)
  = exec onRuntimeInitialized w_fresh.
Proof. apply (readiness_idempotent w_fresh). reflexivity. Defined.
