(* ===== verification/Pipeline.v ===== *)
(** * The pipeline: the handlers under the event loop

    The script registers its handlers (lines 15, 26, 37, 52, 69) and returns;
    from then on the browser delivers events, one at a time, and each runs a
    handler to completion.  This file models that loop:

    - [event]: what the environment can deliver;
    - [dispatch]: the handler an event runs, with the browser's own part of
      the event (updating the selection, retiring a reader);
    - [fire]: the world an event leaves, whether or not the handler threw;
    - [step]: the same as a relation with one rule per branch of a handler,
      proved equivalent to [fire]; a branch that finds one of the constants
      of lines 6-12 [null] ends in a [TypeError] and has a rule of its own;
    - invariants of the worlds reachable from an initial world, by rule
      induction on [step];
    - the order and number of the calls made to the engine along a trace. *)

From stdpp Require Import strings.
From S2P Require Import Prelude JsString Engine Page Handlers.

(** ** Events *)

Inductive event : Type :=
(** the Emscripten runtime calls [Module.onRuntimeInitialized] *)
| EvRuntimeInitialized
(** the user changes the selection of [fileInput] to [fs] *)
| EvChange (fs : list File)
(** the user clicks [analyzeBtn] *)
| EvClick
(** the read of the [i]-th reader in flight succeeds with [text] *)
| EvLoad (i : nat) (text : jsstring)
(** the read of the [i]-th reader in flight fails *)
| EvError (i : nat).

#[export] Instance event_eq_dec : EqDecision event.
Proof. solve_decision. Defined.

(** The events that complete a read. *)
Definition is_completion (ev : event) : Prop :=
  match ev with EvLoad _ _ | EvError _ => True | _ => False end.

#[export] Instance is_completion_dec ev : Decision (is_completion ev).
Proof. destruct ev; apply _. Defined.

Section pipeline.
Context {E : Type} `{!WasmModule E}.
Implicit Types (w : World E) (ev : event) (text : jsstring) (file : File).

(** The browser's part of a change of selection: a file input gets the new
    list; an input that is no file input keeps [files] at [null]. *)
Definition select_files (fs : list File) w : World E :=
  match fileInput_files (page w) with
  | Some _ => with_page (with_files (Some fs)) w
  | None => w
  end.

(** The browser's part of a completion: the reader leaves the reads in
    flight.  There is no completion for a reader that is not in flight. *)
Definition retire (i : nat) w : option (World E) :=
  match readers w !! i with
  | Some _ => Some (with_readers (delete i) w)
  | None => None
  end.

(** The handler an event runs, and how it completes. *)
Definition dispatch ev w : option (completion js_error unit * World E) :=
  match ev with
  | EvRuntimeInitialized => Some (onRuntimeInitialized w)
  | EvChange fs => Some (on_change (select_files fs w))
  | EvClick => Some (on_click w)
  | EvLoad i text => reader_onload text <$> retire i w
  | EvError i => reader_onerror <$> retire i w
  end.

(** The world an event leaves.  An exception a handler does not catch is
    reported by the browser and the page goes on. *)
Definition fire ev w : option (World E) := snd <$> dispatch ev w.

(** The exception an event leaves uncaught, if any. *)
Definition uncaught ev w : option js_error :=
  match dispatch ev w with
  | Some (Throw x, _) => Some x
  | _ => None
  end.

(** The pipeline as a relation: one rule per branch of a handler.  A
    branch that dereferences a constant that is [null] ends the handler with
    a [TypeError]; the world keeps what the handler did before. *)
Inductive step : World E → event → World E → Prop :=
| step_runtime_initialized w :
    has logArea w →
    step w EvRuntimeInitialized
      (with_page (with_log MSG_WASM_READY
                  ∘ with_processText (Some process_text_wrapper)) w)
| step_runtime_initialized_no_log w :
    ¬ has logArea w →
    step w EvRuntimeInitialized
      (with_page (with_processText (Some process_text_wrapper)) w)
| step_change w fs :
    has fileInput w → has fileNameSpan w →
    step w (EvChange fs)
      (with_page
         (with_fileName (shown_name (fileInput_files (page (select_files fs w)))))
         (select_files fs w))
| step_change_throws w fs :
    ¬ (has fileInput w ∧ has fileNameSpan w) →
    step w (EvChange fs) (select_files fs w)
| step_click_null_files w :
    ¬ has fileInput w ∨ fileInput_files (page w) = None →
    step w EvClick w
| step_click_no_file w :
    has fileInput w → has logArea w →
    fileInput_files (page w) = Some [] →
    step w EvClick (with_page (with_log MSG_SELECT_FILE) w)
| step_click_not_ready w file l :
    has fileInput w → has logArea w →
    fileInput_files (page w) = Some (file :: l) →
    processText (page w) = None →
    step w EvClick (with_page (with_log MSG_NOT_READY) w)
| step_click_guard_no_log w fs :
    has fileInput w → ¬ has logArea w →
    fileInput_files (page w) = Some fs →
    fs = [] ∨ processText (page w) = None →
    step w EvClick w
| step_click_read w file l f :
    has fileInput w →
    fileInput_files (page w) = Some (file :: l) →
    processText (page w) = Some f →
    step w EvClick
      (with_readers (λ rs, rs ++ [MkFileReader file ENCODING_UTF8]) w)
| step_load_no_log w i r text :
    readers w !! i = Some r →
    ¬ has logArea w →
    step w (EvLoad i text) (with_readers (delete i) w)
| step_load_null w i r text :
    readers w !! i = Some r →
    has logArea w →
    processText (page w) = None →
    step w (EvLoad i text)
      (with_page (with_log (MSG_FILE_READ text)) (with_readers (delete i) w))
| step_load_returns w i r text f result e' :
    readers w !! i = Some r →
    has logArea w → has resultDiv w →
    processText (page w) = Some f →
    call_cwrapped f [text] (engine w) = (Normal result, e') →
    step w (EvLoad i text)
      (with_engine e'
         (with_page (with_log (MSG_FILE_READ text ++ MSG_DONE) ∘ with_result result)
            (with_readers (delete i) w)))
| step_load_no_result w i r text f result e' :
    readers w !! i = Some r →
    has logArea w → ¬ has resultDiv w →
    processText (page w) = Some f →
    call_cwrapped f [text] (engine w) = (Normal result, e') →
    step w (EvLoad i text)
      (with_engine e'
         (with_page (with_log (MSG_FILE_READ text)) (with_readers (delete i) w)))
| step_load_throws w i r text f x e' :
    readers w !! i = Some r →
    has logArea w →
    processText (page w) = Some f →
    call_cwrapped f [text] (engine w) = (Throw x, e') →
    step w (EvLoad i text)
      (with_engine e'
         (with_page (with_log (MSG_FILE_READ text)) (with_readers (delete i) w)))
| step_error w i r :
    readers w !! i = Some r →
    has logArea w →
    step w (EvError i)
      (with_page (with_log MSG_READ_ERROR) (with_readers (delete i) w))
| step_error_no_log w i r :
    readers w !! i = Some r →
    ¬ has logArea w →
    step w (EvError i) (with_readers (delete i) w).

(** The worlds the script can start from: [processText] is [null] and no read
    is in flight; the document and the engine are arbitrary. *)
Definition initial w : Prop :=
  processText (page w) = None ∧ readers w = [].

(** An initial world whose document holds the five elements and whose
    [fileInput] is a file input. *)
Definition initial_file_input w : Prop :=
  initial w ∧ complete w ∧ is_Some (fileInput_files (page w)).

(** The engine is loaded. *)
Definition ready w : Prop := is_Some (processText (page w)).

(** The texts the engine is given along a sequence of events: one per
    successful read. *)
Definition loads (evs : list event) : list jsstring :=
  omap (λ ev, match ev with EvLoad _ text => Some text | _ => None end) evs.

(** The state of an engine after it has processed [texts] in order. *)
Definition engine_after `{!TextProcessor E} (texts : list jsstring) (e : E) : E :=
  foldl (λ e text, (process text e).2) e texts.

End pipeline.

#[export] Hint Constructors step : js.

(** ** Sample traces *)

(** The engine is loaded, two files are selected, the button is clicked. *)
Definition evs_reading : list event :=
  [EvRuntimeInitialized; EvChange [file_a; file_b]; EvClick].

(** The world a sequence of events leaves from the fresh sample world, with
    the upper-casing engine and with a spy on it. *)
Definition after (evs : list event) : World upper_engine :=
  default w_fresh (run fire evs w_fresh).

Definition w_spy : World (spy upper_engine) :=
  initial_world (Spy FnEngine []) blank_page.

Definition after_spy (evs : list event) : World (spy upper_engine) :=
  default w_spy (run fire evs w_spy).

(** A page whose document has no log area, with the spy. *)
Definition document_no_log : Document :=
  [ID_FILE_INPUT; ID_ANALYZE_BTN; ID_RESULT; ID_FILE_NAME].

Definition w_no_log : World (spy upper_engine) :=
  initial_world (Spy FnEngine []) (initial_page document_no_log (Some []) [] [] []).

Definition after_no_log (evs : list event) : World (spy upper_engine) :=
  default w_no_log (run fire evs w_no_log).

(** The same with the engine that throws. *)
Definition w_failing : World failing_engine :=
  initial_world FailingEngine blank_page.

Definition after_failing (evs : list event) : World failing_engine :=
  default w_failing (run fire evs w_failing).

(** ** What the environment's moves leave alone *)

Section frame.
Context {E : Type}.
Implicit Types (w : World E).

(** A change of selection touches nothing but [fileInput.files]. *)
Lemma select_files_frame fs w :
  engine (select_files fs w) = engine w ∧
  readers (select_files fs w) = readers w ∧
  processText (page (select_files fs w)) = processText (page w) ∧
  logArea_textContent (page (select_files fs w)) = logArea_textContent (page w) ∧
  resultDiv_textContent (page (select_files fs w)) = resultDiv_textContent (page w).
Proof. unfold select_files. by destruct (fileInput_files _). Qed.

Lemma select_files_elements fs w :
  elements (page (select_files fs w)) = elements (page w).
Proof. unfold select_files. by destruct (fileInput_files _). Qed.

Lemma select_files_file_input fs w :
  is_Some (fileInput_files (page w)) →
  fileInput_files (page (select_files fs w)) = Some fs.
Proof. unfold select_files. by intros [? ->]. Qed.

Lemma retire_Some i w r :
  readers w !! i = Some r → retire i w = Some (with_readers (delete i) w).
Proof. intros H. unfold retire. by rewrite H. Qed.

Lemma retire_None i w : readers w !! i = None → retire i w = None.
Proof. intros H. unfold retire. by rewrite H. Qed.

End frame.

(** ** The relation and the function agree *)

(** [has_bools] turns what is known of the constants into equations on the
    booleans and rewrites with them. *)
Ltac has_bools :=
  unfold has in *; simpl in *;
  repeat match goal with
         | H : ¬ (_ = true) |- _ => apply not_true_is_false in H
         | H : ¬ (_ ∧ _) |- _ => apply not_and_l in H as [H|H]
         end;
  repeat match goal with
         | H : ?b = _ |- context [?b] => rewrite H
         end;
  rewrite ?andb_false_r; simpl; try done.

(** [handler_run] rewrites the handler of the goal by the equation of the
    branch the hypotheses select. *)
Ltac handler_run :=
  first
    [ rewrite onRuntimeInitialized_run
    | rewrite on_change_run, !select_files_elements
    | rewrite on_click_null_files_run by done
    | erewrite on_click_no_file_run by done
    | erewrite on_click_not_ready_run by done
    | erewrite on_click_read_run by done
    | rewrite reader_onload_no_log_run by done
    | rewrite reader_onload_null_run by done
    | erewrite reader_onload_returns_run by done
    | erewrite reader_onload_throws_run by done
    | rewrite reader_onerror_run ].

Section step_fire.
Context {E : Type} `{!WasmModule E}.
Implicit Types (w : World E) (ev : event) (text : jsstring) (file : File).

Lemma step_sound w ev w' : step w ev w' → fire ev w = Some w'.
Proof.
  unfold fire, dispatch.
  destruct 1; simpl; rewrite ?(retire_Some _ _ r) by done; simpl; f_equal;
    try (handler_run; by has_bools).
  destruct fs; match goal with H : _ ∨ _ |- _ => destruct H as [?|?] end;
    simplify_eq;
    first [erewrite on_click_no_file_run by done
          |erewrite on_click_not_ready_run by done]; by has_bools.
Qed.

(** Every click takes one of the click rules. *)
Lemma step_click_total w : ∃ w', step w EvClick w'.
Proof.
  destruct (decide (has fileInput w)); [|by eauto with js].
  destruct (fileInput_files (page w)) as [[|file l]|] eqn:?; [| |by eauto with js].
  - destruct (decide (has logArea w)); eauto with js.
  - destruct (processText (page w)) eqn:?; [by eauto with js|].
    destruct (decide (has logArea w)); eauto with js.
Qed.

(** Every completion of a reader in flight takes one of the load rules or
    of the error rules. *)
Lemma step_load_total w i r text :
  readers w !! i = Some r → ∃ w', step w (EvLoad i text) w'.
Proof.
  intros Hr. destruct (decide (has logArea w)); [|by eauto with js].
  destruct (processText (page w)) as [f|] eqn:?; [|by eauto with js].
  destruct (call_cwrapped f [text] (engine w)) as [[result|x] e'] eqn:?;
    [|by eauto with js].
  destruct (decide (has resultDiv w)); eauto with js.
Qed.

Lemma step_total w ev : is_Some (fire ev w) → ∃ w', step w ev w'.
Proof.
  intros [w' Hf]. unfold fire, dispatch in Hf.
  destruct ev as [|fs| |i text|i]; eauto using step_click_total.
  - destruct (decide (has logArea w)); eauto with js.
  - destruct (decide (has fileInput w ∧ has fileNameSpan w)) as [[? ?]|];
      eauto with js.
  - destruct (readers w !! i) eqn:Hr; [by eauto using step_load_total|].
    by rewrite retire_None in Hf.
  - destruct (readers w !! i) eqn:Hr; [|by rewrite retire_None in Hf].
    destruct (decide (has logArea w)); eauto with js.
Qed.

Lemma step_complete w ev w' : fire ev w = Some w' → step w ev w'.
Proof.
  intros Hf. destruct (step_total w ev) as [w1 Hs]; [by eexists|].
  by rewrite (step_sound _ _ _ Hs) in Hf; simplify_eq.
Qed.

Lemma step_det w ev w1 w2 : step w ev w1 → step w ev w2 → w1 = w2.
Proof. intros H1%step_sound H2%step_sound. congruence. Qed.

(** An event is enabled unless it completes a reader that is not in
    flight. *)
Lemma fire_enabled ev w :
  is_Some (fire ev w) ↔
  match ev with
  | EvLoad i _ | EvError i => i < length (readers w)
  | _ => True
  end.
Proof.
  unfold fire, dispatch, retire. destruct ev as [|fs| |i text|i]; simpl;
    rewrite ?fmap_is_Some; try (split; eauto; done);
    rewrite <-lookup_lt_is_Some; destruct (readers w !! i); simpl;
    split; intros; eauto; by apply is_Some_None in H.
Qed.

End step_fire.

(** ** Invariants of reachable worlds *)

Section invariants.
Context {E : Type} `{!WasmModule E}.
Implicit Types (w : World E) (ev : event) (text : jsstring) (file : File).

(** [processText] is [null] or the wrapper of [process_text]. *)
Definition wrapper_inv w : Prop :=
  processText (page w) = None ∨ processText (page w) = Some process_text_wrapper.

(** A read is in flight only if the engine is loaded. *)
Definition reading_inv w : Prop := readers w ≠ [] → ready w.

(** Every read in flight decodes as UTF-8. *)
Definition encoding_inv w : Prop :=
  Forall (λ r, reader_encoding r = ENCODING_UTF8) (readers w).

Definition pipeline_inv w : Prop := wrapper_inv w ∧ reading_inv w ∧ encoding_inv w.

(** What a step does to each part of the world. *)
Lemma step_processText w ev w' :
  step w ev w' →
  processText (page w') = processText (page w) ∨
  ev = EvRuntimeInitialized ∧ processText (page w') = Some process_text_wrapper.
Proof. destruct 1; simpl; auto; left; apply select_files_frame. Qed.

(** No step changes what the look-ups of the script found. *)
Lemma step_elements w ev w' : step w ev w' → elements (page w') = elements (page w).
Proof. destruct 1; simpl; auto using select_files_elements. Qed.

Lemma step_has el w ev w' : step w ev w' → has el w' ↔ has el w.
Proof. intros Hs. unfold has. by rewrite (step_elements _ _ _ Hs). Qed.

Lemma step_complete_page w ev w' : step w ev w' → complete w → complete w'.
Proof. intros Hs. unfold complete. by rewrite (step_elements _ _ _ Hs). Qed.

Lemma trace_elements w evs w' :
  trace step w evs w' → elements (page w') = elements (page w).
Proof.
  induction 1 as [|w ev w1 evs w2 Hs _ IH]; [done|].
  by rewrite IH, (step_elements _ _ _ Hs).
Qed.

Lemma step_ready w ev w' : step w ev w' → ready w → ready w'.
Proof.
  unfold ready. intros [->|[_ ->]]%step_processText; [done|]. by eexists.
Qed.

Lemma step_readers w ev w' :
  step w ev w' →
  match ev with
  | EvClick =>
    readers w' = readers w ∨
    ready w ∧ ∃ file l, fileInput_files (page w) = Some (file :: l) ∧
      readers w' = readers w ++ [MkFileReader file ENCODING_UTF8]
  | EvLoad i _ | EvError i => is_Some (readers w !! i) ∧ readers w' = delete i (readers w)
  | _ => readers w' = readers w
  end.
Proof.
  destruct 1; simpl; eauto; try apply select_files_frame.
  right. split; [by eexists|eauto].
Qed.

Lemma step_files w ev w' :
  step w ev w' → is_Some (fileInput_files (page w)) → is_Some (fileInput_files (page w')).
Proof.
  destruct 1; simpl; try done;
    unfold select_files; by destruct (fileInput_files (page w)) eqn:?; simpl.
Qed.

(** The invariant is inductive. *)
Lemma pipeline_inv_initial w : initial w → pipeline_inv w.
Proof.
  intros [Hp Hr]. unfold pipeline_inv, wrapper_inv, reading_inv, encoding_inv.
  rewrite Hr. split_and!; [by left|done|constructor].
Qed.

Lemma pipeline_inv_step w ev w' : pipeline_inv w → step w ev w' → pipeline_inv w'.
Proof.
  intros (Hw & Hr & He) Hs. split_and!.
  - unfold wrapper_inv. by destruct (step_processText _ _ _ Hs) as [->|[_ ->]]; auto.
  - unfold reading_inv. intros Hne.
    destruct (decide (readers w = [])) as [Hnil|?]; [|by eauto using step_ready].
    pose proof (step_readers _ _ _ Hs) as Hrs. rewrite Hnil in Hrs.
    destruct ev; try done.
    + destruct Hrs as [?|[? _]]; [done|]. by eauto using step_ready.
    + by destruct Hrs as [[? [=]] _].
    + by destruct Hrs as [[? [=]] _].
  - unfold encoding_inv in *. pose proof (step_readers _ _ _ Hs) as Hrs.
    destruct ev; rewrite ?Hrs; try done.
    + destruct Hrs as [->|(_ & ? & ? & _ & ->)]; [done|].
      apply Forall_app. by split; [|apply Forall_singleton].
    + destruct Hrs as [_ ->]. by apply Forall_delete.
    + destruct Hrs as [_ ->]. by apply Forall_delete.
Qed.

Lemma pipeline_inv_inductive : inductive_invariant step initial pipeline_inv.
Proof. split; eauto using pipeline_inv_initial, pipeline_inv_step. Qed.

Lemma pipeline_inv_reachable w : reachable step initial w → pipeline_inv w.
Proof. apply invariant_reachable, pipeline_inv_inductive. Qed.

Lemma pipeline_inv_trace w evs w' :
  pipeline_inv w → trace step w evs w' → pipeline_inv w'.
Proof. intros Hi Ht. eapply trace_preserves; eauto using pipeline_inv_step. Qed.

(** Under the invariant, a reader in flight finds the wrapper of
    [process_text] in [processText]. *)
Lemma pipeline_inv_wrapper w i r :
  pipeline_inv w → readers w !! i = Some r →
  processText (page w) = Some process_text_wrapper.
Proof.
  intros (Hw & Hr & _) Hi.
  destruct Hr as [f Hf]; [by intros Hnil; rewrite Hnil in Hi|].
  destruct Hw as [Hw|Hw]; by rewrite Hw in Hf |- *.
Qed.

(** On a page without a log every handler that reports to the user throws
    before it has shown anything: [reader.onload] on its first statement
    (line 56), before the engine is called. *)
Lemma step_no_log w ev w' :
  ¬ has logArea w → step w ev w' →
  engine w' = engine w ∧
  logArea_textContent (page w') = logArea_textContent (page w) ∧
  resultDiv_textContent (page w') = resultDiv_textContent (page w).
Proof.
  destruct 2; try done; simpl; split_and!; try done; apply select_files_frame.
Qed.

(** While no read is in flight, only an accepted click starts one; the
    engine and the result area are left alone. *)
Lemma step_no_reader w ev w' :
  readers w = [] → step w ev w' →
  engine w' = engine w ∧
  resultDiv_textContent (page w') = resultDiv_textContent (page w) ∧
  (readers w' = [] ∨ ev = EvClick ∧ ready w).
Proof.
  intros Hn Hs. pose proof (step_readers _ _ _ Hs) as Hr.
  destruct Hs; simpl in *; rewrite ?Hn in *; try done;
    split_and!; try done; try apply select_files_frame; auto.
  right. split; [done|by eexists].
Qed.

Lemma files_reachable w :
  reachable step initial_file_input w → is_Some (fileInput_files (page w)).
Proof.
  apply (invariant_reachable step _ (λ w, is_Some (fileInput_files (page w)))).
  split; [by intros ? (_ & _ & ?)|]. eauto using step_files.
Qed.

Lemma complete_reachable w :
  reachable step initial_file_input w → complete w.
Proof.
  apply (invariant_reachable step _ complete).
  split; [by intros ? (_ & ? & _)|]. eauto using step_complete_page.
Qed.

Lemma reachable_file_input w :
  reachable step initial_file_input w → reachable step initial w.
Proof. intros (w0 & evs & [? _] & ?). by exists w0, evs. Qed.

End invariants.

(** ** Runs and traces *)

Section runs.
Context {E : Type} `{!WasmModule E}.
Implicit Types (w : World E) (ev : event) (evs : list event).

Lemma run_step_trace evs w w' : run fire evs w = Some w' ↔ trace step w evs w'.
Proof.
  rewrite run_trace. split; apply trace_impl; unfold fire_step;
    eauto using step_complete, step_sound.
Qed.

Lemma run_reachable (init : World E → Prop) evs w0 w :
  init w0 → run fire evs w0 = Some w → reachable step init w.
Proof. intros ? ?%run_step_trace. by exists w0, evs. Qed.

(** Completions shrink the set of reads in flight by one. *)
Lemma step_completion_readers w ev w' :
  is_completion ev → step w ev w' → S (length (readers w')) = length (readers w).
Proof.
  intros Hc Hs. pose proof (step_readers _ _ _ Hs) as Hr.
  destruct ev; try done; destruct Hr as [[r Hr] ->];
    eauto using delete_lookup_length.
Qed.

End runs.

(** ** The engine along a trace *)

Section engine_trace.
Context {E : Type} `{!WasmModule E, !TextProcessor E}.
Implicit Types (w : World E) (ev : event) (evs : list event).

Lemma step_engine w ev w' :
  pipeline_inv w → has logArea w → step w ev w' →
  engine w' = engine_after (loads [ev]) (engine w).
Proof.
  intros Hi Hl Hs. destruct Hs; try done; simpl;
    try (by apply select_files_frame);
    match goal with
    | Hr : readers _ !! _ = Some _, Hp : processText _ = _ |- _ =>
      rewrite (pipeline_inv_wrapper _ _ _ Hi Hr) in Hp; simplify_eq
    end;
    match goal with
    | Hc : call_cwrapped _ _ _ = _ |- _ =>
      rewrite call_cwrapped_process in Hc; by rewrite Hc
    end.
Qed.

Lemma loads_cons ev evs : loads (ev :: evs) = loads [ev] ++ loads evs.
Proof. unfold loads. simpl. by destruct ev. Qed.

Lemma trace_engine w evs w' :
  pipeline_inv w → has logArea w → trace step w evs w' →
  engine w' = engine_after (loads evs) (engine w).
Proof.
  intros Hi Hl Ht. induction Ht as [|w ev w1 evs w2 Hs _ IH]; [reflexivity|].
  rewrite IH by (by eauto using pipeline_inv_step; apply (step_has _ _ _ _ Hs)).
  rewrite (loads_cons ev evs), (step_engine _ _ _ Hi Hl Hs).
  unfold engine_after. symmetry. apply foldl_app.
Qed.

End engine_trace.

(** ** The properties of the pipeline *)

Section pipeline_properties.
Context {E : Type} `{!WasmModule E}.
Implicit Types (w : World E) (ev : event) (evs : list event).

(** C11: the rules of [step] are exactly the behaviour of the handlers under
    [fire]: an event leads from [w] to [w'] by a rule if and only if firing
    it in [w] leaves [w']. *)
Theorem step_iff_fire w ev w' : step w ev w' ↔ fire ev w = Some w'.
Proof. split; [apply step_sound|apply step_complete]. Qed.

(** C6: in every world reachable from an initial world, a read is in flight
    only if [processText] holds the wrapper of [process_text]: the engine
    call of [onload] never finds [null]. *)
Theorem reading_implies_ready w :
  reachable step initial w → readers w ≠ [] →
  processText (page w) = Some process_text_wrapper.
Proof.
  intros Hr%pipeline_inv_reachable Hne.
  destruct (readers w) as [|r rs] eqn:Hrs; [done|].
  apply (pipeline_inv_wrapper w 0 r); [done|by rewrite Hrs].
Qed.

(** C7: on a page that holds the five elements, the only exceptions a handler leaves
    uncaught are those the engine throws from [process_text] while a read
    completes: no handler throws a [TypeError] of its own. *)
Theorem uncaught_only_engine `{!TextProcessor E} w ev x :
  reachable step initial_file_input w → uncaught ev w = Some x →
  ∃ i text, ev = EvLoad i text ∧ is_Some (readers w !! i) ∧
            (process text (engine w)).1 = Throw x.
Proof.
  intros Hr. pose proof (files_reachable _ Hr) as [fs Hfs].
  pose proof (complete_reachable _ Hr) as (? & ? & ? & ? & ?)%complete_has.
  apply reachable_file_input, pipeline_inv_reachable in Hr.
  unfold uncaught, dispatch. destruct ev as [|fs'| |i text|i]; simpl.
  - rewrite onRuntimeInitialized_run. by has_bools.
  - rewrite on_change_run, !select_files_elements. by has_bools.
  - destruct fs as [|file l], (processText (page w)) eqn:?;
      handler_run; by has_bools.
  - destruct (readers w !! i) as [r|] eqn:Hi;
      [rewrite (retire_Some _ _ r) by done|by rewrite retire_None].
    pose proof (pipeline_inv_wrapper _ _ _ Hr Hi) as Hp. simpl.
    destruct (process text (engine w)) as [[result|x'] e'] eqn:Hc.
    + erewrite reader_onload_returns_run;
        [|done..|by rewrite call_cwrapped_process]. by has_bools.
    + erewrite reader_onload_throws_run;
        [|done..|by rewrite call_cwrapped_process].
      intros [= ->]. exists i, text. by rewrite Hi, Hc.
  - destruct (readers w !! i) as [r|] eqn:Hi;
      [rewrite (retire_Some _ _ r) by done|by rewrite retire_None].
    simpl. rewrite reader_onerror_run. by has_bools.
Qed.

(** C8: along every trace from an initial world the engine processes exactly
    the texts of the successful reads, in the order of their completion:
    nothing else calls it, and no successful read is dropped. *)
Theorem engine_calls_are_loads `{!TextProcessor E} w0 evs w :
  initial w0 → has logArea w0 → trace step w0 evs w →
  engine w = engine_after (loads evs) (engine w0).
Proof. intros Hi Hl Ht. eapply trace_engine; eauto using pipeline_inv_initial. Qed.

(** C29: completions alone cannot go on for ever: a sequence of completions
    is no longer than the number of reads in flight, and each retires one. *)
Theorem completions_bounded w evs w' :
  Forall is_completion evs → trace step w evs w' →
  length (readers w') + length evs = length (readers w).
Proof.
  intros Hc Ht. induction Ht as [|w ev w1 evs w2 Hs _ IH]; simpl; [lia|].
  inv Hc. pose proof (step_completion_readers _ _ _ ltac:(done) Hs).
  specialize (IH ltac:(done)). lia.
Qed.

(** The page never blocks: the readiness event, a change of selection and a
    click are enabled in every world, whatever is in flight. *)
Lemma user_events_enabled w ev : ¬ is_completion ev → is_Some (fire ev w).
Proof. intros Hc. apply fire_enabled. by destruct ev. Qed.

(** C17: on a page without a log area no analysis is ever made or shown:
    whatever the events, the engine is never called and the log and the
    result area keep what they held. *)
Theorem missing_log_no_analysis w evs w' :
  ¬ has logArea w → trace step w evs w' →
  engine w' = engine w ∧
  logArea_textContent (page w') = logArea_textContent (page w) ∧
  resultDiv_textContent (page w') = resultDiv_textContent (page w).
Proof.
  intros Hl Ht. induction Ht as [|w ev w1 evs w2 Hs _ IH]; [done|].
  destruct (step_no_log _ _ _ Hl Hs) as (<- & <- & <-).
  apply IH. by rewrite (step_has _ _ _ _ Hs).
Qed.

End pipeline_properties.

(** ** The properties at sample worlds *)

Lemma after_reading_reachable : reachable step initial_file_input (after evs_reading).
Proof.
  apply (run_reachable _ evs_reading w_fresh); [|by vm_compute].
  split_and!; [done..|by eexists].
Qed.

Lemma reading_implies_ready_witness :
  processText (page (after evs_reading)) = Some process_text_wrapper.
Proof.
  apply (reading_implies_ready (after evs_reading)).
  - apply reachable_file_input, after_reading_reachable.
  - vm_compute. discriminate.
Defined.

Lemma uncaught_only_engine_witness :
  ∃ i text, EvLoad 0 (js_lit "hello") = EvLoad i text ∧
            is_Some (readers (after_failing evs_reading) !! i) ∧
            (process text (engine (after_failing evs_reading))).1
            = Throw (EngineError PROCESS_TEXT).
Proof.
  apply (uncaught_only_engine (after_failing evs_reading)).
  - apply (run_reachable _ evs_reading w_failing); [|by vm_compute].
    split_and!; [done..|by eexists].
  - vm_compute. reflexivity.
Defined.

Lemma engine_calls_are_loads_witness :
  calls (engine (after_spy (evs_reading ++ [EvLoad 0 (js_lit "hello")])))
  = [(PROCESS_TEXT, [js_lit "hello"])].
Proof.
  rewrite (engine_calls_are_loads w_spy
             (evs_reading ++ [EvLoad 0 (js_lit "hello")])).
  - vm_compute. reflexivity.
  - by split.
  - reflexivity.
  - apply run_step_trace. vm_compute. reflexivity.
Defined.

Lemma completions_bounded_witness :
  length (readers (after (evs_reading ++ [EvError 0]))) + 1
  = length (readers (after evs_reading)).
Proof.
  apply (completions_bounded (after evs_reading) [EvError 0]).
  - repeat constructor.
  - apply run_step_trace. vm_compute. reflexivity.
Defined.

Lemma missing_log_no_analysis_witness :
  engine (after_no_log (evs_reading ++ [EvLoad 0 (js_lit "hello")])) = Spy FnEngine [] ∧
  logArea_textContent (page (after_no_log (evs_reading ++ [EvLoad 0 (js_lit "hello")])))
    = [] ∧
  resultDiv_textContent (page (after_no_log (evs_reading ++ [EvLoad 0 (js_lit "hello")])))
    = [].
Proof.
  apply (missing_log_no_analysis w_no_log
           (evs_reading ++ [EvLoad 0 (js_lit "hello")])).
  - vm_compute. discriminate.
  - apply run_step_trace. vm_compute. reflexivity.
Defined.
