(* ===== verification/Script.v ===== *)
(** * The script as the browser runs it

    [script_main] is the top level of [src/script.js], statement by
    statement: the declaration of [processText] (line 2), the five look-ups
    (lines 6-12) and the three registrations (lines 15, 26 and 37).  A
    registration dereferences what a look-up found, or the global [Module],
    and throws when there is nothing to dereference; the statements after it
    are then never run.

    [Browser] adds to the world of the handlers what the registrations
    change and what they depend on: the document, whether [Module] is
    declared, whether the runtime of the engine has initialized, and which
    handlers the script has installed.  [bfire] is one turn of the event loop
    at this level: the evaluation of the script, or an event of [Pipeline]
    delivered to the handler the script has installed for it, if any.

    The theorems give the outcome of the script on every document, show that
    a page on which the script completed behaves as the pipeline of
    [Pipeline] from an initial world, and describe the pages on which it did
    not. *)

From stdpp Require Import strings.
From S2P Require Import Prelude JsString Engine Page Handlers Pipeline.

(** ** The state of the browser *)

(** What the script has installed. *)
Record Registered : Type := MkRegistered {
  (** line 15: the [change] listener of [fileInput] *)
  change_listener : bool;
  (** line 26: [Module.onRuntimeInitialized] *)
  runtime_hook : bool;
  (** line 37: the [click] listener of [analyzeBtn] *)
  click_listener : bool;
}.

#[export] Instance Registered_eq_dec : EqDecision Registered.
Proof. solve_decision. Defined.

Definition nothing_registered : Registered := MkRegistered false false false.
Definition all_registered : Registered := MkRegistered true true true.

Record Browser (E : Type) : Type := MkBrowser {
  (** the variables of the script, the texts of the page, the engine and the
      reads in flight *)
  world : World E;
  (** the identifiers of the elements of the HTML document *)
  document : Document;
  (** the loader of the engine has declared the global [Module] *)
  Module_declared : bool;
  (** the runtime of the engine has initialized *)
  runtime_initialized : bool;
  (** [script.js] has been evaluated *)
  script_evaluated : bool;
  registered : Registered;
}.
Arguments MkBrowser {E} world document Module_declared runtime_initialized
  script_evaluated registered.
Arguments world {E} b.
Arguments document {E} b.
Arguments Module_declared {E} b.
Arguments runtime_initialized {E} b.
Arguments script_evaluated {E} b.
Arguments registered {E} b.

#[export] Instance Browser_eq_dec {E : Type} `{EqDecision E} : EqDecision (Browser E).
Proof. solve_decision. Defined.

(** Field updates. *)
Definition with_world {E : Type} (f : World E → World E) (b : Browser E) : Browser E :=
  MkBrowser (f (world b)) (document b) (Module_declared b) (runtime_initialized b)
    (script_evaluated b) (registered b).
Definition with_registered {E : Type} (f : Registered → Registered)
  (b : Browser E) : Browser E :=
  MkBrowser (world b) (document b) (Module_declared b) (runtime_initialized b)
    (script_evaluated b) (f (registered b)).
Definition mark_runtime_initialized {E : Type} (b : Browser E) : Browser E :=
  MkBrowser (world b) (document b) (Module_declared b) true
    (script_evaluated b) (registered b).
Definition mark_script_evaluated {E : Type} (b : Browser E) : Browser E :=
  MkBrowser (world b) (document b) (Module_declared b) (runtime_initialized b)
    true (registered b).

Definition register_change (r : Registered) : Registered :=
  MkRegistered true (runtime_hook r) (click_listener r).
Definition register_hook (r : Registered) : Registered :=
  MkRegistered (change_listener r) true (click_listener r).
Definition register_click (r : Registered) : Registered :=
  MkRegistered (change_listener r) (runtime_hook r) true.

(** A page before the script is evaluated: nothing is registered, the
    constants are not bound, no read is in flight. *)
Definition fresh_browser {E : Type} (e : E) (doc : Document)
  (files : option (list File)) (declared : bool) : Browser E :=
  MkBrowser (initial_world e (MkPage None no_elements files [] [] []))
    doc declared false false nothing_registered.

(** ** The top level of the script *)

Section script.
Context {E : Type} `{!WasmModule E}.
Implicit Types (b : Browser E) (w : World E) (ev : event).

Abbreviation B := (JS (Browser E) js_error).

(** A statement on the world, run in the browser. *)
Definition on_world {A : Type} (m : JS (World E) js_error A) : B A :=
  λ b, ((m (world b)).1, with_world (λ _, (m (world b)).2) b).

(** Line 2. *)
Definition let_processText : B unit :=
  on_world (js_modify (with_page (with_processText None))).

(** Lines 6-12: the five look-ups; none of them throws. *)
Definition const_elements : B unit :=
  doc ← js_gets document;
  on_world (js_modify (with_page (with_elements (lookup_elements doc)))).

(** Line 15: [fileInput.addEventListener] of the [change] listener. *)
Definition addEventListener_change : B unit :=
  on_world (deref fileInput);;
  js_modify (with_registered register_change).

(** Line 26: the assignment to [Module.onRuntimeInitialized]; [Module] is a
    global the script does not declare. *)
Definition assign_onRuntimeInitialized : B unit :=
  declared ← js_gets Module_declared;
  if declared : bool then js_modify (with_registered register_hook)
  else js_throw ReferenceError.

(** Line 37: [analyzeBtn.addEventListener] of the [click] listener. *)
Definition addEventListener_click : B unit :=
  on_world (deref analyzeBtn);;
  js_modify (with_registered register_click).

(** Lines 2-37. *)
Definition script_main : B unit :=
  let_processText;;
  const_elements;;
  addEventListener_change;;
  assign_onRuntimeInitialized;;
  addEventListener_click.

(** ** The event loop of the browser *)

(** The script is evaluated, or an event of the pipeline occurs. *)
Inductive browser_event : Type :=
| BvScript
| BvEvent (ev : event).

(** The environment can produce the event: the runtime initializes once,
    and only where the loader has declared [Module]; the user acts on the
    elements the document holds; a read in flight completes. *)
Definition occurs ev b : bool :=
  match ev with
  | EvRuntimeInitialized => Module_declared b && negb (runtime_initialized b)
  | EvChange _ => getElementById (document b) ID_FILE_INPUT
  | EvClick => getElementById (document b) ID_ANALYZE_BTN
  | EvLoad _ _ | EvError _ => true
  end.

(** The script has installed a handler for the event.  The callbacks of a
    reader are installed by the click listener that creates it (lines 52
    and 69). *)
Definition listening ev b : bool :=
  match ev with
  | EvRuntimeInitialized => runtime_hook (registered b)
  | EvChange _ => change_listener (registered b)
  | EvClick => click_listener (registered b)
  | EvLoad _ _ | EvError _ => true
  end.

(** What an event does to the world when no handler is installed for it:
    the selection of the file input changes all the same. *)
Definition unheard ev w : World E :=
  match ev with
  | EvChange fs => select_files fs w
  | _ => w
  end.

(** What the browser records of an event. *)
Definition record_event ev b : Browser E :=
  match ev with
  | EvRuntimeInitialized => mark_runtime_initialized b
  | _ => b
  end.

Definition deliver ev b : option (Browser E) :=
  if occurs ev b then
    w' ← (if listening ev b then fire ev (world b) else Some (unheard ev (world b)));
    Some (record_event ev (with_world (λ _, w') b))
  else None.

(** One turn.  The script is evaluated once; an exception that ends it is
    reported by the browser and the page goes on with what the script did
    before. *)
Definition bfire (bev : browser_event) b : option (Browser E) :=
  match bev with
  | BvScript =>
    if script_evaluated b then None
    else Some (mark_script_evaluated (exec script_main b))
  | BvEvent ev => deliver ev b
  end.

(** The events of the pipeline among the events of the browser. *)
Definition delivered (bevs : list browser_event) : list event :=
  omap (λ bev, match bev with BvEvent ev => Some ev | BvScript => None end) bevs.

(** The script has been evaluated and has completed. *)
Definition loaded b : Prop :=
  script_evaluated b = true ∧ registered b = all_registered.

(** What the script leaves of the world it starts in: lines 2-12. *)
Definition script_world b : World E :=
  with_page (with_elements (lookup_elements (document b)) ∘ with_processText None)
    (world b).

End script.

#[export] Hint Unfold on_world let_processText const_elements
  addEventListener_change assign_onRuntimeInitialized addEventListener_click : js.

(** ** The script, branch by branch *)

Section script_facts.
Context {E : Type} `{!WasmModule E}.
Implicit Types (b : Browser E) (w : World E) (ev : event) (bev : browser_event).

(** The browser once lines 2-12 have run. *)
Definition after_lookups b : Browser E := with_world (λ _, script_world b) b.

Lemma lookup_elements_complete doc :
  full_document ⊆ doc → lookup_elements doc = all_elements.
Proof.
  intros Hd. unfold lookup_elements, getElementById.
  rewrite !bool_decide_eq_true_2; [done|apply Hd; unfold full_document..];
    rewrite !elem_of_cons; auto 10.
Qed.

(** The script stops at the first registration that finds nothing to
    dereference. *)
Lemma script_main_run b :
  script_main b =
  if negb (getElementById (document b) ID_FILE_INPUT)
  then (Throw TypeError, after_lookups b)
  else if negb (Module_declared b)
  then (Throw ReferenceError, with_registered register_change (after_lookups b))
  else if negb (getElementById (document b) ID_ANALYZE_BTN)
  then (Throw TypeError,
        with_registered (register_hook ∘ register_change) (after_lookups b))
  else (Normal (), with_registered (λ _, all_registered) (after_lookups b)).
Proof.
  unfold script_main.
  destruct b as [w doc declared ? ? r].
  autounfold with js. unfold deref, after_lookups, script_world. js_run.
  unfold lookup_elements.
  destruct (getElementById doc ID_FILE_INPUT), declared,
    (getElementById doc ID_ANALYZE_BTN); reflexivity.
Qed.

End script_facts.

(** ** Turns of the browser and steps of the pipeline *)

Section browser_facts.
Context {E : Type} `{!WasmModule E}.
Implicit Types (b : Browser E) (w : World E) (ev : event) (bev : browser_event).

(** A delivery is a step of the pipeline where a handler is installed, and
    the browser's own part of the event where none is. *)
Lemma deliver_Some ev b b' :
  deliver ev b = Some b' ↔
  occurs ev b = true ∧
  ∃ w', b' = record_event ev (with_world (λ _, w') b) ∧
        if listening ev b then step (world b) ev w' else w' = unheard ev (world b).
Proof.
  unfold deliver. destruct (occurs ev b); [|naive_solver].
  destruct (listening ev b); simpl.
  - destruct (fire ev (world b)) as [w'|] eqn:Hf; simpl.
    + apply step_complete in Hf. split; [naive_solver|].
      intros (_ & w1 & -> & Hs). by rewrite (step_det _ _ _ _ Hs Hf).
    + split; [done|]. intros (_ & w1 & _ & Hs%step_sound). congruence.
  - naive_solver.
Qed.

(** What no turn changes. *)
Lemma record_event_frame ev b :
  world (record_event ev b) = world b ∧
  document (record_event ev b) = document b ∧
  registered (record_event ev b) = registered b ∧
  script_evaluated (record_event ev b) = script_evaluated b ∧
  Module_declared (record_event ev b) = Module_declared b.
Proof. by destruct ev. Qed.

Lemma deliver_frame ev b b' :
  deliver ev b = Some b' →
  document b' = document b ∧ registered b' = registered b ∧
  script_evaluated b' = script_evaluated b ∧
  Module_declared b' = Module_declared b ∧
  (runtime_initialized b = true → runtime_initialized b' = true).
Proof. intros (_ & w' & -> & _)%deliver_Some. by destruct ev. Qed.

Lemma deliver_world ev b b' :
  deliver ev b = Some b' →
  if listening ev b then step (world b) ev (world b')
  else world b' = unheard ev (world b).
Proof.
  intros (_ & w' & -> & Hw)%deliver_Some.
  by rewrite (proj1 (record_event_frame _ _)).
Qed.

Lemma bfire_frame bev b b' :
  bfire bev b = Some b' →
  document b' = document b ∧ Module_declared b' = Module_declared b.
Proof.
  destruct bev as [|ev]; simpl.
  - destruct (script_evaluated b); [done|]. intros [= <-].
    unfold exec. rewrite script_main_run.
    by repeat case_match.
  - intros Hd. by destruct (deliver_frame _ _ _ Hd) as (? & _ & _ & ? & _).
Qed.

(** Once the script has completed, every event finds its handler. *)
Lemma loaded_listening ev b : loaded b → listening ev b = true.
Proof. intros [_ Hr]. destruct ev; simpl; by rewrite ?Hr. Qed.

Lemma bfire_loaded bev b b' :
  loaded b → bfire bev b = Some b' →
  ∃ ev, bev = BvEvent ev ∧ step (world b) ev (world b') ∧ loaded b'.
Proof.
  intros Hl Hf. destruct bev as [|ev]; simpl in Hf.
  - destruct Hl as [Hs _]. by rewrite Hs in Hf.
  - exists ev. pose proof (deliver_world _ _ _ Hf) as Hw.
    rewrite (loaded_listening _ _ Hl) in Hw.
    destruct (deliver_frame _ _ _ Hf) as (_ & Hr & Hs & _).
    split_and!; [done..|]. unfold loaded in *. by rewrite Hr, Hs.
Qed.

Lemma loaded_trace b bevs b' :
  loaded b → trace (fire_step bfire) b bevs b' →
  trace step (world b) (delivered bevs) (world b') ∧ loaded b'.
Proof.
  intros Hl Ht. induction Ht as [|b bev b1 bevs b2 Hf _ IH].
  - split; [constructor|done].
  - destruct (bfire_loaded _ _ _ Hl Hf) as (ev & -> & Hs & Hl1).
    destruct (IH Hl1) as [? ?]. split; [|done]. simpl. by econstructor.
Qed.

(** Conversely, every step of the pipeline is a turn of a loaded page,
    provided the environment can produce its event. *)
Lemma step_bfire b ev w' :
  loaded b → occurs ev b = true → step (world b) ev w' →
  bfire (BvEvent ev) b = Some (record_event ev (with_world (λ _, w') b)).
Proof.
  intros Hl Ho Hs. simpl. apply deliver_Some. split; [done|].
  exists w'. by rewrite (loaded_listening _ _ Hl).
Qed.

(** The script completes on a page that holds the file input and the button
    and whose loader has declared [Module]. *)
Lemma script_main_normal b :
  outcome script_main b = Normal () ↔
  ID_FILE_INPUT ∈ document b ∧ ID_ANALYZE_BTN ∈ document b ∧
  Module_declared b = true.
Proof.
  unfold outcome, getElementById. rewrite script_main_run. unfold getElementById.
  destruct (Module_declared b);
    repeat case_bool_decide; simpl; naive_solver.
Qed.

Lemma script_main_loaded b :
  outcome script_main b = Normal () →
  exec script_main b = with_registered (λ _, all_registered) (after_lookups b).
Proof.
  unfold outcome, exec. rewrite script_main_run. by repeat case_match.
Qed.

(** A script that does not complete has not installed the click listener,
    which it installs last. *)
Lemma script_main_failed b :
  outcome script_main b ≠ Normal () →
  click_listener (registered (exec script_main b)) = click_listener (registered b).
Proof.
  unfold outcome, exec. rewrite script_main_run. by repeat case_match.
Qed.

(** Whether it completes or not, the script leaves the world of lines 2-12
    and does not touch what the browser knows of the runtime. *)
Lemma script_main_frame b :
  world (exec script_main b) = script_world b ∧
  runtime_initialized (exec script_main b) = runtime_initialized b.
Proof. unfold exec. rewrite script_main_run. by repeat case_match. Qed.

(** While no read is in flight, a turn of the browser starts one only by a
    click that finds its listener and the engine loaded.  *)
Lemma bfire_no_reader bev b b' :
  readers (world b) = [] → bfire bev b = Some b' →
  engine (world b') = engine (world b) ∧
  resultDiv_textContent (page (world b')) = resultDiv_textContent (page (world b)) ∧
  (readers (world b') = [] ∨
   click_listener (registered b) = true ∧ ready (world b)).
Proof.
  intros Hn Hf. destruct bev as [|ev]; simpl in Hf.
  - destruct (script_evaluated b); simplify_eq/=.
    by rewrite (proj1 (script_main_frame b)); auto.
  - pose proof (deliver_world _ _ _ Hf) as Hw.
    destruct (listening ev b) eqn:Hl.
    + destruct (step_no_reader _ _ _ Hn Hw) as (? & ? & [?|[-> ?]]); auto.
    + rewrite Hw. destruct ev; simpl; auto.
      destruct (select_files_frame fs (world b)) as (-> & -> & _ & _ & ->). auto.
Qed.

(** Only the runtime event of a page that has the hook, and only once,
    sets [processText]. *)
Lemma bfire_processText bev b b' :
  processText (page (world b)) = None → bfire bev b = Some b' →
  processText (page (world b')) = None ∨ runtime_initialized b = false.
Proof.
  intros Hn Hf. destruct bev as [|ev]; simpl in Hf.
  - destruct (script_evaluated b); simplify_eq/=.
    rewrite (proj1 (script_main_frame b)). by left.
  - pose proof (deliver_world _ _ _ Hf) as Hw.
    apply deliver_Some in Hf as [Ho _].
    destruct (listening ev b).
    + destruct (step_processText _ _ _ Hw) as [->|[-> _]]; [by left|].
      simpl in Ho. right. by destruct (runtime_initialized b), (Module_declared b).
    + rewrite Hw. left. destruct ev; simpl; try done.
      by destruct (select_files_frame fs (world b)) as (_ & _ & -> & _).
Qed.

Lemma bfire_runtime_initialized bev b b' :
  bfire bev b = Some b' → runtime_initialized b = true → runtime_initialized b' = true.
Proof.
  destruct bev as [|ev]; simpl.
  - destruct (script_evaluated b); [done|]. intros [= <-] <-.
    apply script_main_frame.
  - intros Hf. by destruct (deliver_frame _ _ _ Hf) as (_ & _ & _ & _ & ?).
Qed.

Lemma bfire_outcome bev b b' :
  bfire bev b = Some b' →
  outcome script_main b' = Normal () ↔ outcome script_main b = Normal ().
Proof.
  intros [Hd Hm]%bfire_frame. by rewrite !script_main_normal, Hd, Hm.
Qed.

Lemma bfire_click_listener bev b b' :
  outcome script_main b ≠ Normal () → bfire bev b = Some b' →
  click_listener (registered b') = click_listener (registered b).
Proof.
  intros Hn Hf. destruct bev as [|ev]; simpl in Hf.
  - destruct (script_evaluated b); simplify_eq/=. by apply script_main_failed.
  - by destruct (deliver_frame _ _ _ Hf) as (_ & -> & _).
Qed.

End browser_facts.

(** ** Sample pages *)

(** A page with the five elements whose loader has declared [Module]. *)
Definition b_fresh : Browser upper_engine :=
  fresh_browser FnEngine full_document (Some []) true.

(** The same page where nothing has declared [Module]. *)
Definition b_no_module : Browser upper_engine :=
  fresh_browser FnEngine full_document (Some []) false.

(** The script is evaluated, the engine is loaded, two files are selected,
    the button is clicked. *)
Definition bevs_reading : list browser_event := BvScript :: (BvEvent <$> evs_reading).

(** The script is evaluated, a file is selected, the button is clicked. *)
Definition bevs_click : list browser_event :=
  [BvScript; BvEvent (EvChange [file_a]); BvEvent EvClick].

Definition b_runtime_first : Browser upper_engine :=
  default b_fresh (bfire (BvEvent EvRuntimeInitialized) b_fresh).

Definition bafter (bevs : list browser_event) (b : Browser upper_engine) :
  Browser upper_engine := default b (run bfire bevs b).

(** ** The properties of the page load *)

Section browser_properties.
Context {E : Type} `{!WasmModule E}.
Implicit Types (b : Browser E) (w : World E) (ev : event) (bev : browser_event).

(** C14: the script completes exactly on the pages that hold the file input
    and the button and whose loader has declared [Module]; the log, the
    result area and the file name are not needed for it to complete.  When
    it completes it has installed its three handlers and leaves the world of
    lines 2-12.  Otherwise it ends at the first registration that finds
    nothing to dereference: with a [TypeError] without the file input
    (line 15), with a [ReferenceError] without [Module] (line 26), with a
    [TypeError] without the button (line 37). *)
Theorem script_completes_iff b :
  (outcome script_main b = Normal () ↔
   ID_FILE_INPUT ∈ document b ∧ ID_ANALYZE_BTN ∈ document b ∧
   Module_declared b = true) ∧
  (outcome script_main b = Normal () →
   registered (exec script_main b) = all_registered ∧
   world (exec script_main b) = script_world b) ∧
  outcome script_main b =
    (if decide (ID_FILE_INPUT ∉ document b) then Throw TypeError
     else if decide (Module_declared b = false) then Throw ReferenceError
     else if decide (ID_ANALYZE_BTN ∉ document b) then Throw TypeError
     else Normal ()).
Proof.
  split_and!; [apply script_main_normal|..].
  - intros Hn. by rewrite (script_main_loaded _ Hn).
  - unfold outcome. rewrite script_main_run. unfold getElementById.
    destruct (Module_declared b); repeat case_bool_decide; by repeat case_decide.
Qed.

(** C12: a page on which the script completed is the pipeline: the world the
    script leaves is an initial world, on a document that holds the five
    elements an initial world with a file input, and the turns of the
    browser after it are steps of the pipeline from that world. *)
Theorem page_load_refines_pipeline b0 bevs b :
  script_evaluated b0 = false → readers (world b0) = [] →
  outcome script_main b0 = Normal () →
  trace (fire_step bfire) b0 (BvScript :: bevs) b →
  initial (script_world b0) ∧
  trace step (script_world b0) (delivered bevs) (world b) ∧
  (full_document ⊆ document b0 → is_Some (fileInput_files (page (world b0))) →
   initial_file_input (script_world b0)).
Proof.
  intros He Hr Hn Ht. inv Ht.
  match goal with H : fire_step _ _ _ _ |- _ => unfold fire_step in H; simpl in H;
    rewrite He, (script_main_loaded _ Hn) in H; simplify_eq end.
  match goal with H : trace _ _ _ _ |- _ => apply loaded_trace in H as [? _]; [|done] end.
  split_and!; [done..|]. intros Hd Hf. split_and!; [done| |done].
  unfold complete. simpl. by apply lookup_elements_complete.
Qed.

(** C15: if the runtime of the engine initializes before the script has
    installed its hook, the engine is never used: whatever happens then,
    the script evaluated and the button clicked included, [processText] stays
    [null], no read is started and the engine is not called. *)
Theorem runtime_before_script b0 b1 bevs b :
  runtime_hook (registered b0) = false →
  processText (page (world b0)) = None → readers (world b0) = [] →
  bfire (BvEvent EvRuntimeInitialized) b0 = Some b1 →
  trace (fire_step bfire) b1 bevs b →
  processText (page (world b)) = None ∧ readers (world b) = [] ∧
  engine (world b) = engine (world b0).
Proof.
  intros Hh Hp Hr Hf Ht.
  assert (runtime_initialized b1 = true ∧ processText (page (world b1)) = None ∧
          readers (world b1) = [] ∧ engine (world b1) = engine (world b0)) as Hi.
  { simpl in Hf. apply deliver_Some in Hf as (_ & w' & -> & Hw).
    simpl in Hw. rewrite Hh in Hw. by subst. }
  clear Hf. revert Hi. generalize (engine (world b0)). intros e.
  induction Ht as [|b1 bev b2 bevs b3 Hf _ IH]; [naive_solver|].
  intros (Hi & Hp1 & Hr1 & <-). apply IH.
  destruct (bfire_no_reader _ _ _ Hr1 Hf) as (? & _ & Hrs).
  destruct (bfire_processText _ _ _ Hp1 Hf) as [?|?]; [|congruence].
  split_and!; [by eauto using bfire_runtime_initialized|done| |done].
  destruct Hrs as [?|[_ [f Hf']]]; [done|congruence].
Qed.

(** C18: a script that stops early never analyses: the click listener is the
    last thing the script installs, so on a page where the script does not
    complete no read is ever started, the engine is never called and the
    result area keeps what it held, whatever the user does. *)
Theorem failed_script_no_analysis b0 bevs b :
  click_listener (registered b0) = false → readers (world b0) = [] →
  outcome script_main b0 ≠ Normal () →
  trace (fire_step bfire) b0 bevs b →
  readers (world b) = [] ∧ engine (world b) = engine (world b0) ∧
  resultDiv_textContent (page (world b)) = resultDiv_textContent (page (world b0)).
Proof.
  intros Hc Hr Hn Ht. induction Ht as [|b0 bev b1 bevs b2 Hf _ IH]; [done|].
  destruct (bfire_no_reader _ _ _ Hr Hf) as (<- & <- & Hrs).
  apply IH.
  - by rewrite (bfire_click_listener _ _ _ Hn Hf).
  - destruct Hrs as [?|[? _]]; [done|congruence].
  - by rewrite (bfire_outcome _ _ _ Hf).
Qed.

End browser_properties.

(** ** The properties at the sample pages *)

Lemma page_load_refines_pipeline_witness :
  initial (script_world b_fresh) ∧
  trace step (script_world b_fresh) evs_reading (world (bafter bevs_reading b_fresh)) ∧
  (full_document ⊆ document b_fresh →
   is_Some (fileInput_files (page (world b_fresh))) →
   initial_file_input (script_world b_fresh)).
Proof.
  assert (trace (fire_step bfire) b_fresh bevs_reading (bafter bevs_reading b_fresh))
    as Ht by (apply run_trace; vm_compute; reflexivity).
  exact (page_load_refines_pipeline b_fresh (BvEvent <$> evs_reading)
           (bafter bevs_reading b_fresh) eq_refl eq_refl eq_refl Ht).
Defined.

Lemma runtime_before_script_witness :
  processText (page (world (bafter bevs_click b_runtime_first))) = None ∧
  readers (world (bafter bevs_click b_runtime_first)) = [] ∧
  engine (world (bafter bevs_click b_runtime_first)) = FnEngine.
Proof.
  apply (runtime_before_script b_fresh b_runtime_first bevs_click);
    [reflexivity..|].
  apply run_trace. vm_compute. reflexivity.
Defined.

Lemma failed_script_no_analysis_witness :
  readers (world (bafter bevs_click b_no_module)) = [] ∧
  engine (world (bafter bevs_click b_no_module)) = FnEngine ∧
  resultDiv_textContent (page (world (bafter bevs_click b_no_module))) = [].
Proof.
  apply (failed_script_no_analysis b_no_module bevs_click);
    [reflexivity..|by vm_compute|].
  apply run_trace. vm_compute. reflexivity.
Defined.
