(* ===== verification/Scenarios.v ===== *)
(** * Scenarios: the pipeline on whole sequences of events

    The testable properties of the specification's section 8, and the
    sequences of events the specification leaves open, each proved for every
    initial world whose page is complete, every file, every text and every engine
    of the stated class.  A scenario is a list of events run by [run fire]
    from the initial world; the theorem gives the world it ends in. *)

From stdpp Require Import strings.
From S2P Require Import Prelude JsString Engine Page Handlers Pipeline.

(** ** Sequences of events *)

(** One analysis: load the engine, select, click, the read succeeds. *)
Definition evs_analysis (fs : list File) (text : jsstring) : list event :=
  [EvRuntimeInitialized; EvChange fs; EvClick; EvLoad 0 text].

(** Two selections before the click. *)
Definition evs_reselect (fs1 fs2 : list File) : list event :=
  [EvRuntimeInitialized; EvChange fs1; EvChange fs2; EvClick].

(** A failed read, then a second attempt that succeeds. *)
Definition evs_retry (fs : list File) (text : jsstring) : list event :=
  [EvRuntimeInitialized; EvChange fs; EvClick; EvError 0; EvClick; EvLoad 0 text].

(** Two clicks before any read completes, then both reads succeed. *)
Definition evs_double_click (fs : list File) (text1 text2 : jsstring) : list event :=
  [EvRuntimeInitialized; EvChange fs; EvClick; EvClick;
   EvLoad 0 text1; EvLoad 0 text2].

(** An analysis, then the selection is emptied and the button clicked. *)
Definition evs_analysis_then_empty_click (fs : list File) (text : jsstring) :
  list event := evs_analysis fs text ++ [EvChange []; EvClick].

(** Two analyses in a row. *)
Definition evs_two_analyses (fs : list File) (text1 text2 : jsstring) : list event :=
  evs_analysis fs text1 ++ [EvClick; EvLoad 0 text2].

(** The selection changes while a read is in flight. *)
Definition evs_late_selection (fs1 fs2 : list File) : list event :=
  [EvRuntimeInitialized; EvChange fs1; EvClick; EvChange fs2].

(** A file is selected and the button clicked before the engine is loaded;
    then the engine loads and the button is clicked again. *)
Definition evs_early_selection (fs : list File) : list event :=
  [EvChange fs; EvClick; EvRuntimeInitialized; EvClick].

(** [step_rule] finds the rule of [step] for a given world and event; the
    side conditions of the rules compute.  [trace_steps] builds the trace of
    a scenario rule by rule. *)
Ltac step_rule :=
  solve [ econstructor; unfold has; simpl;
          first [ reflexivity
                | apply call_cwrapped_pure
                | rewrite call_cwrapped_process; eassumption ] ].

Ltac trace_steps :=
  repeat first [ apply trace_nil | eapply trace_cons; [step_rule|] ].

(** [initial_cases H] destructs the initial world of [H], a complete page
    with a file input, into its fields. *)
Ltac initial_cases H :=
  let Hp := fresh in let Hr := fresh in let Hc := fresh in let Hf := fresh in
  destruct H as ([Hp Hr] & Hc & [? Hf]);
  match type of Hp with
  | processText (page ?w) = _ =>
    destruct w as [[] ? ?]; unfold complete in Hc; simpl in Hp, Hr, Hc, Hf; subst
  end.

(** [scenario H] runs the scenario of the goal from the initial world
    of [H]. *)
Ltac scenario H :=
  initial_cases H; eexists; split; [apply run_step_trace; trace_steps|].

(** The fresh sample world with an engine that answers once. *)
Definition w_budget : World budget_engine := initial_world (Budget 1) blank_page.

Section scenarios.
Context {E : Type} `{!WasmModule E, !TextProcessor E, !PureProcessor E}.
Implicit Types (w : World E) (file : File) (text : jsstring).

(** C16: one analysis, end to end: after the engine is loaded, a file is
    selected, the button is clicked and the read succeeds with [text], the
    result area shows the engine's analysis of [text], the log holds the
    length line and the completion line, no read is in flight and the name
    of the file is shown. *)
Theorem analysis_end_to_end w0 file l text :
  initial_file_input w0 →
  ∃ w, run fire (evs_analysis (file :: l) text) w0 = Some w ∧
       resultDiv_textContent (page w) = analysis text ∧
       logArea_textContent (page w) = MSG_FILE_READ text ++ MSG_DONE ∧
       readers w = [] ∧
       fileNameSpan_textContent (page w) = name file.
Proof. intros H0. scenario H0. done. Qed.

(** C22: the last selection before the click is the one that is read: after
    selecting [file1] and then [file2], the click starts one read, of
    [file2]; no read of [file1] exists. *)
Theorem second_selection_wins w0 file1 l1 file2 l2 :
  initial_file_input w0 →
  ∃ w, run fire (evs_reselect (file1 :: l1) (file2 :: l2)) w0 = Some w ∧
       readers w = [MkFileReader file2 ENCODING_UTF8] ∧
       fileNameSpan_textContent (page w) = name file2.
Proof. intros H0. scenario H0. done. Qed.

(** C19: a failed read leaves the pipeline usable: after the error the
    selection is still there, a second click starts a new read, and when that
    read succeeds the result and the log are those of a first analysis. *)
Theorem recovery_after_read_error w0 file l text :
  initial_file_input w0 →
  ∃ w, run fire (evs_retry (file :: l) text) w0 = Some w ∧
       resultDiv_textContent (page w) = analysis text ∧
       logArea_textContent (page w) = MSG_FILE_READ text ++ MSG_DONE ∧
       fileInput_files (page w) = Some (file :: l) ∧
       readers w = [].
Proof. intros H0. scenario H0. done. Qed.

(** C21: a second click while a read is in flight is neither ignored nor
    queued behind the first analysis: it starts a second read of the same
    file at once, both reads complete, and the display is that of the read
    that completes last. *)
Theorem double_click_reads_twice w0 file l text1 text2 :
  initial_file_input w0 →
  ∃ w1 w, run fire (take 4 (evs_double_click (file :: l) text1 text2)) w0 = Some w1 ∧
          readers w1 = [MkFileReader file ENCODING_UTF8; MkFileReader file ENCODING_UTF8] ∧
          run fire (evs_double_click (file :: l) text1 text2) w0 = Some w ∧
          resultDiv_textContent (page w) = analysis text2 ∧
          logArea_textContent (page w) = MSG_FILE_READ text2 ++ MSG_DONE ∧
          readers w = [].
Proof.
  intros H0. initial_cases H0.
  eexists _, _. split_and!;
    [apply run_step_trace; simpl; trace_steps|done
    |apply run_step_trace; trace_steps|done..].
Qed.

(** C24: the log is not append-only: after a complete analysis, a click with
    an empty selection replaces the two lines of the analysis by the
    select-a-file message, although no new analysis has begun; the result of
    the analysis stays displayed. *)
Theorem guidance_erases_log w0 file l text :
  initial_file_input w0 →
  ∃ w, run fire (evs_analysis_then_empty_click (file :: l) text) w0 = Some w ∧
       logArea_textContent (page w) = MSG_SELECT_FILE ∧
       resultDiv_textContent (page w) = analysis text ∧
       ¬ (MSG_FILE_READ text ++ MSG_DONE) `prefix_of` logArea_textContent (page w).
Proof.
  intros H0. scenario H0. split_and!; [done..|].
  simpl. unfold MSG_FILE_READ. intros [k Hk]. by vm_compute in Hk.
Qed.

(** C23: while a read is in flight the selection can change: the name shown
    is then that of the new first file while the read in flight is still that
    of the old one, so the analysis that completes is not of the file whose
    name is displayed. *)
Theorem late_selection_mismatch w0 file1 l1 file2 l2 :
  initial_file_input w0 →
  ∃ w, run fire (evs_late_selection (file1 :: l1) (file2 :: l2)) w0 = Some w ∧
       readers w = [MkFileReader file1 ENCODING_UTF8] ∧
       fileNameSpan_textContent (page w) = name file2.
Proof. intros H0. scenario H0. done. Qed.

(** C25: a file selected before the engine is loaded is remembered: the
    click before readiness only reports that the engine is not ready, and
    once the engine is loaded a click reads the file without a new
    selection. *)
Theorem early_selection_kept w0 file l :
  initial_file_input w0 →
  ∃ w1 w, run fire (take 2 (evs_early_selection (file :: l))) w0 = Some w1 ∧
          logArea_textContent (page w1) = MSG_NOT_READY ∧ readers w1 = [] ∧
          run fire (evs_early_selection (file :: l)) w0 = Some w ∧
          readers w = [MkFileReader file ENCODING_UTF8].
Proof.
  intros H0. initial_cases H0.
  eexists _, _. split_and!;
    [apply run_step_trace; simpl; trace_steps|done..
    |apply run_step_trace; trace_steps|done].
Qed.

End scenarios.

Section failing_scenarios.
Context {E : Type} `{!WasmModule E, !TextProcessor E}.
Implicit Types (w : World E) (file : File) (text : jsstring).

(** C20: when the engine fails on a second analysis, the display is left half
    updated: the log holds the length line of the second text alone while the
    result area still shows the result of the first, and the exception is
    uncaught. *)
Theorem stale_result_after_engine_failure w0 file l text1 text2 result e1 x e2 :
  initial_file_input w0 →
  process text1 (engine w0) = (Normal result, e1) →
  process text2 e1 = (Throw x, e2) →
  ∃ w1 w, run fire (evs_analysis (file :: l) text1 ++ [EvClick]) w0 = Some w1 ∧
          uncaught (EvLoad 0 text2) w1 = Some x ∧
          run fire (evs_two_analyses (file :: l) text1 text2) w0 = Some w ∧
          resultDiv_textContent (page w) = result ∧
          logArea_textContent (page w) = MSG_FILE_READ text2 ∧
          readers w = [].
Proof.
  intros H0 H1 H2. initial_cases H0. simpl in H1.
  eexists _, _. split_and!;
    [apply run_step_trace; simpl; trace_steps| 
    |apply run_step_trace; trace_steps|done..].
  unfold uncaught, dispatch. simpl.
  erewrite reader_onload_throws_run;
    [done..|by rewrite call_cwrapped_process].
Qed.

End failing_scenarios.

(** The length the log reports is the number of UTF-16 code units of the
    decoded text, not the number of bytes of the file: a file of six bytes
    that holds two Hangul syllables in UTF-8 is reported with length 2,
    under the label bytes. *)
Example length_line_counts_code_units :
  let bytes := source_bytes "한글" in
  let text := utf16_encode (utf8_code_points bytes) in
  length bytes = 6 ∧
  logArea_textContent (page (after (evs_analysis [file_a] text)))
    = js_lit "파일을 읽었습니다. 길이: 2 bytes\n" ++ MSG_DONE.
Proof. by vm_compute. Qed.

(** ** The scenarios at the sample world *)

Lemma w_fresh_initial : initial_file_input w_fresh.
Proof. split_and!; [done..|by eexists]. Qed.

(** The round trip of the specification: the file holds [hello], the engine
    upper-cases, the result is [HELLO] and the log reports the length 5. *)
Lemma analysis_end_to_end_witness :
  ∃ w, run fire (evs_analysis [file_a] (js_lit "hello")) w_fresh = Some w ∧
       resultDiv_textContent (page w) = js_lit "HELLO" ∧
       logArea_textContent (page w)
         = js_lit "파일을 읽었습니다. 길이: 5 bytes\n분석 완료! 결과가 화면에 표시되었습니다.\n" ∧
       readers w = [] ∧
       fileNameSpan_textContent (page w) = js_lit "a.txt".
Proof. exact (analysis_end_to_end w_fresh file_a [] (js_lit "hello") w_fresh_initial). Defined.

Lemma second_selection_wins_witness :
  ∃ w, run fire (evs_reselect [file_a] [file_b]) w_fresh = Some w ∧
       readers w = [MkFileReader file_b ENCODING_UTF8] ∧
       fileNameSpan_textContent (page w) = js_lit "b.txt".
Proof. exact (second_selection_wins w_fresh file_a [] file_b [] w_fresh_initial). Defined.

Lemma recovery_after_read_error_witness :
  ∃ w, run fire (evs_retry [file_a] (js_lit "hello")) w_fresh = Some w ∧
       resultDiv_textContent (page w) = js_lit "HELLO" ∧
       logArea_textContent (page w) = MSG_FILE_READ (js_lit "hello") ++ MSG_DONE ∧
       fileInput_files (page w) = Some [file_a] ∧
       readers w = [].
Proof. exact (recovery_after_read_error w_fresh file_a [] (js_lit "hello") w_fresh_initial). Defined.

Lemma double_click_reads_twice_witness :
  ∃ w1 w,
    run fire (take 4 (evs_double_click [file_a] (js_lit "one") (js_lit "two"))) w_fresh
      = Some w1 ∧
    readers w1 = [MkFileReader file_a ENCODING_UTF8; MkFileReader file_a ENCODING_UTF8] ∧
    run fire (evs_double_click [file_a] (js_lit "one") (js_lit "two")) w_fresh = Some w ∧
    resultDiv_textContent (page w) = js_lit "TWO" ∧
    logArea_textContent (page w) = MSG_FILE_READ (js_lit "two") ++ MSG_DONE ∧
    readers w = [].
Proof.
  exact (double_click_reads_twice w_fresh file_a [] (js_lit "one") (js_lit "two")
           w_fresh_initial).
Defined.

Lemma guidance_erases_log_witness :
  ∃ w, run fire (evs_analysis_then_empty_click [file_a] (js_lit "hello")) w_fresh = Some w ∧
       logArea_textContent (page w) = MSG_SELECT_FILE ∧
       resultDiv_textContent (page w) = js_lit "HELLO" ∧
       ¬ (MSG_FILE_READ (js_lit "hello") ++ MSG_DONE)
           `prefix_of` logArea_textContent (page w).
Proof. exact (guidance_erases_log w_fresh file_a [] (js_lit "hello") w_fresh_initial). Defined.

Lemma late_selection_mismatch_witness :
  ∃ w, run fire (evs_late_selection [file_a] [file_b]) w_fresh = Some w ∧
       readers w = [MkFileReader file_a ENCODING_UTF8] ∧
       fileNameSpan_textContent (page w) = js_lit "b.txt".
Proof. exact (late_selection_mismatch w_fresh file_a [] file_b [] w_fresh_initial). Defined.

Lemma early_selection_kept_witness :
  ∃ w1 w, run fire (take 2 (evs_early_selection [file_a])) w_fresh = Some w1 ∧
          logArea_textContent (page w1) = MSG_NOT_READY ∧ readers w1 = [] ∧
          run fire (evs_early_selection [file_a]) w_fresh = Some w ∧
          readers w = [MkFileReader file_a ENCODING_UTF8].
Proof. exact (early_selection_kept w_fresh file_a [] w_fresh_initial). Defined.

Lemma stale_result_after_engine_failure_witness :
  ∃ w1 w,
    run fire (evs_analysis [file_a] (js_lit "one") ++ [EvClick]) w_budget = Some w1 ∧
    uncaught (EvLoad 0 (js_lit "two")) w1 = Some (EngineError PROCESS_TEXT) ∧
    run fire (evs_two_analyses [file_a] (js_lit "one") (js_lit "two")) w_budget = Some w ∧
    resultDiv_textContent (page w) = js_lit "one" ∧
    logArea_textContent (page w) = MSG_FILE_READ (js_lit "two") ∧
    readers w = [].
Proof.
  assert (initial_file_input w_budget) as H0 by (split_and!; [done..|by eexists]).
  exact (stale_result_after_engine_failure w_budget file_a []
           (js_lit "one") (js_lit "two") (js_lit "one") (Budget 0)
           (EngineError PROCESS_TEXT) (Budget 0) H0 eq_refl eq_refl).
Defined.
