(* ===== verification/Files.v ===== *)
(** * The files behind the selection

    The script never sees the bytes of a file: it starts a read (line 73)
    and the browser reports, later, the text or a failure.  [Pipeline]
    leaves both to the environment: the label of a completion carries any
    text.  This file adds what decides them:

    - [FileSystem]: what the browser can read of a file at a given moment,
      its bytes or nothing; [Disk], a finite map from the handle of a file
      to its bytes, is one such system;
    - [reader_text]: the text a reader yields for the bytes of its file,
      the [decode] of [Decode] with the encoding of the reader's label;
    - [System]: a world and the files; [sys_fire]: one turn, in which the
      page is acted upon, a read completes with what the files hold at that
      moment, or the files change.

    A turn of the system is a run of the pipeline on the events it resolves
    to ([resolve]), so every theorem of [Pipeline] holds of the system; the
    theorems here are those that need the contents of the files. *)

From stdpp Require Import strings gmap.
From S2P Require Import Prelude JsString Engine Page Decode Ingest.
From S2P Require Import Handlers Pipeline Scenarios.

(** ** File systems *)

(** The bytes of a file, or nothing when it cannot be read (it vanished, it
    may not be read, the device failed). *)
Class FileSystem (D : Type) : Type := read_file : D → File → option (list N).
#[global] Hint Mode FileSystem ! : typeclass_instances.

(** Files by their handle. *)
Definition Disk : Type := gmap nat (list N).

#[export] Instance Disk_FileSystem : FileSystem Disk :=
  λ d file, d !! rawHandle file.

(** ** The text of a read *)

(** The labels of the encodings of [Decode]. *)
Definition LABEL_UTF_16BE : jsstring := Eval vm_compute in js_lit "utf-16be".
Definition LABEL_UTF_16LE : jsstring := Eval vm_compute in js_lit "utf-16le".

(** The encoding a label names; a label that names none falls back to
    UTF-8.  The labels of the legacy encodings are not modelled; the script
    passes none. *)
Definition get_encoding (label : jsstring) : encoding :=
  if decide (label = LABEL_UTF_16BE) then UTF_16BE
  else if decide (label = LABEL_UTF_16LE) then UTF_16LE
  else UTF_8.

(** The result of a reader whose file holds [bs]. *)
Definition reader_text (r : FileReader) (bs : list N) : jsstring :=
  utf16_encode (decode (get_encoding (reader_encoding r)) bs).

(** ** The system *)

Record System (E D : Type) : Type := MkSystem {
  sys_world : World E;
  sys_files : D;
}.
Arguments MkSystem {E D} sys_world sys_files.
Arguments sys_world {E D} s.
Arguments sys_files {E D} s.

Inductive sys_event (D : Type) : Type :=
(** the engine is loaded, the selection changes, the button is clicked *)
| SysPage (ev : event)
(** the browser completes the read of the [i]-th reader in flight *)
| SysRead (i : nat)
(** the files change, by whatever means: [d] is what can be read from
    now on *)
| SysFiles (d : D).
Arguments SysPage {D} ev.
Arguments SysRead {D} i.
Arguments SysFiles {D} d.

Section system.
Context {E D : Type} `{!WasmModule E, !FileSystem D}.
Implicit Types (s : System E D) (sev : sys_event D) (w : World E) (ev : event).

(** How the read of the [i]-th reader completes, with the files as they
    are. *)
Definition read_event s (i : nat) : option event :=
  r ← readers (sys_world s) !! i;
  Some (match read_file (sys_files s) (reader_file r) with
        | Some bs => EvLoad i (reader_text r bs)
        | None => EvError i
        end).

(** The events of the page a turn of the system stands for.  Completions
    come from the files only. *)
Definition resolve sev s : option (list event) :=
  match sev with
  | SysPage ev => if decide (is_completion ev) then None else Some [ev]
  | SysRead i => ev ← read_event s i; Some [ev]
  | SysFiles _ => Some []
  end.

(** The files after a turn. *)
Definition files_after sev (d : D) : D :=
  match sev with
  | SysFiles d' => d'
  | _ => d
  end.

(** One turn. *)
Definition sys_fire sev s : option (System E D) :=
  evs ← resolve sev s;
  w' ← run fire evs (sys_world s);
  Some (MkSystem w' (files_after sev (sys_files s))).

(** The same as a relation: [sys_step s sev evs s'], the turn [sev] leads
    from [s] to [s'] and stands for the events [evs] of the page. *)
Inductive sys_step : System E D → sys_event D → list event → System E D → Prop :=
| sys_page w d ev w' :
  ¬ is_completion ev → step w ev w' →
  sys_step (MkSystem w d) (SysPage ev) [ev] (MkSystem w' d)
| sys_read_load w d i r bs w' :
  readers w !! i = Some r → read_file d (reader_file r) = Some bs →
  step w (EvLoad i (reader_text r bs)) w' →
  sys_step (MkSystem w d) (SysRead i) [EvLoad i (reader_text r bs)] (MkSystem w' d)
| sys_read_error w d i r w' :
  readers w !! i = Some r → read_file d (reader_file r) = None →
  step w (EvError i) w' →
  sys_step (MkSystem w d) (SysRead i) [EvError i] (MkSystem w' d)
| sys_files_change w d d' :
  sys_step (MkSystem w d) (SysFiles d') [] (MkSystem w d').

(** A run, with the events of the page it stands for. *)
Fixpoint sys_run (sevs : list (sys_event D)) s : option (list event * System E D) :=
  match sevs with
  | [] => Some ([], s)
  | sev :: sevs =>
    evs ← resolve sev s;
    s1 ← sys_fire sev s;
    r ← sys_run sevs s1;
    Some (evs ++ r.1, r.2)
  end.

(** The files a run reads from: those it starts with and those of its
    changes. *)
Definition disks (d : D) (sevs : list (sys_event D)) : list D :=
  d :: omap (λ sev, match sev with SysFiles d' => Some d' | _ => None end) sevs.

(** The texts the reads in flight [rs] yield with the files [d]: one for
    each reader whose file can be read, in the order of the readers. *)
Definition read_texts (d : D) (rs : list FileReader) : list jsstring :=
  omap (λ r, reader_text r <$> read_file d (reader_file r)) rs.

(** The turns in which every read in flight completes, the oldest first. *)
Definition completions s : list (sys_event D) :=
  replicate (length (readers (sys_world s))) (SysRead 0).

(** [text] is the content, decoded as UTF-8, of a file of one of [ds]. *)
Definition content_of (ds : list D) (text : jsstring) : Prop :=
  ∃ d file bs, d ∈ ds ∧ read_file d file = Some bs ∧ text = decode_utf8 bs.

End system.

(** ** Sample files *)

(** A disk on which [file_a] holds [hello] and [file_b] holds [한글]. *)
Definition bytes_a : list N := Eval vm_compute in source_bytes "hello".
Definition bytes_b : list N := Eval vm_compute in source_bytes "한글".

Definition disk_ab : Disk := {[ rawHandle file_a := bytes_a; rawHandle file_b := bytes_b ]}.

(** The same after [file_a] has been rewritten, and after it has been
    removed. *)
Definition disk_rewritten : Disk := <[ rawHandle file_a := bytes_b ]> disk_ab.
Definition disk_removed : Disk := delete (rawHandle file_a) disk_ab.

Definition s_fresh : System upper_engine Disk := MkSystem w_fresh disk_ab.

(** Two reads in flight, of [file_a] and of [file_b], when [file_a] has been
    removed. *)
Definition evs_two_files : list event :=
  [EvRuntimeInitialized; EvChange [file_a]; EvClick; EvChange [file_b]; EvClick].
Definition s_two_reads : System upper_engine Disk :=
  MkSystem (after evs_two_files) disk_removed.

(** Two selections, a click, and the read completes. *)
Definition sevs_reselect {D : Type} (fs1 fs2 : list File) : list (sys_event D) :=
  (SysPage <$> evs_reselect fs1 fs2) ++ [SysRead 0].

(** An analysis, the files change, a second analysis of the same
    selection. *)
Definition sevs_reread {D : Type} (fs : list File) (d : D) : list (sys_event D) :=
  [SysPage EvRuntimeInitialized; SysPage (EvChange fs); SysPage EvClick; SysRead 0;
   SysFiles d; SysPage EvClick; SysRead 0].

(** ** Turns of the system and steps of the pipeline *)

Section system_facts.
Context {E D : Type} `{!WasmModule E, !FileSystem D}.
Implicit Types (s : System E D) (sev : sys_event D) (w : World E) (ev : event).

(** The text of the readers the script creates. *)
Lemma reader_text_utf8 r bs :
  reader_encoding r = ENCODING_UTF8 → reader_text r bs = decode_utf8 bs.
Proof. unfold reader_text. by intros ->. Qed.

Lemma sys_step_sound s sev evs s' :
  sys_step s sev evs s' → resolve sev s = Some evs ∧ sys_fire sev s = Some s'.
Proof.
  destruct 1 as [w d ev w' Hc Hs|w d i r bs w' Hr Hb Hs|w d i r w' Hr Hb Hs|w d d'];
    try apply step_sound in Hs; unfold sys_fire, resolve, read_event; simpl;
    rewrite ?decide_False, ?Hr by done; simpl; rewrite ?Hb; simpl;
    by rewrite ?Hs.
Qed.

Lemma sys_step_complete s sev evs s' :
  resolve sev s = Some evs → sys_fire sev s = Some s' → sys_step s sev evs s'.
Proof.
  unfold sys_fire. intros Hv. rewrite Hv. simpl. destruct s as [w d].
  destruct sev as [ev|i|d']; simpl in *.
  - case_decide; simplify_eq/=.
    destruct (fire ev w) as [w'|] eqn:Hf; intros; simplify_eq/=.
    constructor; [done|by apply step_iff_fire].
  - unfold read_event in Hv. simpl in Hv.
    destruct (readers w !! i) as [r|] eqn:Hr; simplify_eq/=.
    destruct (read_file d (reader_file r)) as [bs|] eqn:Hb;
      (destruct (fire _ w) as [w'|] eqn:Hf; intros; simplify_eq/=);
      econstructor; eauto; by apply step_iff_fire.
  - intros; simplify_eq/=. constructor.
Qed.

Lemma sys_run_cons s sev evs1 s1 sevs evs2 s2 :
  sys_step s sev evs1 s1 → sys_run sevs s1 = Some (evs2, s2) →
  sys_run (sev :: sevs) s = Some (evs1 ++ evs2, s2).
Proof. intros [Hv Hf]%sys_step_sound Hr. simpl. by rewrite Hv, Hf; simpl; rewrite Hr. Qed.

Lemma sys_run_cons_inv s sev sevs evs s2 :
  sys_run (sev :: sevs) s = Some (evs, s2) →
  ∃ evs1 s1 evs2, sys_step s sev evs1 s1 ∧ sys_run sevs s1 = Some (evs2, s2) ∧
                  evs = evs1 ++ evs2.
Proof.
  simpl. intros Hr.
  destruct (resolve sev s) as [evs1|] eqn:Hv; [|done]. simpl in Hr.
  destruct (sys_fire sev s) as [s1|] eqn:Hf; [|done]. simpl in Hr.
  destruct (sys_run sevs s1) as [[evs2 s2']|] eqn:Hs; simplify_eq/=.
  eauto 10 using sys_step_complete.
Qed.

(** The turn of a step changes the world by a trace of the pipeline and the
    files as [files_after] says. *)
Lemma sys_step_pipeline s sev evs s' :
  sys_step s sev evs s' →
  trace step (sys_world s) evs (sys_world s') ∧
  sys_files s' = files_after sev (sys_files s).
Proof. destruct 1; simpl; eauto using trace, trace_one. Qed.

Lemma sys_run_pipeline sevs s evs s' :
  sys_run sevs s = Some (evs, s') →
  trace step (sys_world s) evs (sys_world s') ∧
  sys_files s' = foldl (flip files_after) (sys_files s) sevs.
Proof.
  revert s evs. induction sevs as [|sev sevs IH]; intros s evs Hr.
  - simplify_eq/=. eauto using trace.
  - apply sys_run_cons_inv in Hr as (evs1 & s1 & evs2 & Hs & Hr & ->).
    apply sys_step_pipeline in Hs as [Ht Hd]. apply IH in Hr as [Ht' ->].
    simpl. rewrite <-Hd. eauto using trace_app.
Qed.

(** *** The texts of a run *)

(** The texts a turn hands to the script are the contents of the files at
    that turn, decoded as UTF-8: the label of every reader the script
    creates names that encoding. *)
Lemma sys_step_loads s sev evs s' :
  encoding_inv (sys_world s) → sys_step s sev evs s' →
  Forall (content_of [sys_files s]) (loads evs).
Proof.
  intros He. destruct 1 as [w d ev w' Hc Hs|w d i r bs w' Hr Hb Hs|w d i r w' Hr Hb Hs|w d d'];
    simpl in *; [by destruct ev|..|done|done].
  repeat constructor. exists d, (reader_file r), bs.
  split_and!; [set_solver|done|].
  apply reader_text_utf8. by eapply (proj1 (Forall_lookup _ _) He).
Qed.

Lemma content_of_mono (ds1 ds2 : list D) text :
  ds1 ⊆ ds2 → content_of ds1 text → content_of ds2 text.
Proof. intros Hs (d & file & bs & ? & ? & ?). exists d, file, bs. set_solver. Qed.

Lemma disks_step s sev evs s1 sevs :
  sys_step s sev evs s1 →
  sys_files s :: disks (sys_files s1) sevs ⊆ disks (sys_files s) (sev :: sevs).
Proof. destruct 1; unfold disks; simpl; set_solver. Qed.

Lemma sys_run_loads sevs s evs s' :
  pipeline_inv (sys_world s) → sys_run sevs s = Some (evs, s') →
  Forall (content_of (disks (sys_files s) sevs)) (loads evs).
Proof.
  revert s evs. induction sevs as [|sev sevs IH]; intros s evs Hi Hr.
  - by simplify_eq/=.
  - apply sys_run_cons_inv in Hr as (evs1 & s1 & evs2 & Hs & Hr & ->).
    pose proof (disks_step _ _ _ _ sevs Hs) as Hd.
    unfold loads. rewrite omap_app. apply Forall_app. split.
    + eapply List.Forall_impl; [|eapply sys_step_loads; [apply Hi|done]].
      intros text. apply content_of_mono. set_solver.
    + eapply List.Forall_impl; [|eapply IH; [|done]].
      * intros text. apply content_of_mono. set_solver.
      * apply sys_step_pipeline in Hs as [Ht _]. eauto using pipeline_inv_trace.
Qed.

(** *** Completing the reads in flight *)

(** The oldest read in flight completes, with the text of its file or with
    an error; no handler prevents it and none starts a read. *)
Lemma sys_read_oldest s r rs :
  readers (sys_world s) = r :: rs →
  ∃ ev s1, sys_step s (SysRead 0) [ev] s1 ∧ readers (sys_world s1) = rs ∧
           sys_files s1 = sys_files s ∧
           loads [ev] = read_texts (sys_files s) [r].
Proof.
  destruct s as [w d]. simpl. intros Hr. unfold read_texts. simpl.
  destruct (read_file d (reader_file r)) as [bs|] eqn:Hb;
    [set (ev := EvLoad 0 (reader_text r bs))|set (ev := EvError 0)];
    (destruct (proj2 (fire_enabled ev w)) as [w1 Hf%step_iff_fire];
     [simpl; rewrite Hr; simpl; lia|]);
    pose proof (step_readers _ _ _ Hf) as [_ Hr1]; rewrite Hr in Hr1;
    exists ev, (MkSystem w1 d); split_and!; try done;
    econstructor; eauto; by rewrite Hr.
Qed.

Lemma read_texts_cons (d : D) r rs :
  read_texts d (r :: rs) = read_texts d [r] ++ read_texts d rs.
Proof. unfold read_texts. simpl. by destruct (read_file d (reader_file r)). Qed.

Lemma sys_run_completions s :
  ∃ evs s', sys_run (completions s) s = Some (evs, s') ∧
            readers (sys_world s') = [] ∧ sys_files s' = sys_files s ∧
            loads evs = read_texts (sys_files s) (readers (sys_world s)).
Proof.
  unfold completions. remember (readers (sys_world s)) as rs eqn:Hrs.
  revert s Hrs. induction rs as [|r rs IH]; intros s Hrs.
  - by exists [], s.
  - destruct (sys_read_oldest s r rs) as (ev & s1 & Hs & Hr1 & Hd1 & Hl); [done|].
    destruct (IH s1) as (evs & s' & Hrun & Hr' & Hd' & Hl'); [done|].
    exists (ev :: evs), s'.
    split_and!; [by apply (sys_run_cons _ _ [ev] s1)|done|congruence|].
    by rewrite (loads_cons ev evs), (read_texts_cons _ r rs), Hl, Hl', Hd1.
Qed.

End system_facts.

(** [sys_eval] runs a scenario turn by turn: it unfolds the turn, finds what
    a read resolves to with the hypotheses on the files, and rewrites the
    turn of the pipeline with the rule of [step] that applies. *)
Ltac sys_unfold :=
  cbn [sys_run resolve sys_fire files_after sys_world sys_files reader_file
       mbind option_bind mret option_ret run fst snd app].

Ltac sys_eval :=
  sys_unfold; rewrite ?decide_False by (by intros []);
  once (repeat first
    [ progress sys_unfold
    | progress unfold read_event
    | erewrite step_sound by step_rule
    | match goal with
      | |- context [readers ?w !! ?i] =>
        let r := eval simpl in (readers w !! i) in
        progress change (readers w !! i) with r
      | H : read_file ?d ?file = _ |- context [read_file ?d ?file] => rewrite H
      end ]);
  reflexivity.

(** [sys_scenario H] runs the scenario of the goal from the initial system
    of [H]. *)
Ltac sys_scenario H :=
  match type of H with
  | initial_file_input (sys_world ?s) =>
    destruct s as [? ?]; cbn [sys_world sys_files] in *
  end;
  initial_cases H; do 2 eexists; split;
  [ unfold sevs_reselect, sevs_reread, evs_reselect; cbn [fmap list_fmap app];
    sys_eval
  | unfold reader_text, decode_utf8; cbn [reader_encoding];
    change (get_encoding ENCODING_UTF8) with UTF_8 ].

(** ** The contents that reach the engine *)

Section contents.
Context {E D : Type} `{!WasmModule E, !TextProcessor E, !PureProcessor E, !FileSystem D}.
Implicit Types (s : System E D) (file : File) (bs : list N) (d : D).

(** C27: the content that is analysed is that of the file selected last:
    after [file1] and then [file2] are selected, the click and the
    completion of its read hand the engine one text, the decoded content of
    [file2], and the page shows its analysis with the length line and the
    completion line.  Whatever [file1] holds, it is neither read nor
    analysed. *)
Theorem last_selection_is_ingested s0 file1 l1 file2 l2 bs :
  initial_file_input (sys_world s0) →
  read_file (sys_files s0) file2 = Some bs →
  ∃ evs s, sys_run (sevs_reselect (file1 :: l1) (file2 :: l2)) s0 = Some (evs, s) ∧
           loads evs = [decode_utf8 bs] ∧
           resultDiv_textContent (page (sys_world s)) = analysis (decode_utf8 bs) ∧
           logArea_textContent (page (sys_world s))
             = MSG_FILE_READ (decode_utf8 bs) ++ MSG_DONE ∧
           readers (sys_world s) = [].
Proof. intros H0 Hb. sys_scenario H0. done. Qed.

(** C28: nothing read is kept from one analysis to the next: when the files
    change between two analyses of the same selection, the second analysis
    is of what the file holds then; and when the file can no longer be read,
    the second click ends in the read error, the engine is not called again
    and the result of the first analysis stays displayed. *)
Theorem reads_are_fresh s0 file l bs d :
  initial_file_input (sys_world s0) →
  read_file (sys_files s0) file = Some bs →
  ∃ evs s, sys_run (sevs_reread (file :: l) d) s0 = Some (evs, s) ∧
           sys_files s = d ∧
           match read_file d file with
           | Some bs' =>
             loads evs = [decode_utf8 bs; decode_utf8 bs'] ∧
             resultDiv_textContent (page (sys_world s)) = analysis (decode_utf8 bs') ∧
             logArea_textContent (page (sys_world s))
               = MSG_FILE_READ (decode_utf8 bs') ++ MSG_DONE
           | None =>
             loads evs = [decode_utf8 bs] ∧
             resultDiv_textContent (page (sys_world s)) = analysis (decode_utf8 bs) ∧
             logArea_textContent (page (sys_world s)) = MSG_READ_ERROR
           end.
Proof.
  intros H0 Hb. destruct (read_file d file) as [bs'|] eqn:Hd; sys_scenario H0; done.
Qed.

(** C33: the engine only ever analyses the contents of files: along every
    run of the system from an initial world with a log area, every text of a
    successful read is the UTF-8 decoding of what a file held on the disk of
    the run, and the engine has processed exactly those texts, in order. *)
Theorem engine_analyses_file_contents s0 sevs evs s :
  initial (sys_world s0) → has logArea (sys_world s0) →
  sys_run sevs s0 = Some (evs, s) →
  Forall (content_of (disks (sys_files s0) sevs)) (loads evs) ∧
  engine (sys_world s) = engine_after (loads evs) (engine (sys_world s0)).
Proof.
  intros Hi%pipeline_inv_initial Hl Hr. split; [by eapply sys_run_loads|].
  apply sys_run_pipeline in Hr as [Ht _]. by apply trace_engine.
Qed.

(** C30: every read in flight completes: in every world that satisfies the
    invariant of the pipeline, with the files as they are, completing the
    reads oldest first is a run of the system that ends with no read in
    flight, and the engine has then processed the text of every read whose
    file could be read, in the order in which the reads were started, and
    of no other. *)
Theorem pending_reads_complete s :
  pipeline_inv (sys_world s) → has logArea (sys_world s) →
  ∃ evs s', sys_run (completions s) s = Some (evs, s') ∧
            readers (sys_world s') = [] ∧
            sys_files s' = sys_files s ∧
            engine (sys_world s')
              = engine_after (read_texts (sys_files s) (readers (sys_world s)))
                  (engine (sys_world s)).
Proof.
  intros Hi Hl. destruct (sys_run_completions s) as (evs & s' & Hr & ? & ? & Hld).
  exists evs, s'. split_and!; try done.
  apply sys_run_pipeline in Hr as [Ht _]. rewrite <-Hld. by apply trace_engine.
Qed.

End contents.

(** ** The theorems on the sample files *)

Lemma last_selection_is_ingested_witness :
  ∃ evs s, sys_run (sevs_reselect [file_a] [file_b]) s_fresh = Some (evs, s) ∧
           loads evs = [decode_utf8 bytes_b] ∧
           resultDiv_textContent (page (sys_world s)) = to_upper_ascii (decode_utf8 bytes_b) ∧
           logArea_textContent (page (sys_world s))
             = MSG_FILE_READ (decode_utf8 bytes_b) ++ MSG_DONE ∧
           readers (sys_world s) = [].
Proof.
  exact (last_selection_is_ingested s_fresh file_a [] file_b [] bytes_b
           w_fresh_initial eq_refl).
Defined.


(** The file is rewritten, or removed, between two analyses of the same
    selection. *)
Lemma reads_are_fresh_witness :
  (∃ evs s, sys_run (sevs_reread [file_a] disk_rewritten) s_fresh = Some (evs, s) ∧
            sys_files s = disk_rewritten ∧
            loads evs = [decode_utf8 bytes_a; decode_utf8 bytes_b] ∧
            resultDiv_textContent (page (sys_world s))
              = to_upper_ascii (decode_utf8 bytes_b) ∧
            logArea_textContent (page (sys_world s))
              = MSG_FILE_READ (decode_utf8 bytes_b) ++ MSG_DONE) ∧
  (∃ evs s, sys_run (sevs_reread [file_a] disk_removed) s_fresh = Some (evs, s) ∧
            sys_files s = disk_removed ∧
            loads evs = [decode_utf8 bytes_a] ∧
            resultDiv_textContent (page (sys_world s))
              = to_upper_ascii (decode_utf8 bytes_a) ∧
            logArea_textContent (page (sys_world s)) = MSG_READ_ERROR).
Proof.
  split.
  - exact (reads_are_fresh s_fresh file_a [] bytes_a disk_rewritten
             w_fresh_initial eq_refl).
  - exact (reads_are_fresh s_fresh file_a [] bytes_a disk_removed
             w_fresh_initial eq_refl).
Defined.

Lemma engine_analyses_file_contents_witness :
  ∃ evs s, sys_run (sevs_reread [file_a] disk_rewritten) s_fresh = Some (evs, s) ∧
           Forall (content_of [disk_ab; disk_rewritten]) (loads evs) ∧
           engine (sys_world s) = engine_after (loads evs) (engine w_fresh).
Proof.
  destruct (sys_run (sevs_reread [file_a] disk_rewritten) s_fresh) as [[evs s]|] eqn:Hr;
    [|by vm_compute in Hr].
  exists evs, s. split; [done|].
  exact (engine_analyses_file_contents s_fresh _ evs s (proj1 w_fresh_initial)
           eq_refl Hr).
Defined.

(** Of the two reads in flight the first fails, its file being gone, and the
    second is analysed. *)
Lemma pending_reads_complete_witness :
  ∃ evs s', sys_run [SysRead 0; SysRead 0] s_two_reads = Some (evs, s') ∧
            readers (sys_world s') = [] ∧
            sys_files s' = disk_removed ∧
            engine (sys_world s')
              = engine_after [decode_utf8 bytes_b] (engine (sys_world s_two_reads)).
Proof.
  assert (pipeline_inv (sys_world s_two_reads)) as Hi.
  { apply (pipeline_inv_trace w_fresh evs_two_files); [by apply pipeline_inv_initial|].
    by apply run_step_trace. }
  exact (pending_reads_complete s_two_reads Hi eq_refl).
Defined.
