(* ===== verification/Refinement.v ===== *)
(** * The state machine of the specification, and how the script refines it

    Section 4.6 of the specification describes the pipeline as a machine with
    six states.  [Spec] states that machine as it is written.  The script
    has no variable that holds such a state: [phase] reads it off the world
    (is [processText] set, is a read in flight, is a file selected).

    The machine of the specification is partial: it says nothing about a
    file picked before the engine is ready, about a click or a change of
    selection while a read is in flight, or about a selection that becomes
    empty.  The script accepts all of these.  So the refinement is proved for
    the environments the specification describes ([disciplined]); what the
    script does in the cases the machine leaves out is stated in
    [Scenarios]. *)

From stdpp Require Import strings.
From S2P Require Import Prelude JsString Engine Page Handlers Pipeline.

(** ** The machine of section 4.6 *)

Module Spec.

Inductive state : Type :=
| Idle | ReadyNoFile | ReadyWithFile | Reading | Invoking | Displayed.

Inductive label : Type :=
| engineReady | filePicked | analyzeRequested
| readSucceeded | readFailed | invokeSucceeded | invokeFailed
(** the return from [Displayed] to [ReadyWithFile] that ends an attempt *)
| attemptDone.

Inductive transition : state → label → state → Prop :=
| trans_engine_ready : transition Idle engineReady ReadyNoFile
| trans_pick_first : transition ReadyNoFile filePicked ReadyWithFile
| trans_pick_again : transition ReadyWithFile filePicked ReadyWithFile
| trans_analyze : transition ReadyWithFile analyzeRequested Reading
| trans_read_succeeded : transition Reading readSucceeded Invoking
| trans_invoke_succeeded : transition Invoking invokeSucceeded Displayed
| trans_read_failed : transition Reading readFailed ReadyWithFile
| trans_invoke_failed : transition Invoking invokeFailed ReadyWithFile
| trans_attempt_done : transition Displayed attemptDone ReadyWithFile
(** the guard clauses: no state change *)
| trans_guard_not_ready : transition Idle analyzeRequested Idle
| trans_guard_no_file : transition ReadyNoFile analyzeRequested ReadyNoFile.

#[export] Instance state_eq_dec : EqDecision state.
Proof. solve_decision. Defined.

#[export] Instance label_eq_dec : EqDecision label.
Proof. solve_decision. Defined.

(** The states between two events: the machine rests in no other. *)
Definition stable (s : state) : Prop :=
  s = Idle ∨ s = ReadyNoFile ∨ s = ReadyWithFile ∨ s = Reading.

End Spec.

Import (hints) Spec.

#[export] Hint Constructors Spec.transition : js.

(** ** From worlds to states, from events to labels *)

Section abstraction.
Context {E : Type} `{!WasmModule E}.
Implicit Types (w : World E) (ev : event).

(** [fileInput.files[0]] is a file. *)
Definition has_file w : bool :=
  match fileInput_files (page w) with
  | Some (_ :: _) => true
  | _ => false
  end.

(** The state of the machine a world is in. *)
Definition phase w : Spec.state :=
  match processText (page w), readers w with
  | None, _ => Spec.Idle
  | Some _, _ :: _ => Spec.Reading
  | Some _, [] => if has_file w then Spec.ReadyWithFile else Spec.ReadyNoFile
  end.

(** The transitions of the machine an event stands for.  A successful read
    is followed, in the same turn of the event loop, by the invocation and
    its outcome. *)
Definition abs_labels w ev : list Spec.label :=
  match ev with
  | EvRuntimeInitialized => [Spec.engineReady]
  | EvChange _ => [Spec.filePicked]
  | EvClick => [Spec.analyzeRequested]
  | EvError _ => [Spec.readFailed]
  | EvLoad _ text =>
    match outcome (call_processText text) w with
    | Normal _ => [Spec.readSucceeded; Spec.invokeSucceeded; Spec.attemptDone]
    | Throw _ => [Spec.readSucceeded; Spec.invokeFailed]
    end
  end.

(** The environments the specification describes: the engine becomes ready
    once, before any file is picked; a pick selects a file; nothing is
    clicked or picked while a read is in flight. *)
Definition disciplined w ev : Prop :=
  match ev with
  | EvRuntimeInitialized => phase w = Spec.Idle
  | EvChange fs => fs ≠ [] ∧ (phase w = Spec.ReadyNoFile ∨ phase w = Spec.ReadyWithFile)
  | EvClick => phase w ≠ Spec.Reading
  | EvLoad _ _ | EvError _ => True
  end.

#[export] Instance disciplined_dec w ev : Decision (disciplined w ev).
Proof. destruct ev; simpl; apply _. Defined.

(** A step of the script in such an environment, labelled with the event and
    the transitions it stands for. *)
Definition dstep w (l : event * list Spec.label) w' : Prop :=
  disciplined w l.1 ∧ step w l.1 w' ∧ l.2 = abs_labels w l.1.

(** What holds of the worlds of a disciplined run. *)
Definition disciplined_inv w : Prop :=
  complete w ∧
  is_Some (fileInput_files (page w)) ∧
  length (readers w) ≤ 1 ∧
  (readers w ≠ [] → ready w) ∧
  (phase w = Spec.Idle → has_file w = false) ∧
  (phase w = Spec.Reading → has_file w = true).

(** The worlds a disciplined run starts from: a page with its five elements
    and a file input with an empty selection. *)
Definition initial_empty w : Prop :=
  initial w ∧ complete w ∧ fileInput_files (page w) = Some [].

(** The simulation relation. *)
Definition sim w (s : Spec.state) : Prop := s = phase w ∧ disciplined_inv w.

(** A disciplined run, executed: the events are fired in turn as long as
    the environment keeps the discipline; the result is the labelled run and
    the world it ends in. *)
Fixpoint drun (evs : list event) w :
    option (list (event * list Spec.label) * World E) :=
  match evs with
  | [] => Some ([], w)
  | ev :: evs =>
    if decide (disciplined w ev) then
      w1 ← fire ev w;
      r ← drun evs w1;
      Some ((ev, abs_labels w ev) :: r.1, r.2)
    else None
  end.

End abstraction.

(** The sample run of the refinement: one analysis with the upper-casing
    engine. *)
Definition evs_disciplined : list event :=
  [EvRuntimeInitialized; EvChange [file_a]; EvClick; EvLoad 0 (js_lit "ab")].

(** [world_cases w] splits a world by the three tests [phase] makes; in a
    disciplined world at most one read is in flight. *)
Ltac world_cases w :=
  destruct w as [[[?|] ? [[|? ?]|] ? ? ?] ? [|? [|? ?]]].

(** [sim_case] closes one case of the simulation: either the hypotheses
    (invariant, discipline) exclude the case, or the transitions of the
    machine are found among its rules and the invariant is re-established. *)
Ltac sim_case :=
  cbv [sim disciplined_inv disciplined phase has_file ready complete has] in *;
  simpl in *; destruct_and?; destruct_or?;
  try match goal with H : ?els = all_elements |- _ => subst els end; simpl in *;
  repeat match goal with
         | H : ?P → _ |- _ =>
           let HP := fresh in assert P as HP by done; specialize (H HP); clear HP
         end;
  first
    [ exfalso;
      first [ by match goal with H : is_Some None |- _ => destruct H end
            | congruence | lia | by destruct_or? ]
    | split;
      [ by eauto 6 using trace with js
      | split_and!; first [done | lia | by eexists | by intros [=]] ] ].

(** ** The refinement *)

Section refinement.
Context {E : Type} `{!WasmModule E}.
Implicit Types (w : World E) (ev : event) (s : Spec.state).

(** The phase in terms of the three tests it is made of. *)
Lemma phase_idle w : phase w = Spec.Idle ↔ processText (page w) = None.
Proof.
  unfold phase. destruct (processText (page w)), (readers w), (has_file w);
    naive_solver.
Qed.

Lemma phase_reading w : phase w = Spec.Reading ↔ ready w ∧ readers w ≠ [].
Proof.
  unfold phase, ready. destruct (processText (page w)), (readers w), (has_file w);
    split; try done; try (by intros [[? [=]] ?]); try (by intros [? ?]); eauto.
Qed.

Lemma phase_ready w :
  ready w → readers w = [] →
  phase w = if has_file w then Spec.ReadyWithFile else Spec.ReadyNoFile.
Proof. unfold phase. by intros [f ->] ->. Qed.

Lemma phase_stable w : Spec.stable (phase w).
Proof.
  unfold phase, Spec.stable.
  destruct (processText (page w)), (readers w), (has_file w); auto.
Qed.

(** A single reader in flight is the one that completes. *)
Lemma single_reader_delete w i r :
  length (readers w) ≤ 1 → readers w !! i = Some r → delete i (readers w) = [].
Proof.
  destruct (readers w) as [|r' [|r'' rs]]; simpl; intros Hl Hi; [done| |lia].
  by destruct i.
Qed.

(** The transitions a successful read stands for, by the outcome of the
    call of the wrapper. *)
Lemma abs_labels_load w i text f :
  processText (page w) = Some f →
  abs_labels w (EvLoad i text) =
  match (call_cwrapped f [text] (engine w)).1 with
  | Normal _ => [Spec.readSucceeded; Spec.invokeSucceeded; Spec.attemptDone]
  | Throw _ => [Spec.readSucceeded; Spec.invokeFailed]
  end.
Proof. intros Hf. unfold abs_labels, outcome. by rewrite (call_processText_run f). Qed.

(** One step: every rule of the script, in every world the invariant
    allows, is matched by the transitions its event stands for. *)
Lemma sim_dstep w l w' s :
  sim w s → dstep w l w' → ∃ s', trace Spec.transition s l.2 s' ∧ sim w' s'.
Proof.
  destruct l as [ev las]. intros [-> Hinv] (Hd & Hs & ->). simpl in *.
  exists (phase w').
  destruct Hs; try (erewrite abs_labels_load by done);
    try match goal with H : call_cwrapped _ _ _ = _ |- _ => rewrite H end;
    try (unfold select_files; destruct fs); world_cases w;
    try match goal with
        | H : _ !! ?i = Some _ |- _ => destruct i; simpl in H; [|done]
        end; sim_case.
Qed.

Lemma sim_initial w : initial_empty w → sim w Spec.Idle.
Proof.
  intros ([Hp Hr] & Hc & Hf). unfold sim, disciplined_inv, phase, has_file.
  rewrite Hp, Hr, Hf. split_and!; by eauto.
Qed.

(** Whole runs. *)
Lemma sim_trace w0 ls w :
  initial_empty w0 → trace dstep w0 ls w →
  trace Spec.transition Spec.Idle (ls ≫= snd) (phase w) ∧ disciplined_inv w.
Proof.
  intros Hi Ht.
  destruct (simulation_trace dstep Spec.transition sim snd sim_dstep _ _ _ _
              (sim_initial _ Hi) Ht) as (s & ? & -> & ?).
  done.
Qed.

(** The executed run is a run. *)
Lemma drun_trace evs w ls w' : drun evs w = Some (ls, w') → trace dstep w ls w'.
Proof.
  revert w ls. induction evs as [|ev evs IH]; simpl; intros w ls Hr.
  - simplify_eq. constructor.
  - case_decide; [|done].
    destruct (fire ev w) as [w1|] eqn:Hf; [|done]. simpl in Hr.
    destruct (drun evs w1) as [[ls1 w2]|] eqn:Hd; simplify_eq/=.
    econstructor; [|by eauto].
    split_and!; [done|by apply step_complete|done].
Qed.

(** C10: the script refines the machine of section 4.6.  Along every run
    from an initial world with an empty selection in which the environment
    keeps the discipline of the specification, the transitions the events
    stand for form a run of the machine from [Idle], and it ends in the
    state the final world is in. *)
Theorem disciplined_refines_spec w0 ls w :
  initial_empty w0 → trace dstep w0 ls w →
  trace Spec.transition Spec.Idle (ls ≫= snd) (phase w).
Proof. intros Hi Ht. by destruct (sim_trace _ _ _ Hi Ht). Qed.

(** C26: in a disciplined run at most one read is in flight, it reads while
    the engine is loaded and a file is selected. *)
Theorem disciplined_single_read w0 ls w :
  initial_empty w0 → trace dstep w0 ls w →
  length (readers w) ≤ 1 ∧ (readers w ≠ [] → ready w ∧ has_file w = true).
Proof.
  intros Hi Ht. destruct (sim_trace _ _ _ Hi Ht) as (_ & _ & _ & Hl & Hr & _ & Hf).
  split; [done|]. intros Hne. split; [by auto|].
  apply Hf, phase_reading. by auto.
Qed.

End refinement.

(** ** The refinement at the sample run *)

Lemma w_fresh_initial_empty : initial_empty w_fresh.
Proof. by split_and!. Qed.

Lemma disciplined_refines_spec_witness :
  trace Spec.transition Spec.Idle
    [Spec.engineReady; Spec.filePicked; Spec.analyzeRequested;
     Spec.readSucceeded; Spec.invokeSucceeded; Spec.attemptDone]
    Spec.ReadyWithFile.
Proof.
  destruct (drun evs_disciplined w_fresh) as [[ls w]|] eqn:Hd; [|by vm_compute in Hd].
  pose proof (disciplined_refines_spec w_fresh ls w w_fresh_initial_empty
                (drun_trace _ _ _ _ Hd)) as Ht.
  vm_compute in Hd. by simplify_eq.
Defined.

Lemma evs_reading_disciplined : ∃ ls, trace dstep w_fresh ls (after evs_reading).
Proof. eexists. apply (drun_trace evs_reading). reflexivity. Qed.

Lemma disciplined_single_read_witness :
  length (readers (after evs_reading)) ≤ 1 ∧
  (readers (after evs_reading) ≠ [] →
   ready (after evs_reading) ∧ has_file (after evs_reading) = true).
Proof.
  destruct evs_reading_disciplined as [ls Ht].
  exact (disciplined_single_read w_fresh ls _ w_fresh_initial_empty Ht).
Defined.
