(* ===== verification/Equiv.v ===== *)
(** * Worlds up to the order of the reads in flight

    The reads in flight are kept in a list, and a completion names its
    reader by its position in the list.  The browser knows no such order:
    this file checks that the order, a choice of the model and not of the
    script, is not observable.  Worlds that differ
    only in the order of their readers are equivalent ([≡]); every handler
    respects the equivalence, and the pipeline, started in equivalent worlds,
    does the same to the page and the engine. *)

From stdpp Require Import strings.
From S2P Require Import Prelude JsString Engine Page Handlers Pipeline Refinement.

Section world_equiv.
Context {E : Type} `{!WasmModule E}.
Implicit Types (w : World E) (ev : event) (text : jsstring).

(** Same page, same engine, the same reads in flight in some order. *)
Definition world_equiv w1 w2 : Prop :=
  page w1 = page w2 ∧ engine w1 = engine w2 ∧ readers w1 ≡ₚ readers w2.

#[export] Instance world_Equiv : Equiv (World E) := world_equiv.

(** The same event, up to the position of the reader that completes. *)
Definition same_event ev1 ev2 : Prop :=
  match ev1, ev2 with
  | EvLoad _ text1, EvLoad _ text2 => text1 = text2
  | EvError _, EvError _ => True
  | _, _ => ev1 = ev2
  end.

(** A handler respects the equivalence: in equivalent worlds it completes
    in the same way and leaves equivalent worlds. *)
Definition respects {A : Type} (m : JS (World E) js_error A) : Prop :=
  Proper ((≡) ==> prod_relation (=) (≡)) m.

#[export] Instance world_equivalence : Equivalence (≡@{World E}).
Proof.
  split.
  - by intros w.
  - intros w1 w2 (? & ? & ?). by split_and!.
  - intros w1 w2 w3 (? & ? & ?) (? & ? & ?). split_and!; by etrans.
Qed.

#[export] Instance page_proper : Proper ((≡) ==> (=)) (@page E).
Proof. by intros w1 w2 (? & _). Qed.

#[export] Instance engine_proper : Proper ((≡) ==> (=)) (@engine E).
Proof. by intros w1 w2 (_ & ? & _). Qed.

#[export] Instance readers_proper : Proper ((≡) ==> (≡ₚ)) (@readers E).
Proof. by intros w1 w2 (_ & _ & ?). Qed.

#[export] Instance with_page_proper f : Proper ((≡) ==> (≡)) (@with_page E f).
Proof. intros w1 w2 (Hp & ? & ?). split_and!; simpl; by rewrite ?Hp. Qed.

#[export] Instance with_engine_proper : Proper ((=) ==> (≡) ==> (≡)) (@with_engine E).
Proof. intros e ? <- w1 w2 (Hp & ? & ?). by split_and!. Qed.

#[export] Instance with_readers_proper f :
  Proper ((≡ₚ) ==> (≡ₚ)) f → Proper ((≡) ==> (≡)) (@with_readers E f).
Proof. intros Hf w1 w2 (Hp & ? & ?). split_and!; simpl; [done..|by apply Hf]. Qed.

(** The monad. *)
Lemma respects_ret {A : Type} (a : A) : respects (mret a).
Proof. by intros w1 w2 Hw. Qed.

Lemma respects_throw {A : Type} x : respects (@js_throw _ _ A x).
Proof. by intros w1 w2 Hw. Qed.

Lemma respects_gets {A : Type} (f : World E → A) :
  Proper ((≡) ==> (=)) f → respects (js_gets f).
Proof. intros Hf w1 w2 Hw. split; simpl; [by rewrite (Hf _ _ Hw)|done]. Qed.

Lemma respects_gets_page {A : Type} (f : Page → A) :
  respects (js_gets (λ w, f (page w))).
Proof. apply respects_gets. by intros w1 w2 ->%page_proper. Qed.

Lemma respects_deref (el : Elements → bool) : respects (deref el).
Proof.
  intros w1 w2 Hw. unfold deref. rewrite (page_proper _ _ Hw).
  by destruct (el _).
Qed.

Lemma respects_modify (f : World E → World E) :
  Proper ((≡) ==> (≡)) f → respects (js_modify f).
Proof. intros Hf w1 w2 Hw. split; simpl; [done|by apply Hf]. Qed.

Lemma respects_bind {A B : Type} (m : JS (World E) js_error A)
  (k : A → JS (World E) js_error B) :
  respects m → (∀ a, respects (k a)) → respects (m ≫= k).
Proof.
  intros Hm Hk w1 w2 Hw. unfold mbind, JS_bind, js_bind.
  destruct (Hm _ _ Hw) as [Hc Hw']. 
  destruct (m w1) as [[a|x] w1'], (m w2) as [[a'|x'] w2']; simpl in *; simplify_eq.
  - by apply Hk.
  - done.
Qed.

Lemma respects_in_engine {A : Type} (m : JS E js_error A) : respects (in_engine m).
Proof.
  intros w1 w2 Hw. unfold in_engine. rewrite (engine_proper _ _ Hw).
  destruct (m (engine w2)) as [c e]. split; simpl; [done|by f_equiv].
Qed.

(** The same reader is in flight in an equivalent world, and retiring it
    leaves equivalent worlds. *)
Lemma lookup_Permutation {A : Type} (l1 l2 : list A) i x :
  l1 ≡ₚ l2 → l1 !! i = Some x →
  ∃ j, l2 !! j = Some x ∧ delete i l1 ≡ₚ delete j l2.
Proof.
  intros Hp Hi.
  assert (x ∈ l2) as [j Hj]%list_elem_of_lookup_1
    by (rewrite <-Hp; by eapply list_elem_of_lookup_2).
  exists j. split; [done|]. apply (Permutation_cons_inv (a := x)).
  by rewrite <-(delete_Permutation l1), <-(delete_Permutation l2).
Qed.

Lemma retire_equiv w1 w2 i w1' :
  w1 ≡ w2 → retire i w1 = Some w1' →
  ∃ j w2', retire j w2 = Some w2' ∧ w1' ≡ w2'.
Proof.
  intros Hw Hr. unfold retire in *.
  destruct (readers w1 !! i) as [r|] eqn:Hi; simplify_eq.
  destruct (lookup_Permutation _ (readers w2) _ _ (readers_proper _ _ Hw) Hi)
    as (j & Hj & Hd).
  exists j, (with_readers (delete j) w2). rewrite Hj. split; [done|].
  destruct Hw as (? & ? & ?). by split_and!.
Qed.

#[export] Instance select_files_proper fs : Proper ((≡) ==> (≡)) (@select_files E fs).
Proof.
  intros w1 w2 Hw. unfold select_files. rewrite (page_proper _ _ Hw).
  destruct (fileInput_files (page w2)); [by apply with_page_proper|done].
Qed.

#[export] Instance phase_proper : Proper ((≡) ==> (=)) (@phase E).
Proof.
  intros w1 w2 (Hp & _ & Hr). unfold phase, has_file. rewrite Hp.
  destruct (readers w1) as [|r rs], (readers w2) as [|r' rs']; try done.
  - by apply Permutation_nil_cons in Hr.
  - symmetry in Hr. by apply Permutation_nil_cons in Hr.
Qed.

(** The handlers. *)
Ltac solve_respects :=
  autounfold with js;
  repeat (intros; first
    [ apply respects_ret | apply respects_throw | apply respects_in_engine
    | apply respects_gets_page | apply respects_deref
    | apply respects_modify;
      first [apply with_page_proper | apply with_readers_proper; solve_proper]
    | apply respects_bind
    | match goal with |- respects (match ?x with _ => _ end) => destruct x end ]).

#[export] Instance on_change_proper :
  Proper ((≡@{World E}) ==> prod_relation (=) (≡)) on_change.
Proof. change (respects on_change). unfold on_change. solve_respects. Qed.

#[export] Instance onRuntimeInitialized_proper :
  Proper ((≡@{World E}) ==> prod_relation (=) (≡)) onRuntimeInitialized.
Proof. change (respects onRuntimeInitialized). unfold onRuntimeInitialized. solve_respects. Qed.

#[export] Instance on_click_proper :
  Proper ((≡@{World E}) ==> prod_relation (=) (≡)) on_click.
Proof. change (respects on_click). unfold on_click. solve_respects. Qed.

#[export] Instance reader_onload_proper text :
  Proper ((≡@{World E}) ==> prod_relation (=) (≡)) (reader_onload text).
Proof.
  change (respects (reader_onload text)).
  unfold reader_onload, call_processText. solve_respects.
Qed.

(** The world a computation leaves and the way it completes. *)
#[export] Instance exec_proper {A : Type} (m : JS (World E) js_error A) :
  respects m → Proper ((≡) ==> (≡)) (exec m).
Proof. intros Hm w1 w2 Hw. by destruct (Hm _ _ Hw). Qed.

#[export] Instance outcome_proper {A : Type} (m : JS (World E) js_error A) :
  respects m → Proper ((≡) ==> (=)) (outcome m).
Proof. intros Hm w1 w2 Hw. by destruct (Hm _ _ Hw). Qed.

#[export] Instance reader_onerror_proper :
  Proper ((≡@{World E}) ==> prod_relation (=) (≡)) reader_onerror.
Proof. change (respects reader_onerror). unfold reader_onerror. solve_respects. Qed.

(** One turn of the event loop. *)
Lemma dispatch_equiv w1 w2 ev1 r1 :
  w1 ≡ w2 → dispatch ev1 w1 = Some r1 →
  ∃ ev2 r2, same_event ev1 ev2 ∧ dispatch ev2 w2 = Some r2 ∧
            prod_relation (=) (≡) r1 r2.
Proof.
  intros Hw Hd. destruct ev1 as [|fs| |i text|i]; simpl in Hd.
  - exists EvRuntimeInitialized, (onRuntimeInitialized w2). simplify_eq.
    split_and!; [done..|by apply onRuntimeInitialized_proper].
  - exists (EvChange fs), (on_change (select_files fs w2)). simplify_eq.
    split_and!; [done..|by apply on_change_proper, select_files_proper].
  - exists EvClick, (on_click w2). simplify_eq.
    split_and!; [done..|by apply on_click_proper].
  - destruct (retire i w1) as [w1'|] eqn:Hr; simplify_eq/=.
    destruct (retire_equiv _ _ _ _ Hw Hr) as (j & w2' & Hj & Hw').
    exists (EvLoad j text), (reader_onload text w2'). simpl. rewrite Hj.
    split_and!; [done..|by apply reader_onload_proper].
  - destruct (retire i w1) as [w1'|] eqn:Hr; simplify_eq/=.
    destruct (retire_equiv _ _ _ _ Hw Hr) as (j & w2' & Hj & Hw').
    exists (EvError j), (reader_onerror w2'). simpl. rewrite Hj.
    split_and!; [done..|by apply reader_onerror_proper].
Qed.

Lemma step_equiv w1 w2 ev1 w1' :
  w1 ≡ w2 → step w1 ev1 w1' →
  ∃ ev2 w2', same_event ev1 ev2 ∧ step w2 ev2 w2' ∧ w1' ≡ w2'.
Proof.
  intros Hw Hs%step_sound. unfold fire in Hs.
  destruct (dispatch ev1 w1) as [r1|] eqn:Hd; simplify_eq/=.
  destruct (dispatch_equiv _ _ _ _ Hw Hd) as (ev2 & r2 & ? & Hd2 & _ & ?).
  exists ev2, r2.2. split_and!; [done| |done].
  apply step_complete. unfold fire. by rewrite Hd2.
Qed.

(** The order in which the reads in flight are listed is not
    observable in one turn of the event loop: in two worlds that differ only
    in that order, an event and the same event for the same reader leave
    the same exception uncaught, if any, and worlds that again differ only
    in that order. *)
Theorem fire_respects_equiv w1 w2 ev1 w1' :
  w1 ≡ w2 → fire ev1 w1 = Some w1' →
  ∃ ev2 w2', same_event ev1 ev2 ∧ fire ev2 w2 = Some w2' ∧ w1' ≡ w2' ∧
             uncaught ev1 w1 = uncaught ev2 w2.
Proof.
  intros Hw Hf. unfold fire, uncaught in *.
  destruct (dispatch ev1 w1) as [r1|] eqn:Hd; simplify_eq/=.
  destruct (dispatch_equiv _ _ _ _ Hw Hd) as (ev2 & r2 & ? & Hd2 & Hc & ?).
  exists ev2, r2.2. rewrite Hd2. split_and!; [done..|].
  destruct r1 as [[] ?], r2 as [[] ?]; by simplify_eq/=.
Qed.

(** Nor is it observable along a trace: from two worlds that differ
    only in the order of the reads in flight, the same events, each
    completion for the same reader, lead to the same page and the same
    engine. *)
Theorem trace_respects_equiv w1 w2 evs1 w1' :
  w1 ≡ w2 → trace step w1 evs1 w1' →
  ∃ evs2 w2', Forall2 same_event evs1 evs2 ∧ trace step w2 evs2 w2' ∧
              page w1' = page w2' ∧ engine w1' = engine w2' ∧
              readers w1' ≡ₚ readers w2'.
Proof.
  intros Hw Ht. revert w2 Hw.
  induction Ht as [|w1 ev1 w1a evs1 w1' Hs _ IH]; intros w2 Hw.
  - exists [], w2. by split_and!; [|constructor|apply Hw..].
  - destruct (step_equiv _ _ _ _ Hw Hs) as (ev2 & w2a & ? & ? & Hwa).
    destruct (IH _ Hwa) as (evs2 & w2' & ? & ? & ? & ? & ?).
    exists (ev2 :: evs2), w2'. split_and!; [by constructor|by econstructor|done..].
Qed.

End world_equiv.

(** ** Two reads in flight, listed in the two orders *)

Definition evs_two_reads : list event :=
  [EvRuntimeInitialized; EvChange [file_a]; EvClick; EvChange [file_b]; EvClick].

Definition w_two_reads : World upper_engine := after evs_two_reads.

Definition w_two_reads_swapped : World upper_engine :=
  with_readers reverse w_two_reads.

(** The read of [file_a] succeeds, the read of [file_b] fails. *)
Definition evs_complete_both : list event := [EvLoad 0 (js_lit "a"); EvError 0].

Lemma w_two_reads_equiv : w_two_reads ≡ w_two_reads_swapped.
Proof.
  split_and!; [done..|].
  change (readers w_two_reads ≡ₚ reverse (readers w_two_reads)).
  by rewrite reverse_Permutation.
Qed.

Lemma fire_respects_equiv_witness :
  ∃ ev2 w2',
    same_event (EvLoad 0 (js_lit "a")) ev2 ∧
    fire ev2 w_two_reads_swapped = Some w2' ∧
    after (evs_two_reads ++ [EvLoad 0 (js_lit "a")]) ≡ w2' ∧
    uncaught (EvLoad 0 (js_lit "a")) w_two_reads = uncaught ev2 w_two_reads_swapped.
Proof.
  apply (fire_respects_equiv w_two_reads w_two_reads_swapped);
    [exact w_two_reads_equiv|by vm_compute].
Defined.

Lemma trace_respects_equiv_witness :
  ∃ evs2 w2',
    Forall2 same_event evs_complete_both evs2 ∧
    trace step w_two_reads_swapped evs2 w2' ∧
    page (after (evs_two_reads ++ evs_complete_both)) = page w2' ∧
    engine (after (evs_two_reads ++ evs_complete_both)) = engine w2' ∧
    readers (after (evs_two_reads ++ evs_complete_both)) ≡ₚ readers w2'.
Proof.
  apply (trace_respects_equiv w_two_reads w_two_reads_swapped);
    [exact w_two_reads_equiv|].
  apply run_step_trace. by vm_compute.
Defined.
